(** * Portfolio city: resource cache, placement, scheduler, player, disposal

    A shallow embedding of the scene-construction and runtime-update code of
    the 3D portfolio city (Portfolio.js, Building.js, Character.js, main.js).

    Conventions of the embedding.
    - JavaScript numbers are modelled by exact rationals [Q]; rounding of
      IEEE doubles is not modelled.
    - [Math.random()] is a stream [nat -> Q] read through a cursor that is
      threaded through the code: every call reads the next element.
    - Object identity (JavaScript reference equality) is an allocation
      number: two handles are the same object iff their numbers agree.
    - A cache that the code creates as a plain object [{}] is a finite
      map for its own properties; a read [cache[key]] also finds the
      properties that the object inherits from [Object.prototype].
    - Exceptions are explicit results.
    - The constructors of the three.js library and the printing of numbers
      are parameters of the sections that need them. *)

From Stdlib Require Import QArith Qround Qabs Lqa Ascii.
From stdpp Require Import gmap strings list pretty.

Local Open Scope Q_scope.

(** * Part I: the program *)

(** ** Numbers and random numbers *)

Definition Qltb (x y : Q) : bool := negb (Qle_bool y x).

(** The source of [Math.random()]: the n-th call returns [rng n]. *)
Definition Rng := nat -> Q.

(** [Math.random()] returns a number in the half-open interval from 0 to 1. *)
Definition rng_in_range (rng : Rng) : Prop := forall n, 0 <= rng n /\ rng n < 1.

(** ** JavaScript values, [Array.prototype.join] and [JSON.stringify] *)
Module Js.

Inductive Completion (A : Type) :=
| Normal (a : A)
| Throw (message : string).
Arguments Normal {A} a.
Arguments Throw {A} message.

Inductive JsVal :=
| JUndefined
| JNull
| JBool (b : bool)
| JNum (n : Q)
| JStr (s : string).

(** A plain object literal: its properties in the order they are
    written, the names taken as computed names, so that every entry
    defines an own property. An entry whose name was written before
    gives the property its new value and leaves it in its place. *)
Definition JsObject := list (string * JsVal).

(** One entry of the literal added to the own properties so far. *)
Fixpoint define (k : string) (v : JsVal) (ps : JsObject) : JsObject :=
  match ps with
  | [] => [(k, v)]
  | (k', v') :: rest =>
      if String.eqb k k' then (k', v) :: rest else (k', v') :: define k v rest
  end.

(** The own properties in the order of their creation, every name once. *)
Definition created (o : JsObject) : JsObject :=
  fold_left (λ ps p, define p.1 p.2 ps) o [].

Fixpoint valueAt (k : string) (ps : JsObject) : JsVal :=
  match ps with
  | [] => JUndefined
  | (k', v) :: rest => if String.eqb k k' then v else valueAt k rest
  end.

(** Property lookup [o.k] on an object literal. *)
Definition get (k : string) (o : JsObject) : JsVal := valueAt k (created o).

Fixpoint keys (o : JsObject) : list string :=
  match o with
  | [] => []
  | (k, _) :: rest => k :: keys rest
  end.

(** The value of a decimal digit. *)
Definition digit (c : ascii) : option N :=
  let n := N_of_ascii c in
  if ((48 <=? n) && (n <=? 57))%N then Some (n - 48)%N else None.

Fixpoint decimal (s : string) (acc : N) : option N :=
  match s with
  | EmptyString => Some acc
  | String c rest =>
      match digit c with
      | Some d => decimal rest (10 * acc + d)%N
      | None => None
      end
  end.

(** A property name that is an array index: the decimal text, without
    leading zeros, of an integer below 2^32 - 1. *)
Definition arrayIndex (k : string) : option N :=
  match k with
  | EmptyString => None
  | String "0" EmptyString => Some 0%N
  | String "0" _ => None
  | _ =>
      match decimal k 0 with
      | Some n => if (n <? 4294967295)%N then Some n else None
      | None => None
      end
  end.

Fixpoint insertByIndex (n : N) (p : string * JsVal)
    (l : list (N * (string * JsVal))) : list (N * (string * JsVal)) :=
  match l with
  | [] => [(n, p)]
  | (m, q) :: rest =>
      if (n <=? m)%N then (n, p) :: l else (m, q) :: insertByIndex n p rest
  end.

Fixpoint indexProperties (ps : JsObject) : list (N * (string * JsVal)) :=
  match ps with
  | [] => []
  | (k, v) :: rest =>
      match arrayIndex k with
      | Some n => insertByIndex n (k, v) (indexProperties rest)
      | None => indexProperties rest
      end
  end.

Fixpoint nameProperties (ps : JsObject) : JsObject :=
  match ps with
  | [] => []
  | (k, v) :: rest =>
      match arrayIndex k with
      | Some _ => nameProperties rest
      | None => (k, v) :: nameProperties rest
      end
  end.

(** The own properties in the order in which JavaScript enumerates
    them: the array indices in ascending order, then the other names in
    the order of their creation. *)
Definition ownProperties (o : JsObject) : JsObject :=
  (snd <$> indexProperties (created o)) ++ nameProperties (created o).

(** The names of the properties of [Object.prototype], which every
    plain object [{}] inherits. Each of them has a truthy value: a
    function, or the prototype itself for [__proto__]. *)
Definition prototypeNames : list string :=
  ["constructor"; "__defineGetter__"; "__defineSetter__"; "hasOwnProperty";
   "__lookupGetter__"; "__lookupSetter__"; "isPrototypeOf";
   "propertyIsEnumerable"; "toString"; "valueOf"; "__proto__";
   "toLocaleString"].

Definition inherited (key : string) : bool :=
  existsb (String.eqb key) prototypeNames.

(** What [cache[key]] finds in a plain object that is used as a map
    from keys to objects of the heap: an own property, which holds the
    identity of such an object, or a property of the prototype. *)
Inductive Read :=
| Own (r : nat)
| Inherited (name : string).

(** [cache[key]]; [None] is the value [undefined]. Every value found is
    truthy. *)
Definition read (cache : gmap string nat) (key : string) : option Read :=
  match cache !! key with
  | Some r => Some (Own r)
  | None => if inherited key then Some (Inherited key) else None
  end.

Section Printing.
(** [Number.prototype.toString], also used by JSON for finite numbers. *)
Variable numToString : Q -> string.
(** JSON quoting of a string (quotes added, special characters escaped). *)
Variable jsonQuote : string -> string.

Definition toString (v : JsVal) : string :=
  match v with
  | JUndefined => "undefined"
  | JNull => "null"
  | JBool true => "true"
  | JBool false => "false"
  | JNum n => numToString n
  | JStr s => s
  end.

(** [join] prints [undefined] and [null] as the empty string. *)
Definition joinElement (v : JsVal) : string :=
  match v with
  | JUndefined | JNull => ""
  | _ => toString v
  end.

Fixpoint join (sep : string) (params : list JsVal) : string :=
  match params with
  | [] => ""
  | [v] => joinElement v
  | v :: rest => joinElement v +:+ sep +:+ join sep rest
  end.

(** JSON text of a property value; [undefined] has none. *)
Definition jsonValue (v : JsVal) : option string :=
  match v with
  | JUndefined => None
  | JNull => Some "null"
  | JBool true => Some "true"
  | JBool false => Some "false"
  | JNum n => Some (numToString n)
  | JStr s => Some (jsonQuote s)
  end.

(** Members of the given properties in their order; properties without
    JSON text are left out. *)
Fixpoint jsonMembers (ps : JsObject) : list string :=
  match ps with
  | [] => []
  | (k, v) :: rest =>
      match jsonValue v with
      | None => jsonMembers rest
      | Some s => (jsonQuote k +:+ ":" +:+ s) :: jsonMembers rest
      end
  end.

Definition JSON_stringify (o : JsObject) : string :=
  "{" +:+ String.concat "," (jsonMembers (ownProperties o)) +:+ "}".

End Printing.

(** Two object literals are structurally equal when they have the same
    properties with the same values, whatever the order they were written in. *)
Definition structurallyEqual (o1 o2 : JsObject) : Prop :=
  NoDup (keys o1) /\ NoDup (keys o2) /\ keys o1 ≡ₚ keys o2 /\
  forall k, get k o1 = get k o2.

(** A string without the underscore that separates the parts of a
    cache key. *)
Fixpoint underscoreFree (s : string) : bool :=
  match s with
  | EmptyString => true
  | String c rest => negb (Ascii.eqb c "_"%char) && underscoreFree rest
  end.

(** A string without an opening brace, the first character of the JSON
    text of an object. *)
Fixpoint braceFree (s : string) : bool :=
  match s with
  | EmptyString => true
  | String c rest => negb (Ascii.eqb c "{"%char) && braceFree rest
  end.

(** A parameter whose text in [join] is not empty and has no underscore,
    as the text of every number. *)
Definition cleanElement (numToString : Q -> string) (v : JsVal) : bool :=
  negb (String.eqb (joinElement numToString v) "")
  && underscoreFree (joinElement numToString v).

End Js.

(** ** The three.js objects the code works on *)
Module Three.

Record Vector3 := mkVector3 { vx : Q; vy : Q; vz : Q }.

Record Box3 := mkBox3 { bmin : Vector3; bmax : Vector3 }.

(** [this.intersectsBox(box)] *)
Definition intersectsBox (this box : Box3) : bool :=
  if Qltb (vx (bmax box)) (vx (bmin this)) || Qltb (vx (bmax this)) (vx (bmin box))
     || Qltb (vy (bmax box)) (vy (bmin this)) || Qltb (vy (bmax this)) (vy (bmin box))
     || Qltb (vz (bmax box)) (vz (bmin this)) || Qltb (vz (bmax this)) (vz (bmin box))
  then false else true.

(** [a.distanceTo(b)] is the square root of this sum. *)
Definition distanceToSquared (a b : Vector3) : Q :=
  (vx a - vx b) * (vx a - vx b) + (vy a - vy b) * (vy a - vy b)
  + (vz a - vz b) * (vz a - vz b).

(** [v.length() > 0], without the root. *)
Definition lengthPositive (v : Vector3) : bool :=
  Qltb 0 (vx v * vx v + vy v * vy v + vz v * vz v).

Inductive GeometryKind :=
| BoxGeometry | PlaneGeometry | CylinderGeometry
| ConeGeometry | TorusGeometry | CircleGeometry | CapsuleGeometry.

Inductive MaterialKind :=
| MeshStandardMaterial | MeshBasicMaterial | MeshPhongMaterial.

(** What [geometry.computeBoundingSphere()] does when it is called. *)
Inductive ComputeOutcome :=
| ComputeThrows
| ComputeSets (hasSphere : bool).

(** A geometry object on the heap. *)
Record Geometry := mkGeometry {
  g_kind : GeometryKind;
  g_params : list Js.JsVal;
  boundingSphere : bool;            (* is [geometry.boundingSphere] set *)
  computeBoundingSphere : ComputeOutcome
}.

(** A material object on the heap. Colours are 24-bit hex numbers. *)
Record Material := mkMaterial {
  m_kind : MaterialKind;
  color : Z;
  emissive : Z;
  emissiveIntensity : Q;
  map : option nat                  (* reference to a texture *)
}.

Record Quaternion := mkQuaternion { qx : Q; qy : Q; qz : Q; qw : Q }.

Inductive ObjectKind := Group | Mesh | InstancedMesh.

Definition isMesh (k : ObjectKind) : bool :=
  match k with Group => false | Mesh | InstancedMesh => true end.

Definition isInstancedMesh (k : ObjectKind) : bool :=
  match k with InstancedMesh => true | _ => false end.

Record UserData := mkUserData {
  isLogo : bool;
  originalColor : option Z          (* [None] when the property is absent *)
}.

(** A node of the scene graph; [geometry] and [material] are references
    into the heap, shared between nodes that use the same cached object. *)
#[warnings="-register-all"]
Inductive Object3D := mkObject3D {
  kind : ObjectKind;
  position : Vector3;
  quaternion : Quaternion;
  userData : UserData;
  geometry : option nat;
  material : option nat;
  children : list Object3D
}.

(** The heap of three.js resources, and the two caches that the Portfolio
    creates and passes to every Building (one shared object each). *)
Record Store := mkStore {
  geometries : gmap nat Geometry;
  materials : gmap nat Material;
  nextRef : nat;                    (* next fresh object identity *)
  geometryCache : gmap string nat;
  materialCache : gmap string nat
}.

Definition emptyStore : Store :=
  mkStore ∅ ∅ 0%nat ∅ ∅.

(** Invariant of the store: cached handles have been allocated, and no
    handle is cached under two keys. *)
Record wellFormed (s : Store) : Prop := mkWellFormed {
  geometry_allocated :
    forall k r, geometryCache s !! k = Some r -> (r < nextRef s)%nat;
  material_allocated :
    forall k r, materialCache s !! k = Some r -> (r < nextRef s)%nat;
  geometry_unshared :
    forall k1 k2 r,
      geometryCache s !! k1 = Some r -> geometryCache s !! k2 = Some r -> k1 = k2;
  material_unshared :
    forall k1 k2 r,
      materialCache s !! k1 = Some r -> materialCache s !! k2 = Some r -> k1 = k2
}.

(** [s'] is a later state of the store [s]: the caches only grow. *)
Definition extends (s s' : Store) : Prop :=
  geometryCache s ⊆ geometryCache s' /\ materialCache s ⊆ materialCache s'
  /\ (nextRef s <= nextRef s')%nat.

(** Every cached handle refers to an object of the heap. *)
Definition backed (s : Store) : Prop :=
  (forall k r, geometryCache s !! k = Some r -> is_Some (geometries s !! r))
  /\ (forall k r, materialCache s !! k = Some r -> is_Some (materials s !! r)).

(** A call of a [dispose()] or removal method, as the renderer sees it. *)
Inductive Release :=
| DisposeGeometry (r : nat)
| DisposeMaterial (r : nat)
| DisposeTexture (r : nat)
| DisposeRenderer
| RemoveCanvas
| RemoveMinimap
| RemoveFromScene (o : Object3D).

(** [callback] applied to the object and then to all its descendants, as
    [object.traverse(callback)] does, for a callback that only reads. *)
Fixpoint traverseCollect {A : Type} (callback : Object3D -> list A)
    (o : Object3D) : list A :=
  callback o ++
  (fix each (cs : list Object3D) : list A :=
     match cs with
     | [] => []
     | c :: rest => traverseCollect callback c ++ each rest
     end) (children o).

End Three.

(** ** Building.js *)
Module Building.
Import Three.

Record Building := mkBuilding {
  ref : nat;                        (* identity of the Building object *)
  width : Q;
  height : Q;
  depth : Q;
  type : string;
  mesh : option Object3D;           (* the root THREE.Group *)
  logo : option Object3D;           (* set when the logo texture has loaded *)
  geometryCache : bool;             (* is [this.geometryCache] non-null *)
  materialCache : bool              (* is [this.materialCache] non-null *)
}.

Section Resources.
Variable numToString : Q -> string.
Variable jsonQuote : string -> string.
(** [new THREE.BoxGeometry(...params)] and the like. *)
Variable newGeometry : GeometryKind -> list Js.JsVal -> Geometry.
(** [new THREE.MeshStandardMaterial(params)] and the like. *)
Variable newMaterial : MaterialKind -> Js.JsObject -> Material.

(** The [switch (type)] of [Building.getGeometry]: it has no default. *)
Definition geometryKind (type : string) : option GeometryKind :=
  if String.eqb type "box" then Some BoxGeometry
  else if String.eqb type "plane" then Some PlaneGeometry
  else if String.eqb type "cylinder" then Some CylinderGeometry
  else if String.eqb type "cone" then Some ConeGeometry
  else if String.eqb type "torus" then Some TorusGeometry
  else None.

Definition materialKind (type : string) : option MaterialKind :=
  if String.eqb type "standard" then Some MeshStandardMaterial
  else if String.eqb type "basic" then Some MeshBasicMaterial
  else if String.eqb type "phong" then Some MeshPhongMaterial
  else None.

Definition geometryKey (type : string) (params : list Js.JsVal) : string :=
  type +:+ "_" +:+ Js.join numToString "_" params.

Definition materialKey (type : string) (params : Js.JsObject) : string :=
  type +:+ "_" +:+ Js.JSON_stringify numToString jsonQuote params.

(** [getGeometry(type, ...params)]; [None] is the value [undefined]. *)
Definition getGeometry (this : Building) (type : string)
    (params : list Js.JsVal) (s : Store) : option Js.Read * Store :=
  if geometryCache this then
    let key := geometryKey type params in
    match Js.read (Three.geometryCache s) key with
    | Some v => (Some v, s)
    | None =>
        match geometryKind type with
        | Some k =>
            let r := nextRef s in
            (Some (Js.Own r),
             mkStore (<[r := newGeometry k params]> (geometries s))
               (materials s) (S r)
               (<[key := r]> (Three.geometryCache s))
               (Three.materialCache s))
        | None => (None, s)
        end
    end
  else
    match geometryKind type with
    | Some k =>
        let r := nextRef s in
        (Some (Js.Own r),
         mkStore (<[r := newGeometry k params]> (geometries s))
           (materials s) (S r)
           (Three.geometryCache s) (Three.materialCache s))
    | None => (None, s)
    end.

(** [getMaterial(type, params)]; [None] is the value [undefined]. *)
Definition getMaterial (this : Building) (type : string)
    (params : Js.JsObject) (s : Store) : option Js.Read * Store :=
  if materialCache this then
    let key := materialKey type params in
    match Js.read (Three.materialCache s) key with
    | Some v => (Some v, s)
    | None =>
        match materialKind type with
        | Some k =>
            let r := nextRef s in
            (Some (Js.Own r),
             mkStore (geometries s)
               (<[r := newMaterial k params]> (materials s)) (S r)
               (Three.geometryCache s)
               (<[key := r]> (Three.materialCache s)))
        | None => (None, s)
        end
    end
  else
    match materialKind type with
    | Some k =>
        let r := nextRef s in
        (Some (Js.Own r),
         mkStore (geometries s)
           (<[r := newMaterial k params]> (materials s)) (S r)
           (Three.geometryCache s) (Three.materialCache s))
    | None => (None, s)
    end.

End Resources.

(** *** Window generation *)

Inductive Face := Front | Back | Right | Left.

(** One call [windowInstancedMesh.setMatrixAt(index, matrix)]; the face and
    the cell say which window it is. *)
Record SetMatrixAt := mkSetMatrixAt {
  index : nat;
  face : Face;
  column : nat;
  row : nat
}.

(** State of [addWindows] while it runs: the cursor into the random
    numbers, [instanceIndex], and the calls made so far. *)
Record WindowState := mkWindowState {
  cursor : nat;
  instanceIndex : nat;
  calls : list SetMatrixAt
}.

(** The calls made so far use the indices below [instanceIndex]. *)
Definition indexed (st : WindowState) : Prop :=
  Forall (λ c, (index c < instanceIndex st)%nat) (calls st).

Definition windowsHorizontal (this : Building) : Z := Qfloor (width this * 2).
Definition windowsVertical (this : Building) : Z := Qfloor (height this * 1.5).
Definition sideWindowsHorizontal (this : Building) : Z := Qfloor (depth this * 2).

(** The capacity given to [new THREE.InstancedMesh(..., totalWindows)]. *)
Definition totalWindows (this : Building) : Z :=
  (windowsHorizontal this * windowsVertical this * 4)%Z.

(** The calls made so far are numbered in order from 0, and
    [instanceIndex] counts them. *)
Definition dense (st : WindowState) : Prop :=
  length (calls st) = instanceIndex st
  /\ forall i c, calls st !! i = Some c -> index c = i.

(** Among the [n] random numbers from the [k]-th on, how many are at
    most 0.8, so that the cell that draws them keeps its windows. *)
Definition kept (rng : Rng) (k n : nat) : nat :=
  length (filter (λ i, Qltb 0.8 (rng i) = false) (seq k n)).

(** The number of window cells of a building: the front cells and, for
    a building wider than 1.5, the side cells. *)
Definition cells (this : Building) : nat :=
  (Z.to_nat (windowsVertical this) * Z.to_nat (windowsHorizontal this)
   + if Qltb 1.5 (width this)
     then Z.to_nat (windowsVertical this) * Z.to_nat (sideWindowsHorizontal this)
     else 0)%nat.

Section AddWindows.
Variable rng : Rng.

(** The body of the inner loops: skip the cell when
    [Math.random() > 0.8], else place a window on each of two faces. *)
Definition cell (f1 f2 : Face) (i j : nat) (st : WindowState) : WindowState :=
  if Qltb 0.8 (rng (cursor st)) then
    mkWindowState (S (cursor st)) (instanceIndex st) (calls st)
  else
    mkWindowState (S (cursor st)) (S (S (instanceIndex st)))
      (calls st ++ [mkSetMatrixAt (instanceIndex st) f1 i j;
                    mkSetMatrixAt (S (instanceIndex st)) f2 i j]).

(** [for (let j = from; j < from + todo; j++)] *)
Fixpoint forRows (f1 f2 : Face) (i : nat) (todo from : nat)
    (st : WindowState) : WindowState :=
  match todo with
  | O => st
  | S todo' => forRows f1 f2 i todo' (S from) (cell f1 f2 i from st)
  end.

(** [for (let i = from; i < from + todo; i++)] around the loop on [j]. *)
Fixpoint forColumns (f1 f2 : Face) (rows : nat) (todo from : nat)
    (st : WindowState) : WindowState :=
  match todo with
  | O => st
  | S todo' =>
      forColumns f1 f2 rows todo' (S from) (forRows f1 f2 from rows 0%nat st)
  end.

Definition addWindows (this : Building) (start : nat) : WindowState :=
  let st0 := mkWindowState start 0%nat [] in
  let st1 := forColumns Front Back (Z.to_nat (windowsVertical this))
               (Z.to_nat (windowsHorizontal this)) 0%nat st0 in
  if Qltb 1.5 (width this) then
    forColumns Right Left (Z.to_nat (windowsVertical this))
      (Z.to_nat (sideWindowsHorizontal this)) 0%nat st1
  else st1.

End AddWindows.

(** *** Highlighting *)

(** Truth value of [child.userData.originalColor]: absent and 0 are false. *)
Definition truthyColor (c : option Z) : bool :=
  match c with
  | Some v => negb (v =? 0)%Z
  | None => false
  end.

Definition setEmissive (e : Z) (i : Q) (m : Material) : Material :=
  mkMaterial (m_kind m) (color m) e i (map m).

Definition setOriginalColor (c : option Z) (o : Object3D) : Object3D :=
  mkObject3D (kind o) (position o) (quaternion o)
    (mkUserData (isLogo (userData o)) c)
    (geometry o) (material o) (children o).

Definition setChildren (cs : list Object3D) (o : Object3D) : Object3D :=
  mkObject3D (kind o) (position o) (quaternion o) (userData o)
    (geometry o) (material o) cs.

(** The callback of [highlight]. Every three.js mesh has a material; a
    reference that is absent or dangling leaves everything as it is. *)
Definition highlightChild (child : Object3D) (ms : gmap nat Material)
    : Object3D * gmap nat Material :=
  if isLogo (userData child) then (child, ms)
  else if isMesh (kind child) then
    match material child with
    | None => (child, ms)
    | Some r =>
        if isInstancedMesh (kind child) then
          (child, alter (setEmissive 0xffffff 0.2) r ms)
        else if truthyColor (originalColor (userData child)) then (child, ms)
        else
          match ms !! r with
          | None => (child, ms)
          | Some m =>
              (setOriginalColor (Some (color m)) child,
               alter (setEmissive 0xffffff 0.2) r ms)
          end
    end
  else (child, ms).

(** The callback of [unhighlight]. *)
Definition unhighlightChild (child : Object3D) (ms : gmap nat Material)
    : Object3D * gmap nat Material :=
  if isLogo (userData child) then (child, ms)
  else if isMesh (kind child) then
    match material child with
    | None => (child, ms)
    | Some r =>
        if isInstancedMesh (kind child) then
          (child, alter (setEmissive 0x000000 0) r ms)
        else if truthyColor (originalColor (userData child)) then
          (setOriginalColor None child, alter (setEmissive 0x000000 0) r ms)
        else (child, ms)
    end
  else (child, ms).

Section ForEach.
Variable callback :
  Object3D -> gmap nat Material -> Object3D * gmap nat Material.

(** [children.forEach(callback)] for a callback that changes the child
    it is given and the materials. *)
Fixpoint forEachChild (cs : list Object3D) (ms : gmap nat Material)
    : list Object3D * gmap nat Material :=
  match cs with
  | [] => ([], ms)
  | c :: rest =>
      let '(c', ms') := callback c ms in
      let '(rest', ms'') := forEachChild rest ms' in
      (c' :: rest', ms'')
  end.
End ForEach.

(** [o.traverse(callback)]: the node first, then the traversal of each
    of its children in order. *)
Fixpoint traverse
    (callback : Object3D -> gmap nat Material -> Object3D * gmap nat Material)
    (o : Object3D) (ms : gmap nat Material) : Object3D * gmap nat Material :=
  let '(o1, ms1) := callback o ms in
  let '(cs, ms2) := forEachChild (traverse callback) (children o) ms1 in
  (setChildren cs o1, ms2).

Definition setMesh (m : option Object3D) (this : Building) : Building :=
  mkBuilding (ref this) (width this) (height this) (depth this) (type this)
    m (logo this) (geometryCache this) (materialCache this).

Definition highlight (this : Building) (ms : gmap nat Material)
    : Building * gmap nat Material :=
  match mesh this with
  | None => (this, ms)
  | Some root =>
      let '(root', ms') := traverse highlightChild root ms in
      (setMesh (Some root') this, ms')
  end.

Definition unhighlight (this : Building) (ms : gmap nat Material)
    : Building * gmap nat Material :=
  match mesh this with
  | None => (this, ms)
  | Some root =>
      let '(root', ms') := traverse unhighlightChild root ms in
      (setMesh (Some root') this, ms')
  end.

(** The material that the callbacks of [highlight] and [unhighlight]
    may write to at one node: that of a mesh without the logo mark. *)
Definition highlightTarget (o : Object3D) : list nat :=
  if isLogo (userData o) then []
  else if isMesh (kind o) then option_list (material o) else [].

Definition highlightTargets (root : Object3D) : list nat :=
  traverseCollect highlightTarget root.


(** The same two methods in the earlier Building.js, which go through
    the direct children of the root only and do not look at the kind. *)
Definition highlightChildEarlier (child : Object3D) (ms : gmap nat Material)
    : Object3D * gmap nat Material :=
  if isLogo (userData child) then (child, ms)
  else
    match material child with
    | None => (child, ms)
    | Some r =>
        if truthyColor (originalColor (userData child)) then (child, ms)
        else
          match ms !! r with
          | None => (child, ms)
          | Some m =>
              (setOriginalColor (Some (color m)) child,
               alter (setEmissive 0xffffff 0.2) r ms)
          end
    end.

Definition unhighlightChildEarlier (child : Object3D) (ms : gmap nat Material)
    : Object3D * gmap nat Material :=
  if isLogo (userData child) then (child, ms)
  else
    match material child with
    | None => (child, ms)
    | Some r =>
        if truthyColor (originalColor (userData child)) then
          (setOriginalColor None child, alter (setEmissive 0x000000 0) r ms)
        else (child, ms)
    end.

Definition highlightEarlier (this : Building) (ms : gmap nat Material)
    : Building * gmap nat Material :=
  match mesh this with
  | None => (this, ms)
  | Some root =>
      let '(cs, ms') := forEachChild highlightChildEarlier (children root) ms in
      (setMesh (Some (setChildren cs root)) this, ms')
  end.

Definition unhighlightEarlier (this : Building) (ms : gmap nat Material)
    : Building * gmap nat Material :=
  match mesh this with
  | None => (this, ms)
  | Some root =>
      let '(cs, ms') := forEachChild unhighlightChildEarlier (children root) ms in
      (setMesh (Some (setChildren cs root)) this, ms')
  end.

(** *** Disposal *)

Definition disposeMap (ms : gmap nat Material) (r : nat) : list Release :=
  match ms !! r with
  | Some m => match map m with Some t => [DisposeTexture t] | None => [] end
  | None => []
  end.

(** The callback of the traversal in [dispose]. *)
Definition disposeChild (this : Building) (ms : gmap nat Material)
    (child : Object3D) : list Release :=
  if isMesh (kind child) && negb (geometryCache this)
     && negb (materialCache this) then
    match geometry child with Some g => [DisposeGeometry g] | None => [] end
    ++ match material child with
       | Some r => disposeMap ms r ++ [DisposeMaterial r]
       | None => []
       end
  else [].

(** [dispose()]: the releases it makes, in order. *)
Definition dispose (this : Building) (ms : gmap nat Material) : list Release :=
  match logo this with
  | Some l => match material l with Some r => disposeMap ms r | None => [] end
  | None => []
  end
  ++ match mesh this with
     | Some root => traverseCollect (disposeChild this ms) root
     | None => []
     end.

End Building.

(** ** Character.js *)
Module Character.
Import Three.

Inductive Action := Idle | Walk | Run.

Record Animations := mkAnimations {
  idle : bool;                      (* is [this.animations.idle] set *)
  walk : bool;
  run : bool
}.

Record Character := mkCharacter {
  model : option Object3D;
  tempModel : option Object3D;
  shadow : option Object3D;
  mixer : bool;                     (* is [this.mixer] set *)
  animations : Animations;
  currentAction : option Action;
  moveForward : bool;
  moveBackward : bool;
  moveLeft : bool;
  moveRight : bool;
  isRunning : bool;
  cameraOffset : Vector3
}.

(** [this.model || this.tempModel] *)
Definition target (this : Character) : option Object3D :=
  match model this with
  | Some m => Some m
  | None => tempModel this
  end.

(** Writing through the reference [this.model || this.tempModel]. *)
Definition setTarget (o : Object3D) (this : Character) : Character :=
  match model this with
  | Some _ =>
      mkCharacter (Some o) (tempModel this) (shadow this) (mixer this)
        (animations this) (currentAction this) (moveForward this)
        (moveBackward this) (moveLeft this) (moveRight this)
        (isRunning this) (cameraOffset this)
  | None =>
      mkCharacter None (Some o) (shadow this) (mixer this)
        (animations this) (currentAction this) (moveForward this)
        (moveBackward this) (moveLeft this) (moveRight this)
        (isRunning this) (cameraOffset this)
  end.

Definition setShadow (sh : option Object3D) (this : Character) : Character :=
  mkCharacter (model this) (tempModel this) sh (mixer this)
    (animations this) (currentAction this) (moveForward this)
    (moveBackward this) (moveLeft this) (moveRight this)
    (isRunning this) (cameraOffset this).

Definition setCurrentAction (a : option Action) (this : Character) : Character :=
  mkCharacter (model this) (tempModel this) (shadow this) (mixer this)
    (animations this) a (moveForward this)
    (moveBackward this) (moveLeft this) (moveRight this)
    (isRunning this) (cameraOffset this).

Definition setPosition (p : Vector3) (o : Object3D) : Object3D :=
  mkObject3D (kind o) p (quaternion o) (userData o)
    (geometry o) (material o) (children o).

Definition setQuaternion (q : Quaternion) (o : Object3D) : Object3D :=
  mkObject3D (kind o) (position o) q (userData o)
    (geometry o) (material o) (children o).

(** [this.shadow.position.x = x; this.shadow.position.z = z] when the
    shadow exists. *)
Definition moveShadow (x z : Q) (this : Character) : Character :=
  match shadow this with
  | Some sh =>
      setShadow (Some (setPosition (mkVector3 x (vy (position sh)) z) sh)) this
  | None => this
  end.

Definition hasAction (a : Action) (this : Character) : bool :=
  match a with
  | Idle => idle (animations this)
  | Walk => walk (animations this)
  | Run => run (animations this)
  end.

Definition Action_eqb (a b : Action) : bool :=
  match a, b with
  | Idle, Idle | Walk, Walk | Run, Run => true
  | _, _ => false
  end.

(** [changeAnimation(this.animations.a)] *)
Definition changeAnimation (a : Action) (this : Character) : Character :=
  if negb (hasAction a this) then this
  else match currentAction this with
       | Some c => if Action_eqb a c then this else setCurrentAction (Some a) this
       | None => setCurrentAction (Some a) this
       end.

(** The direction built from the input flags, before it is normalised. *)
Definition inputDirection (this : Character) : Vector3 :=
  mkVector3
    ((if moveLeft this then -1 else 0) + (if moveRight this then 1 else 0))
    0
    ((if moveForward this then -1 else 0) + (if moveBackward this then 1 else 0)).

Section VectorMath.
(** three.js vector operations. The animation mixer moves the bones of
    the model, not the model itself, and is left out. *)
Variable normalize : Vector3 -> Vector3.
Variable getWorldDirection : Object3D -> Vector3.
(** [direction.applyMatrix4(m)] for the matrix [m] that
    [lookAt(origin, cameraDirection, up)] builds. *)
Variable applyLookAtMatrix : Vector3 -> Vector3 -> Vector3.
(** The orientation that [object.lookAt(target)] gives an object at a
    position; the flag tells a camera from another object. *)
Variable lookAtQuaternion : bool -> Vector3 -> Vector3 -> Quaternion.
Variable applyQuaternion : Vector3 -> Quaternion -> Vector3.
(** [new THREE.Box3().setFromObject(object)] *)
Variable setFromObject : Object3D -> Box3.

Definition updateCamera (this : Character) (camera : Object3D) : Object3D :=
  match target this with
  | None => camera
  | Some t =>
      let idealOffset :=
        applyQuaternion
          (mkVector3 0 (vy (cameraOffset this)) (vz (cameraOffset this)))
          (quaternion t) in
      let idealOffset :=
        mkVector3 (vx idealOffset + vx (position t))
          (vy idealOffset + vy (position t))
          (vz idealOffset + vz (position t)) in
      let camera := setPosition idealOffset camera in
      setQuaternion (lookAtQuaternion true (position camera) (position t)) camera
  end.

(** The boxes of the character and of a building do not intersect. *)
Definition clearOf (this : Character) (b : Building.Building) : Prop :=
  forall t bmesh,
    target this = Some t -> Building.mesh b = Some bmesh ->
    intersectsBox (setFromObject t) (setFromObject bmesh) = false.

(** The body of the loop of [handleCollisions] for one building. *)
Definition collide (this : Character) (building : Building.Building) : Character :=
  match target this with
  | None => this
  | Some t =>
      match Building.mesh building with
      | None => this
      | Some bmesh =>
          let buildingBox := setFromObject bmesh in
          let characterBox := setFromObject t in
          if intersectsBox characterBox buildingBox then
            let pushDirection :=
              normalize
                (mkVector3 (vx (position t) - vx (position bmesh))
                   (vy (position t) - vy (position bmesh))
                   (vz (position t) - vz (position bmesh))) in
            let p :=
              mkVector3 (vx (position t) + vx pushDirection * 0.1)
                (vy (position t))
                (vz (position t) + vz pushDirection * 0.1) in
            moveShadow (vx p) (vz p) (setTarget (setPosition p t) this)
          else this
      end
  end.

Definition handleCollisions (this : Character)
    (buildings : list Building.Building) : Character :=
  match target this with
  | None => this
  | Some _ => fold_left collide buildings this
  end.

(** The branch of [update] taken when [direction.length() > 0]. *)
Definition move (this : Character) (camera : Object3D) (velocity : Q)
    (direction : Vector3) (characterModel : Object3D) : Character :=
  let direction := normalize direction in
  let cameraDirection := getWorldDirection camera in
  let cameraDirection :=
    normalize (mkVector3 (vx cameraDirection) 0 (vz cameraDirection)) in
  let direction := applyLookAtMatrix direction cameraDirection in
  let p := position characterModel in
  let characterModel :=
    setQuaternion
      (lookAtQuaternion false p
         (mkVector3 (vx p + vx direction) (vy p) (vz p + vz direction)))
      characterModel in
  let p' :=
    mkVector3 (vx p + vx direction * velocity) (vy p)
      (vz p + vz direction * velocity) in
  let this := setTarget (setPosition p' characterModel) this in
  let this := moveShadow (vx p') (vz p') this in
  if mixer this then
    changeAnimation (if isRunning this then Run else Walk) this
  else this.

(** [update(delta, buildings)]; the camera is the Portfolio's camera,
    which the character moves. *)
Definition update (this : Character) (camera : Object3D) (delta : Q)
    (buildings : list Building.Building) : Character * Object3D :=
  match target this with
  | None => (this, camera)
  | Some characterModel =>
      let speed := if isRunning this then 8 else 4 in
      let velocity := speed * delta in
      let direction := inputDirection this in
      let this :=
        if lengthPositive direction then
          move this camera velocity direction characterModel
        else if mixer this && idle (animations this) then
          changeAnimation Idle this
        else this in
      let camera := updateCamera this camera in
      (handleCollisions this buildings, camera)
  end.

End VectorMath.

(** The height of the character, when it has a model or a placeholder. *)
Definition height (this : Character) : option Q :=
  (λ t, vy (position t)) <$> target this.

(** The shadow lies under the character. *)
Definition shadowUnder (this : Character) : Prop :=
  match target this, shadow this with
  | Some t, Some sh =>
      vx (position sh) = vx (position t) /\ vz (position sh) = vz (position t)
  | _, _ => True
  end.

(** The callback of the traversal of the loaded model in [dispose]. *)
Definition disposeChild (ms : gmap nat Material) (child : Object3D)
    : list Release :=
  if isMesh (kind child) then
    match geometry child with Some g => [DisposeGeometry g] | None => [] end
    ++ match material child with
       | Some r => Building.disposeMap ms r ++ [DisposeMaterial r]
       | None => []
       end
  else [].

Definition disposeMesh (o : Object3D) : list Release :=
  RemoveFromScene o
  :: match geometry o with Some g => [DisposeGeometry g] | None => [] end
  ++ match material o with Some r => [DisposeMaterial r] | None => [] end.

(** [dispose()]: the character afterwards and the releases made. *)
Definition dispose (this : Character) (ms : gmap nat Material)
    : Character * list Release :=
  (mkCharacter None None None false (mkAnimations false false false) None
     (moveForward this) (moveBackward this) (moveLeft this) (moveRight this)
     (isRunning this) (cameraOffset this),
   match model this with
   | Some m => RemoveFromScene m :: traverseCollect (disposeChild ms) m
   | None => []
   end
   ++ match tempModel this with Some t => disposeMesh t | None => [] end
   ++ match shadow this with Some sh => disposeMesh sh | None => [] end).

End Character.

(** ** Portfolio.js *)
Module Portfolio.
Import Three.

Record Minimap := mkMinimap {
  container : bool;                 (* is [minimap.container] set *)
  parentNode : bool                 (* is the container attached to a parent *)
}.

(** The fields of a Portfolio that the modelled methods read or write.
    The two caches are objects in the [Store]; the fields here say
    whether the Portfolio still refers to them. *)
Record Portfolio := mkPortfolio {
  buildings : option (list Building.Building);
  visibleBuildings : gset nat;
  character : option Character.Character;
  characterMode : bool;
  minimap : option Minimap;
  geometryCache : bool;
  materialCache : bool;
  renderer : bool;
  scene : bool;
  camera : option Object3D;
  controls : bool
}.

Definition typeError : string := "TypeError".

Section Resources.
Variable numToString : Q -> string.
Variable jsonQuote : string -> string.
Variable newGeometry : GeometryKind -> list Js.JsVal -> Geometry.
Variable newMaterial : MaterialKind -> Js.JsObject -> Material.

(** The [switch (type)] of [Portfolio.getGeometry]. *)
Definition geometryKind (type : string) : option GeometryKind :=
  if String.eqb type "box" then Some BoxGeometry
  else if String.eqb type "plane" then Some PlaneGeometry
  else if String.eqb type "cylinder" then Some CylinderGeometry
  else if String.eqb type "cone" then Some ConeGeometry
  else if String.eqb type "torus" then Some TorusGeometry
  else if String.eqb type "circle" then Some CircleGeometry
  else None.

Definition materialKind (type : string) : option MaterialKind :=
  if String.eqb type "standard" then Some MeshStandardMaterial
  else if String.eqb type "basic" then Some MeshBasicMaterial
  else if String.eqb type "phong" then Some MeshPhongMaterial
  else None.

Definition geometryKey (type : string) (params : list Js.JsVal) : string :=
  type +:+ "_" +:+ Js.join numToString "_" params.

Definition materialKey (type : string) (params : Js.JsObject) : string :=
  type +:+ "_" +:+ Js.JSON_stringify numToString jsonQuote params.

(** [getGeometry(type, ...params)]: the value returned, or the error. *)
Definition getGeometry (this : Portfolio) (type : string)
    (params : list Js.JsVal) (s : Store) : Js.Completion Js.Read * Store :=
  if negb (geometryCache this) then (Js.Throw typeError, s)
  else
    let key := geometryKey type params in
    match Js.read (Three.geometryCache s) key with
    | Some v => (Js.Normal v, s)
    | None =>
        match geometryKind type with
        | Some k =>
            let r := nextRef s in
            (Js.Normal (Js.Own r),
             mkStore (<[r := newGeometry k params]> (geometries s))
               (materials s) (S r)
               (<[key := r]> (Three.geometryCache s))
               (Three.materialCache s))
        | None => (Js.Throw ("Unknown geometry type: " +:+ type), s)
        end
    end.

(** [getMaterial(type, params)]: the value returned, or the error. *)
Definition getMaterial (this : Portfolio) (type : string)
    (params : Js.JsObject) (s : Store) : Js.Completion Js.Read * Store :=
  if negb (materialCache this) then (Js.Throw typeError, s)
  else
    let key := materialKey type params in
    match Js.read (Three.materialCache s) key with
    | Some v => (Js.Normal v, s)
    | None =>
        match materialKind type with
        | Some k =>
            let r := nextRef s in
            (Js.Normal (Js.Own r),
             mkStore (geometries s)
               (<[r := newMaterial k params]> (materials s)) (S r)
               (Three.geometryCache s)
               (<[key := r]> (Three.materialCache s)))
        | None => (Js.Throw ("Unknown material type: " +:+ type), s)
        end
    end.

End Resources.

(** *** The animation frame *)

(** [a.distanceTo(b) > d] for a constant [d >= 0], without the root. *)
Definition distanceGreater (a b : Vector3) (d : Q) : bool :=
  Qltb (d * d) (distanceToSquared a b).

Definition setCharacterCamera (c : option Character.Character)
    (cam : option Object3D) (this : Portfolio) : Portfolio :=
  mkPortfolio (buildings this) (visibleBuildings this) c (characterMode this)
    (minimap this) (geometryCache this) (materialCache this)
    (renderer this) (scene this) cam (controls this).

Section Animate.
Variable normalize : Vector3 -> Vector3.
Variable getWorldDirection : Object3D -> Vector3.
Variable applyLookAtMatrix : Vector3 -> Vector3 -> Vector3.
Variable lookAtQuaternion : bool -> Vector3 -> Vector3 -> Quaternion.
Variable applyQuaternion : Vector3 -> Quaternion -> Vector3.
Variable setFromObject : Object3D -> Box3.
(** [this.frustum.intersectsObject(object)] for the frustum that
    [updateFrustum] computed from the camera given first. *)
Variable intersectsObject : Object3D -> Object3D -> bool.
(** [this.controls.update()], which may move the camera. *)
Variable controlsUpdate : Object3D -> Object3D.

(** [isInViewFrustum(object)]; the bounding sphere that a successful
    [computeBoundingSphere] stores in the geometry is not recorded. *)
Definition isInViewFrustum (frustumCamera : Object3D)
    (gs : gmap nat Geometry) (object : Object3D) : bool :=
  match geometry object with
  | None => false
  | Some r =>
      match gs !! r with
      | None => false
      | Some g =>
          if boundingSphere g then intersectsObject frustumCamera object
          else match computeBoundingSphere g with
               | ComputeThrows => true
               | ComputeSets false => true
               | ComputeSets true => intersectsObject frustumCamera object
               end
      end
  end.

(** The body of [this.buildings.forEach] in [animate]: the [update]
    calls it makes, each named by the building that receives it. *)
Definition visit (this : Portfolio) (frustumCamera camera : Object3D)
    (gs : gmap nat Geometry) (building : Building.Building) : list nat :=
  match Building.mesh building with
  | None => []
  | Some m =>
      if distanceGreater (position m) (position camera) 150 then []
      else if bool_decide (Building.ref building ∈ visibleBuildings this)
              || isInViewFrustum frustumCamera gs m
           then [Building.ref building]
           else []
  end.

(** One animation frame: the Portfolio afterwards and the [update]
    calls made on buildings, in order. *)
Definition animate (this : Portfolio) (delta : Q) (s : Store)
    : Js.Completion (Portfolio * list nat) :=
  match camera this with
  | None => Js.Throw typeError
  | Some frustumCamera =>
      let '(character', camera') :=
        match characterMode this, character this with
        | true, Some c =>
            match buildings this with
            | Some bs =>
                let '(c', cam') :=
                  Character.update normalize getWorldDirection
                    applyLookAtMatrix lookAtQuaternion applyQuaternion
                    setFromObject c frustumCamera delta bs in
                (Some c', cam')
            | None => (Some c, frustumCamera)
            end
        | _, other => (other, controlsUpdate frustumCamera)
        end in
      match buildings this with
      | None => Js.Throw typeError
      | Some bs =>
          let calls :=
            flat_map (visit this frustumCamera camera' (geometries s)) bs in
          Js.Normal
            (setCharacterCamera character' (Some (controlsUpdate camera')) this,
             calls)
      end
  end.

(** Number of [update] calls that a building receives in a frame. *)
Definition updateCalls (this : Portfolio) (delta : Q) (s : Store)
    (building : Building.Building) : option nat :=
  match animate this delta s with
  | Js.Normal (_, calls) =>
      Some (length (filter (λ r, r = Building.ref building) calls))
  | Js.Throw _ => None
  end.

End Animate.

(** *** Procedural placement *)

Record Position := mkPosition { x : Q; z : Q }.

(** The hand-placed trees of [addTrees]. *)
Definition treePositions : list Position :=
  [mkPosition 10 10; mkPosition (-10) 10; mkPosition 10 (-10);
   mkPosition (-10) (-10); mkPosition 20 0; mkPosition (-20) 0;
   mkPosition 0 20; mkPosition 0 (-20); mkPosition 25 25;
   mkPosition (-25) 25; mkPosition 25 (-25); mkPosition (-25) (-25)].

(** The condition under which [addResidentialDistrict] drops a candidate:
    main roads and the surroundings of the portfolio buildings. *)
Definition excluded (posX posZ : Q) : bool :=
  (Qltb (Qabs posX) 10 && Qltb (Qabs posZ) 20)
  || (Qltb (Qabs posZ) 10 && Qltb (Qabs posX) 20)
  || (Qltb (Qabs posX) 12 && Qltb (Qabs posZ) 12)
  || (Qltb (Qabs (posX - 16)) 8 && Qltb (Qabs (posZ - 16)) 8)
  || (Qltb (Qabs (posX + 16)) 8 && Qltb (Qabs (posZ - 16)) 8)
  || (Qltb (Qabs (posX - 16)) 8 && Qltb (Qabs (posZ + 16)) 8)
  || (Qltb (Qabs (posX + 16)) 8 && Qltb (Qabs (posZ + 16)) 8)
  || (Qltb (Qabs posX) 8 && Qltb (Qabs (posZ + 24)) 8).

(** A position that the test of the grid loop lets through. *)
Definition allowed (p : Position) : Prop := excluded (x p) (z p) = false.

(** An open axis-aligned rectangle of the ground plane. *)
Record Rectangle := mkRectangle { xmin : Q; xmax : Q; zmin : Q; zmax : Q }.

Definition inside (r : Rectangle) (p : Position) : Prop :=
  xmin r < x p /\ x p < xmax r /\ zmin r < z p /\ z p < zmax r.

(** The eight rectangles that the condition of [excluded] describes, in
    the order of its lines: the two main roads, the plaza with the main
    building, the four corner buildings and the NHN building. *)
Definition exclusionRectangles : list Rectangle :=
  [mkRectangle (-10) 10 (-20) 20;
   mkRectangle (-20) 20 (-10) 10;
   mkRectangle (-12) 12 (-12) 12;
   mkRectangle 8 24 8 24;
   mkRectangle (-24) (-8) 8 24;
   mkRectangle 8 24 (-24) (-8);
   mkRectangle (-24) (-8) (-24) (-8);
   mkRectangle (-8) 8 (-32) (-16)].

(** Result of the loop that draws positions. Drawing at an index outside
    the pool pushes [undefined], and the loop that creates the buildings
    then throws on [pos.x]; the fuel counts passes through the loop. *)
Inductive DrawResult :=
| Drawn (selectedPositions : list Position) (cursor : nat)
| DrewUndefined
| StillRunning.

Section Placement.
Variable rng : Rng.

(** The point that a pass of the sampling loop of [addTrees] tries
    when the cursor is at [k], and whether the pass rejects it. *)
Definition treeCandidate (k : nat) : Position :=
  mkPosition ((rng k - 0.5) * 100) ((rng (S k) - 0.5) * 100).

Definition treeRejected (k : nat) : bool :=
  (Qltb (Qabs (x (treeCandidate k))) 10 && Qltb (Qabs (z (treeCandidate k))) 10)
  || (Qltb (Qabs (x (treeCandidate k))) 5 || Qltb (Qabs (z (treeCandidate k))) 5).

(** One pass through the body of [while (!isValid)] in [addTrees],
    for at most [fuel] passes: the accepted point and the cursor, or
    [None] when the loop is still running after [fuel] passes. *)
Fixpoint sampleTree (fuel : nat) (k : nat) : option (Position * nat) :=
  match fuel with
  | O => None
  | S fuel' =>
      let x := (rng k - 0.5) * 100 in
      let z := (rng (S k) - 0.5) * 100 in
      if Qltb (Qabs x) 10 && Qltb (Qabs z) 10 then sampleTree fuel' (S (S k))
      else if Qltb (Qabs x) 5 || Qltb (Qabs z) 5 then sampleTree fuel' (S (S k))
      else Some (mkPosition x z, S (S k))
  end.

(** [for (let i = from; i < from + todo; i++)] over the random trees:
    the calls [setMatrixAt(i, ...)] as pairs of index and position. *)
Fixpoint randomTrees (fuel : nat) (todo from : nat) (k : nat)
    : option (list (nat * Position) * nat) :=
  match todo with
  | O => Some ([], k)
  | S todo' =>
      match sampleTree fuel k with
      | None => None
      | Some (p, k') =>
          match randomTrees fuel todo' (S from) k' with
          | None => None
          | Some (rest, k'') => Some ((from, p) :: rest, k'')
          end
      end
  end.

(** [addTrees(count)]: the trees placed, fixed ones first. *)
Definition addTrees (fuel : nat) (count : nat) (k : nat)
    : option (list (nat * Position) * nat) :=
  let fixed := imap (λ i p, (i, p)) (take count treePositions) in
  match randomTrees fuel (count - length treePositions)
          (length treePositions) k with
  | None => None
  | Some (random, k') => Some (fixed ++ random, k')
  end.

(** The body of the two grid loops of [addResidentialDistrict]. *)
Definition gridCell (gx gz : Z) (st : list Position * nat)
    : list Position * nat :=
  let '(positions, k) := st in
  let posX := inject_Z gx * 10 + (rng k - 0.5) * 5 in
  let posZ := inject_Z gz * 10 + (rng (S k) - 0.5) * 5 in
  if excluded posX posZ then (positions, S (S k))
  else (positions ++ [mkPosition posX posZ], S (S k)).

(** [for x in -6..5, for z in -6..5]: the surviving candidates. *)
Definition grid (k : nat) : list Position * nat :=
  fold_left
    (λ st gx, fold_left (λ st gz, gridCell gx gz st) (seqZ (-6) 12) st)
    (seqZ (-6) 12) ([], k).

(** [while (selectedPositions.length < buildingCount &&
    positions.length > 0)] *)
Fixpoint draw (fuel : nat) (buildingCount : nat)
    (selectedPositions positions : list Position) (k : nat) : DrawResult :=
  if (length selectedPositions <? buildingCount)%nat
     && (0 <? length positions)%nat then
    match fuel with
    | O => StillRunning
    | S fuel' =>
        let index :=
          Qfloor (rng k * inject_Z (Z.of_nat (length positions))) in
        if (index <? 0)%Z then DrewUndefined
        else
          match positions !! Z.to_nat index with
          | None => DrewUndefined
          | Some p =>
              draw fuel' buildingCount (selectedPositions ++ [p])
                (delete (Z.to_nat index) positions) (S k)
          end
    end
  else Drawn selectedPositions k.

(** [addResidentialDistrict(buildingCount)] up to the selected
    positions; one building is then created at each of them. Every
    pass of the drawing loop removes a candidate, so as many passes
    as there are candidates are enough. *)
Definition addResidentialDistrict (buildingCount : nat) (k : nat)
    : DrawResult :=
  let '(positions, k1) := grid k in
  draw (length positions) buildingCount [] positions k1.

(** The loop [while (!validPosition)] of the earlier Portfolio.js,
    which draws a building position from a square of side 120 until
    the test lets it through; the fuel counts the passes. *)
Definition candidateEarlier (k : nat) : Position :=
  mkPosition ((rng k - 0.5) * 120) ((rng (S k) - 0.5) * 120).

(** The test of the loop on the candidate drawn at the cursor [k]. *)
Definition rejectedEarlier (k : nat) : bool :=
  excluded (x (candidateEarlier k)) (z (candidateEarlier k)).

Fixpoint samplePositionEarlier (fuel : nat) (k : nat) : option (Position * nat) :=
  match fuel with
  | O => None
  | S fuel' =>
      let posX := (rng k - 0.5) * 120 in
      let posZ := (rng (S k) - 0.5) * 120 in
      if excluded posX posZ then samplePositionEarlier fuel' (S (S k))
      else Some (mkPosition posX posZ, S (S k))
  end.

End Placement.

(** *** Street lights *)

(** One pass of the loop of [addStreetlights] at the coordinate [i]:
    up to four lights, two beside each road, while fewer than [count]
    have been created. *)
Definition pushLights (count : nat) (i : Q) (lights : list Position) : list Position :=
  if negb (Qeq_bool i 0) && (length lights <? count)%nat then
    let l1 := lights ++ [mkPosition i 3.5] in
    let l2 := if (length l1 <? count)%nat then l1 ++ [mkPosition i (-3.5)] else l1 in
    let l3 := if (length l2 <? count)%nat then l2 ++ [mkPosition 3.5 i] else l2 in
    if (length l3 <? count)%nat then l3 ++ [mkPosition (-3.5) i] else l3
  else lights.

(** [for (let i = -20; i <= 20; i += spacing)]; the fuel counts the
    passes. *)
Fixpoint streetlightLoop (fuel count : nat) (spacing i : Q) (lights : list Position)
  : option (list Position) :=
  if Qle_bool i 20 then
    match fuel with
    | O => None
    | S fuel' =>
        streetlightLoop fuel' count spacing (i + spacing) (pushLights count i lights)
    end
  else Some lights.

Definition spacing (count : nat) : Q := 40 / inject_Z (Z.of_nat count).

(** [addStreetlights(count)]: the positions of the lights it creates.
    With [count = 0] the spacing is infinite and the loop makes one
    pass that adds nothing. *)
Definition addStreetlights (fuel count : nat) : option (list Position) :=
  match count with
  | O => Some []
  | S _ => streetlightLoop fuel count (spacing count) (-20) []
  end.

(** A position 3.5 to the side of one of the two road axes, within the
    length of the road. *)
Definition besideRoad (p : Position) : Prop :=
  (Qabs (z p) == 3.5 /\ -20 <= x p <= 20) \/ (Qabs (x p) == 3.5 /\ -20 <= z p <= 20).

(** *** Disposal *)

Definition disposed (this : Portfolio) : Portfolio :=
  mkPortfolio None (visibleBuildings this) None (characterMode this)
    None false false (renderer this) false None false.

(** [Object.values(cache)]; the order is that of the map, not the
    order of insertion. *)
Definition values (cache : gmap string nat) : list nat :=
  (map_to_list cache).*2.

(** [dispose()]: how it completes, the Portfolio afterwards and the
    releases made, in order. A throw keeps what was done before it. *)
Definition dispose (this : Portfolio) (s : Store)
    : Js.Completion unit * Portfolio * list Release :=
  match buildings this with
  | None => (Js.Throw typeError, this, [])
  | Some bs =>
      let r1 := flat_map (λ b, Building.dispose b (materials s)) bs in
      let r2 :=
        match character this with
        | Some c => (Character.dispose c (materials s)).2
        | None => []
        end in
      let r3 :=
        match minimap this with
        | Some m => if container m && parentNode m then [RemoveMinimap] else []
        | None => []
        end in
      let this1 :=
        mkPortfolio (buildings this) (visibleBuildings this) None
          (characterMode this) None (geometryCache this)
          (materialCache this) (renderer this) (scene this) (camera this)
          (controls this) in
      if negb (geometryCache this) then
        (Js.Throw typeError, this1, r1 ++ r2 ++ r3)
      else
        let r4 := DisposeGeometry <$> values (Three.geometryCache s) in
        if negb (materialCache this) then
          (Js.Throw typeError, this1, r1 ++ r2 ++ r3 ++ r4)
        else
          let r5 :=
            flat_map
              (λ r, Building.disposeMap (materials s) r ++ [DisposeMaterial r])
              (values (Three.materialCache s)) in
          let r6 :=
            if renderer this then [DisposeRenderer; RemoveCanvas] else [] in
          (Js.Normal tt, disposed this, r1 ++ r2 ++ r3 ++ r4 ++ r5 ++ r6)
  end.

(** [cleanup()] of main.js on the global [portfolio]. *)
Definition cleanup (portfolio : option Portfolio) (s : Store)
    : Js.Completion unit * option Portfolio * list Release :=
  match portfolio with
  | Some p =>
      match dispose p s with
      | (Js.Normal _, _, rs) => (Js.Normal tt, None, rs)
      | (Js.Throw e, p', rs) => (Js.Throw e, Some p', rs)
      end
  | None => (Js.Normal tt, None, [])
  end.

End Portfolio.

(** ** Requests to the shared caches *)
Module Client.
Import Three.

(** A call of one of the four cache methods, by the Portfolio or by a
    Building that was given the caches (or was given none). *)
Inductive Request :=
| PortfolioGeometry (type : string) (params : list Js.JsVal)
| PortfolioMaterial (type : string) (params : Js.JsObject)
| BuildingGeometry (b : Building.Building) (type : string) (params : list Js.JsVal)
| BuildingMaterial (b : Building.Building) (type : string) (params : Js.JsObject).

Section Run.
Variable numToString : Q -> string.
Variable jsonQuote : string -> string.
Variable newGeometry : GeometryKind -> list Js.JsVal -> Geometry.
Variable newMaterial : MaterialKind -> Js.JsObject -> Material.
Variable this : Portfolio.Portfolio.

Definition step (s : Store) (q : Request) : Store :=
  match q with
  | PortfolioGeometry type params =>
      (Portfolio.getGeometry numToString newGeometry this type params s).2
  | PortfolioMaterial type params =>
      (Portfolio.getMaterial numToString jsonQuote newMaterial this type params s).2
  | BuildingGeometry b type params =>
      (Building.getGeometry numToString newGeometry b type params s).2
  | BuildingMaterial b type params =>
      (Building.getMaterial numToString jsonQuote newMaterial b type params s).2
  end.

(** The store after a sequence of requests; a request that throws is
    caught by its caller and the sequence goes on. *)
Definition run (qs : list Request) (s : Store) : Store :=
  fold_left step qs s.

(** Every key of the caches was built from a kind that the Portfolio
    recognizes. *)
Definition recognizedKeys (s : Store) : Prop :=
  (forall key r, geometryCache s !! key = Some r ->
     exists type params k,
       key = Portfolio.geometryKey numToString type params
       /\ Portfolio.geometryKind type = Some k)
  /\ (forall key r, materialCache s !! key = Some r ->
        exists type params k,
          key = Portfolio.materialKey numToString jsonQuote type params
          /\ Portfolio.materialKind type = Some k).

End Run.
End Client.

(** ** Concrete scenes used to run the code *)
Module Scenes.
Import Three.

Definition identity : Quaternion := mkQuaternion 0 0 0 1.

Definition plainData : UserData := mkUserData false None.

(** A group placed at a position, with the given children. *)
Definition group (p : Vector3) (cs : list Object3D) : Object3D :=
  mkObject3D Group p identity plainData None None cs.

(** A mesh at the origin of its parent with a geometry and a material. *)
Definition part (k : ObjectKind) (g m : nat) (cs : list Object3D) : Object3D :=
  mkObject3D k (mkVector3 0 0 0) identity plainData (Some g) (Some m) cs.

(** The double quote character. *)
Definition quote : string := String (Ascii.ascii_of_nat 34) EmptyString.

(** Printing of numbers, as JavaScript does it for integers; the scenes
    only print integers. *)
Definition showNum (n : Q) : string :=
  if (Z.pos (Qden n) =? 1)%Z then pretty (Qnum n)
  else pretty (Qnum n) +:+ "/" +:+ pretty (Z.pos (Qden n)).

(** JSON quoting of strings that need no escape. *)
Definition showString (s : string) : string := quote +:+ s +:+ quote.

Definition newGeometry (k : GeometryKind) (params : list Js.JsVal) : Geometry :=
  mkGeometry k params false (ComputeSets true).

Definition hexOr (d : Z) (v : Js.JsVal) : Z :=
  match v with Js.JNum n => Qfloor n | _ => d end.

Definition numberOr (d : Q) (v : Js.JsVal) : Q :=
  match v with Js.JNum n => n | _ => d end.

(** A material made from its parameters, with the defaults of three.js:
    white colour, black emissive colour of intensity 1, no texture. *)
Definition newMaterial (k : MaterialKind) (params : Js.JsObject) : Material :=
  mkMaterial k
    (hexOr 0xffffff (Js.get "color" params))
    (hexOr 0x000000 (Js.get "emissive" params))
    (numberOr 1 (Js.get "emissiveIntensity" params))
    None.

(** Two properties with array-index names, written in both orders. *)
Definition indexParams : Js.JsObject := [("2", Js.JNum 0); ("1", Js.JNum 0)].

Definition indexParamsSwapped : Js.JsObject :=
  [("1", Js.JNum 0); ("2", Js.JNum 0)].

(** Parameters of the road material of [addRoads], with the number 0.9
    left out, and the same properties written in the other order. *)
Definition roadParams : Js.JsObject :=
  [("color", Js.JNum 0x333333); ("metalness", Js.JNum 0)].

Definition roadParamsSwapped : Js.JsObject :=
  [("metalness", Js.JNum 0); ("color", Js.JNum 0x333333)].

(** A building that was created without the shared caches. *)
Definition uncachedBuilding : Building.Building :=
  Building.mkBuilding 1 4 8 4 "standard" None None false false.

(** Rotation by the identity quaternion, the orientation of a character
    that has not turned yet. *)
Definition applyIdentity (v : Vector3) (q : Quaternion) : Vector3 := v.

(** The box of half-width 1 around the position of an object. *)
Definition unitBox (o : Object3D) : Box3 :=
  mkBox3
    (mkVector3 (vx (position o) - 1) (vy (position o) - 1) (vz (position o) - 1))
    (mkVector3 (vx (position o) + 1) (vy (position o) + 1) (vz (position o) + 1)).

(** Orbit controls that are disabled and at rest. *)
Definition controlsAtRest (camera : Object3D) : Object3D := camera.

(** The main portfolio building of [createCity]: 8 by 16 by 8 at the
    centre, so that its root group sits at height 8. *)
Definition mainBuilding : Building.Building :=
  Building.mkBuilding 0 8 16 8 "main"
    (Some (group (mkVector3 0 8 0) [])) None true true.

(** A character standing still at the given place. *)
Definition standingAt (p : Vector3) : Character.Character :=
  Character.mkCharacter None
    (Some (mkObject3D Mesh p identity plainData (Some 100%nat) (Some 101%nat) []))
    None false (Character.mkAnimations false false false) None
    false false false false false (mkVector3 0 5 10).

(** The city with its main building, in character mode, after the
    character has walked 300 units away along z. *)
Definition farPortfolio : Portfolio.Portfolio :=
  Portfolio.mkPortfolio (Some [mainBuilding]) {[0%nat]}
    (Some (standingAt (mkVector3 0 1 300))) true None true true true true
    (Some (group (mkVector3 0 10 20) [])) true.

(** Three materials of [createMainBuilding] and [addWindows]. *)
Definition coreParams : Js.JsObject :=
  [("color", Js.JNum 0x7ea8c4); ("roughness", Js.JNum 0.5);
   ("metalness", Js.JNum 0.2)].

Definition ringParams : Js.JsObject :=
  [("color", Js.JNum 0x7ea8c4); ("emissive", Js.JNum 0x7ea8c4);
   ("emissiveIntensity", Js.JNum 0.5); ("roughness", Js.JNum 0.3);
   ("metalness", Js.JNum 0.7)].

Definition windowParams : Js.JsObject :=
  [("color", Js.JNum 0xc8e6f5); ("roughness", Js.JNum 0.1);
   ("metalness", Js.JNum 0.8); ("emissive", Js.JNum 0xc8e6f5);
   ("emissiveIntensity", Js.JNum 0.2)].

(** The materials of the showcase building: 10 is the core, 11 the
    glowing ring, 12 the windows. *)
Definition showcaseMaterials : gmap nat Material :=
  {[ 10%nat := newMaterial MeshStandardMaterial coreParams;
     11%nat := newMaterial MeshStandardMaterial ringParams;
     12%nat := newMaterial MeshStandardMaterial windowParams ]}.

(** The main building with its core, the instanced windows attached to
    the core, and the ring. *)
Definition showcaseBuilding : Building.Building :=
  Building.mkBuilding 0 8 16 8 "main"
    (Some (group (mkVector3 0 8 0)
             [part Mesh 20 10 [part InstancedMesh 22 12 []];
              part Mesh 21 11 []]))
    None true true.

(** A building of one box whose material is black. *)
Definition blackMaterials : gmap nat Material :=
  {[ 10%nat := mkMaterial MeshStandardMaterial 0 0 1 None ]}.

Definition blackBuilding : Building.Building :=
  Building.mkBuilding 0 2 2 2 "standard" (Some (part Mesh 20 10 []))
    None true true.

(** A building of one box that refers to the first object of the heap,
    and the parameters of its material. *)
Definition paleBuilding : Building.Building :=
  Building.mkBuilding 0 2 2 2 "standard" (Some (part Mesh 1 0 []))
    None true true.

Definition paleParams : Js.JsObject := [("color", Js.JNum 0xa0d0e0)].

(** A residential building 2 wide, 2 high and 5 deep: the sizes that
    [addResidentialDistrict] draws for the random numbers 0, 0 and 0.75. *)
Definition deepBuilding : Building.Building :=
  Building.mkBuilding 2 2 2 5 "standard" None None true true.

(** Random numbers that are one half twice and nine tenths from then on. *)
Definition halfTwice : Rng := λ n, if (n <? 2)%nat then 1 # 2 else 9 # 10.

(** Random numbers that are all one half. *)
Definition allHalf : Rng := λ _, 1 # 2.

(** The caches after the box of the main building and one material
    have been requested: the box is object 0, the material object 1. *)
Definition cityStore : Store :=
  Client.run showNum showString newGeometry newMaterial farPortfolio
    [Client.PortfolioGeometry "box" [Js.JNum 8; Js.JNum 16; Js.JNum 8];
     Client.PortfolioMaterial "standard" roadParams]
    emptyStore.

Definition cityBuilding : Building.Building :=
  Building.mkBuilding 0 8 16 8 "main"
    (Some (group (mkVector3 0 8 0) [part Mesh 0 1 []])) None true true.

(** A city right after start-up: one building, the character with its
    placeholder capsule in the centre, the minimap attached. *)
Definition cityPortfolio : Portfolio.Portfolio :=
  Portfolio.mkPortfolio (Some [cityBuilding]) {[0%nat]}
    (Some (standingAt (mkVector3 0 1 0))) true
    (Some (Portfolio.mkMinimap true true)) true true true true
    (Some (group (mkVector3 0 10 20) [])) true.

(** A residential building of [addResidentialDistrict] at (30, 30),
    8 high, created with the shared caches: its root is a group. *)
Definition residentialBuilding : Building.Building :=
  Building.mkBuilding 7 4 8 4 "standard"
    (Some (group (mkVector3 30 4 30) [part Mesh 20 10 []])) None true true.

(** The city with the main building and one residential building, the
    character standing 30 away from the centre. *)
Definition nearPortfolio : Portfolio.Portfolio :=
  Portfolio.mkPortfolio (Some [mainBuilding; residentialBuilding]) {[0%nat]}
    (Some (standingAt (mkVector3 0 1 30))) true None true true true true
    (Some (group (mkVector3 0 10 20) [])) true.

(** A landmark whose logo texture has loaded: the logo mesh uses the
    cached basic material 2, whose [map] is the texture 9. *)
Definition logoMesh : Object3D :=
  mkObject3D Mesh (mkVector3 0 13 0) identity (mkUserData true None)
    (Some 3%nat) (Some 2%nat) [].

Definition logoBuilding : Building.Building :=
  Building.mkBuilding 1 6 12 6 "kubernetes"
    (Some (group (mkVector3 (-16) 6 (-16)) [part Mesh 0 1 []; logoMesh]))
    (Some logoMesh) true true.

Definition logoStore : Store :=
  mkStore (geometries cityStore)
    (<[2%nat := mkMaterial MeshBasicMaterial 0xffffff 0 1 (Some 9%nat)]>
       (materials cityStore))
    4 (geometryCache cityStore)
    (<["basic_logo" := 2%nat]> (materialCache cityStore)).

Definition logoPortfolio : Portfolio.Portfolio :=
  Portfolio.mkPortfolio (Some [logoBuilding]) {[1%nat]}
    None false None true true true true
    (Some (group (mkVector3 0 10 20) [])) true.

(** A character with its placeholder and the shadow under it, holding
    the keys given for forward and backward. *)
Definition holding (forward backward : bool) (p : Vector3) : Character.Character :=
  Character.mkCharacter None
    (Some (mkObject3D Mesh p identity plainData (Some 100%nat) (Some 101%nat) []))
    (Some (mkObject3D Mesh (mkVector3 (vx p) 0.01 (vz p)) identity plainData
             (Some 102%nat) (Some 103%nat) []))
    false (Character.mkAnimations false false false) None
    forward backward false false false (mkVector3 0 5 10).

End Scenes.

(** * Part II: properties *)

(** ** Comparison of rationals *)

Lemma Qltb_lt (x y : Q) : Qltb x y = true <-> x < y.
Proof.
  unfold Qltb. rewrite negb_true_iff. split.
  - intros H. apply Qnot_le_lt. intros Hle.
    apply Qle_bool_iff in Hle. congruence.
  - intros H. destruct (Qle_bool y x) eqn:E; [|reflexivity].
    apply Qle_bool_iff in E. exfalso. exact (Qlt_not_le _ _ H E).
Qed.

Lemma Qltb_ge (x y : Q) : Qltb x y = false <-> y <= x.
Proof.
  unfold Qltb. rewrite negb_false_iff. apply Qle_bool_iff.
Qed.

(** ** Lists *)

Lemma filter_none {A} (P : A -> Prop) `{!forall x, Decision (P x)} (l : list A) :
  (forall x, x ∈ l -> ~ P x) -> filter P l = [].
Proof.
  induction l as [|a l IH]; intros Hall; [reflexivity|].
  rewrite filter_cons_False by (apply Hall; left).
  apply IH. intros x Hx. apply Hall. right. exact Hx.
Qed.

Lemma filter_all {A} (P : A -> Prop) `{!forall x, Decision (P x)} (l : list A) :
  (forall x, x ∈ l -> P x) -> filter P l = l.
Proof.
  induction l as [|a l IH]; intros Hall; [reflexivity|].
  rewrite filter_cons_True by (apply Hall; left).
  f_equal. apply IH. intros x Hx. apply Hall. right. exact Hx.
Qed.

Lemma elem_of_flat_map {A B} (f : A -> list B) (l : list A) (y : B) :
  y ∈ flat_map f l <-> exists x, x ∈ l /\ y ∈ f x.
Proof.
  rewrite list_elem_of_In, in_flat_map.
  split; intros (x & Hx & Hy); exists x; split;
    first [by apply list_elem_of_In | by apply list_elem_of_In in Hx
          | by apply list_elem_of_In in Hy].
Qed.

(** ** The visibility scheduler *)
Module SchedulerFacts.
Import Three.

Section Frame.
Variable intersectsObject : Object3D -> Object3D -> bool.
Variables (this : Portfolio.Portfolio) (frustumCamera camera : Object3D).
Variable gs : gmap nat Geometry.

Let visit := Portfolio.visit intersectsObject this frustumCamera camera gs.

(** A building farther than 150 from the camera makes the callback
    return at once, whatever set it belongs to. *)
Lemma visit_far (b : Building.Building) (m : Object3D) :
  Building.mesh b = Some m ->
  Portfolio.distanceGreater (position m) (position camera) 150 = true ->
  visit b = [].
Proof.
  intros Hm Hfar. unfold visit, Portfolio.visit. rewrite Hm, Hfar. reflexivity.
Qed.

(** Within the distance, a member of [visibleBuildings] is updated. *)
Lemma visit_always_near (b : Building.Building) (m : Object3D) :
  Building.mesh b = Some m ->
  Portfolio.distanceGreater (position m) (position camera) 150 = false ->
  Building.ref b ∈ Portfolio.visibleBuildings this ->
  visit b = [Building.ref b].
Proof.
  intros Hm Hnear Hin. unfold visit, Portfolio.visit. rewrite Hm, Hnear.
  rewrite bool_decide_eq_true_2 by exact Hin. reflexivity.
Qed.

(** The callback only ever updates the building it is given. *)
Lemma visit_only_self (b : Building.Building) (r : nat) :
  r ∈ visit b -> r = Building.ref b.
Proof.
  unfold visit, Portfolio.visit.
  destruct (Building.mesh b) as [m|]; [|by intros ?%elem_of_nil].
  destruct (Portfolio.distanceGreater _ _ _); [by intros ?%elem_of_nil|].
  destruct (_ || _); [by intros ->%list_elem_of_singleton|by intros ?%elem_of_nil].
Qed.

(** The root of a building is a group without geometry, which the
    frustum test rejects. *)
Lemma isInViewFrustum_group (m : Object3D) :
  geometry m = None ->
  Portfolio.isInViewFrustum intersectsObject frustumCamera gs m = false.
Proof. intros H. unfold Portfolio.isInViewFrustum. rewrite H. reflexivity. Qed.

(** The calls that one frame makes on a building that occurs once in
    [this.buildings] are those of its own visit. *)
Lemma calls_of_building (bs : list Building.Building) (b : Building.Building) :
  NoDup (Building.ref <$> bs) -> b ∈ bs ->
  filter (λ r, r = Building.ref b) (flat_map visit bs) = visit b.
Proof.
  induction bs as [|b' bs IH]; intros Hnd Hin; [set_solver|].
  cbn [flat_map]. rewrite filter_app.
  rewrite fmap_cons in Hnd. apply NoDup_cons in Hnd as [Hnotin Hnd].
  apply elem_of_cons in Hin as [->|Hin].
  - rewrite (filter_all _ (visit b')) by (intros r Hr; exact (visit_only_self _ _ Hr)).
    rewrite (filter_none _ (flat_map visit bs)); [apply app_nil_r|].
    intros r Hr ->. apply elem_of_flat_map in Hr as (b2 & Hb2 & Hr).
    apply visit_only_self in Hr. apply Hnotin. rewrite Hr.
    apply list_elem_of_fmap. eauto.
  - rewrite (filter_none _ (visit b')); [apply IH; assumption|].
    intros r Hr ->. apply visit_only_self in Hr. apply Hnotin. rewrite <- Hr.
    apply list_elem_of_fmap. eauto.
Qed.

(** The part of the scheduling policy that holds: beyond the
    distance there is no call, within it a member of
    [visibleBuildings] gets exactly one. *)
Lemma frame_far_no_update (bs : list Building.Building)
    (b : Building.Building) (m : Object3D) :
  NoDup (Building.ref <$> bs) -> b ∈ bs ->
  Building.mesh b = Some m ->
  Portfolio.distanceGreater (position m) (position camera) 150 = true ->
  length (filter (λ r, r = Building.ref b) (flat_map visit bs)) = 0%nat.
Proof.
  intros Hnd Hin Hm Hfar.
  rewrite calls_of_building by assumption.
  rewrite (visit_far b m) by assumption. reflexivity.
Qed.

Lemma frame_always_near_once (bs : list Building.Building)
    (b : Building.Building) (m : Object3D) :
  NoDup (Building.ref <$> bs) -> b ∈ bs ->
  Building.mesh b = Some m ->
  Portfolio.distanceGreater (position m) (position camera) 150 = false ->
  Building.ref b ∈ Portfolio.visibleBuildings this ->
  length (filter (λ r, r = Building.ref b) (flat_map visit bs)) = 1%nat.
Proof.
  intros Hnd Hin Hm Hnear Hvis.
  rewrite calls_of_building by assumption.
  rewrite (visit_always_near b m) by assumption. reflexivity.
Qed.

End Frame.

(** C1, at a failing input. The main building belongs to
    [visibleBuildings], the set of buildings that [createCity] describes
    as always updated. Once the character, and the camera that follows
    it, is more than 150 away, a frame makes no [update] call on that
    building, whatever the frustum test answers: the distance test
    returns before the set is consulted. The claim asks for one call. *)
Theorem animate_far_landmark_not_updated
    (normalize : Vector3 -> Vector3) (getWorldDirection : Object3D -> Vector3)
    (applyLookAtMatrix : Vector3 -> Vector3 -> Vector3)
    (lookAtQuaternion : bool -> Vector3 -> Vector3 -> Quaternion)
    (intersectsObject : Object3D -> Object3D -> bool) :
  Building.ref Scenes.mainBuilding
    ∈ Portfolio.visibleBuildings Scenes.farPortfolio
  /\ Portfolio.updateCalls normalize getWorldDirection applyLookAtMatrix
       lookAtQuaternion Scenes.applyIdentity Scenes.unitBox intersectsObject
       Scenes.controlsAtRest Scenes.farPortfolio (1 # 60) emptyStore
       Scenes.mainBuilding = Some 0%nat.
Proof.
  split.
  - cbn. set_solver.
  - reflexivity.
Qed.

End SchedulerFacts.

(** ** The resource cache *)
Module CacheFacts.
Import Three.

Lemma wellFormed_empty : wellFormed emptyStore.
Proof. split; cbn; intros *; rewrite lookup_empty; discriminate. Qed.

Lemma extends_refl (s : Store) : extends s s.
Proof. repeat split; reflexivity. Qed.

Lemma extends_trans (s1 s2 s3 : Store) :
  extends s1 s2 -> extends s2 s3 -> extends s1 s3.
Proof.
  intros (Hg1 & Hm1 & Hn1) (Hg2 & Hm2 & Hn2).
  repeat split; [by etrans|by etrans|lia].
Qed.

(** Allocation of an object that is not cached. *)
Lemma wellFormed_alloc (s : Store) gs ms :
  wellFormed s ->
  wellFormed (mkStore gs ms (S (nextRef s)) (geometryCache s) (materialCache s)).
Proof.
  intros [Hga Hma Hgu Hmu]. split; cbn.
  - intros k r H. apply Hga in H. lia.
  - intros k r H. apply Hma in H. lia.
  - exact Hgu.
  - exact Hmu.
Qed.

(** A fresh handle stored under a key that was free. *)
Lemma unshared_insert (c : gmap string nat) (n : nat) (key : string) :
  (forall k r, c !! k = Some r -> (r < n)%nat) ->
  (forall k1 k2 r, c !! k1 = Some r -> c !! k2 = Some r -> k1 = k2) ->
  forall k1 k2 r,
    <[key := n]> c !! k1 = Some r -> <[key := n]> c !! k2 = Some r -> k1 = k2.
Proof.
  intros Hlt Hun k1 k2 r H1 H2.
  destruct (decide (key = k1)) as [<-|N1], (decide (key = k2)) as [<-|N2].
  - reflexivity.
  - rewrite lookup_insert_eq in H1. rewrite lookup_insert_ne in H2 by done.
    injection H1 as <-. apply Hlt in H2. lia.
  - rewrite lookup_insert_eq in H2. rewrite lookup_insert_ne in H1 by done.
    injection H2 as <-. apply Hlt in H1. lia.
  - rewrite lookup_insert_ne in H1, H2 by done. eauto.
Qed.

Lemma allocated_insert (c : gmap string nat) (n : nat) (key : string) :
  (forall k r, c !! k = Some r -> (r < n)%nat) ->
  forall k r, <[key := n]> c !! k = Some r -> (r < S n)%nat.
Proof.
  intros Hlt k r H. destruct (decide (key = k)) as [<-|N].
  - rewrite lookup_insert_eq in H. injection H as <-. lia.
  - rewrite lookup_insert_ne in H by done. apply Hlt in H. lia.
Qed.

Lemma wellFormed_cache_geometry (s : Store) gs (key : string) :
  wellFormed s ->
  wellFormed (mkStore gs (materials s) (S (nextRef s))
                (<[key := nextRef s]> (geometryCache s)) (materialCache s)).
Proof.
  intros [Hga Hma Hgu Hmu]. split; cbn.
  - by apply allocated_insert.
  - intros k r H. apply Hma in H. lia.
  - by apply unshared_insert.
  - exact Hmu.
Qed.

Lemma wellFormed_cache_material (s : Store) ms (key : string) :
  wellFormed s ->
  wellFormed (mkStore (geometries s) ms (S (nextRef s))
                (geometryCache s) (<[key := nextRef s]> (materialCache s))).
Proof.
  intros [Hga Hma Hgu Hmu]. split; cbn.
  - intros k r H. apply Hga in H. lia.
  - by apply allocated_insert.
  - exact Hgu.
  - by apply unshared_insert.
Qed.

Section Calls.
Variable numToString : Q -> string.
Variable jsonQuote : string -> string.
Variable newGeometry : GeometryKind -> list Js.JsVal -> Geometry.
Variable newMaterial : MaterialKind -> Js.JsObject -> Material.

Let pGeometry := Portfolio.getGeometry numToString newGeometry.
Let pMaterial := Portfolio.getMaterial numToString jsonQuote newMaterial.
Let bGeometry := Building.getGeometry numToString newGeometry.
Let bMaterial := Building.getMaterial numToString jsonQuote newMaterial.
Let gKey := Portfolio.geometryKey numToString.
Let mKey := Portfolio.materialKey numToString jsonQuote.

(** An own property is what the read finds, and a name that is neither
    an own property nor inherited reads as [undefined]. *)
Lemma read_own (cache : gmap string nat) key r :
  cache !! key = Some r -> Js.read cache key = Some (Js.Own r).
Proof. intros H. unfold Js.read. by rewrite H. Qed.

Lemma read_free (cache : gmap string nat) key :
  cache !! key = None -> Js.inherited key = false -> Js.read cache key = None.
Proof. intros H Hi. unfold Js.read. by rewrite H, Hi. Qed.

Lemma read_insert (cache : gmap string nat) key r :
  Js.read (<[key := r]> cache) key = Some (Js.Own r).
Proof. apply read_own, lookup_insert_eq. Qed.

(** The key of a recognized kind starts with the name of the kind and
    an underscore, which no property of the prototype does. *)
Lemma geometryKey_own type params k :
  Portfolio.geometryKind type = Some k ->
  Js.inherited (gKey type params) = false.
Proof.
  unfold Portfolio.geometryKind, gKey, Portfolio.geometryKey.
  generalize (Js.join numToString "_" params). intros rest.
  destruct (String.eqb_spec type "box") as [->|_]; [by intros|].
  destruct (String.eqb_spec type "plane") as [->|_]; [by intros|].
  destruct (String.eqb_spec type "cylinder") as [->|_]; [by intros|].
  destruct (String.eqb_spec type "cone") as [->|_]; [by intros|].
  destruct (String.eqb_spec type "torus") as [->|_]; [by intros|].
  destruct (String.eqb_spec type "circle") as [->|_]; [by intros|].
  intros; discriminate.
Qed.

Lemma braceFree_app (a b : string) :
  Js.braceFree (a +:+ b) = Js.braceFree a && Js.braceFree b.
Proof.
  induction a as [|c a IH]; [reflexivity|].
  change (String c a +:+ b) with (String c (a +:+ b)). cbn [Js.braceFree].
  rewrite IH. by rewrite andb_assoc.
Qed.

(** The key of a material contains the opening brace of the JSON text,
    which no property of the prototype does, whatever the type is. *)
Lemma materialKey_own type params :
  Js.inherited (mKey type params) = false.
Proof.
  destruct (Js.inherited (mKey type params)) eqn:E; [exfalso|reflexivity].
  unfold Js.inherited in E. apply existsb_exists in E as (name & Hin & Heq).
  apply String.eqb_eq in Heq.
  assert (Hkey : Js.braceFree (mKey type params) = false).
  { unfold mKey, Portfolio.materialKey, Js.JSON_stringify.
    rewrite !braceFree_app. cbn [Js.braceFree]. cbn.
    by rewrite !andb_false_r. }
  assert (Hname : Js.braceFree name = true).
  { unfold Js.prototypeNames in Hin. cbn [In] in Hin.
    repeat (destruct Hin as [<-|Hin]; [reflexivity|]). destruct Hin. }
  congruence.
Qed.

(** Both classes build their keys in the same way. *)
Lemma geometryKey_shared type params :
  Building.geometryKey numToString type params = gKey type params.
Proof. reflexivity. Qed.

Lemma materialKey_shared type params :
  Building.materialKey numToString jsonQuote type params = mKey type params.
Proof. reflexivity. Qed.

(** A key that is cached is answered from the cache. *)
Lemma getGeometry_hit this type params s r :
  Portfolio.geometryCache this = true ->
  geometryCache s !! gKey type params = Some r ->
  pGeometry this type params s = (Js.Normal (Js.Own r), s).
Proof.
  intros Hc Hk. unfold pGeometry, Portfolio.getGeometry.
  rewrite Hc. cbn. fold (gKey type params).
  rewrite (read_own _ _ _ Hk). reflexivity.
Qed.

Lemma getMaterial_hit this type params s r :
  Portfolio.materialCache this = true ->
  materialCache s !! mKey type params = Some r ->
  pMaterial this type params s = (Js.Normal (Js.Own r), s).
Proof.
  intros Hc Hk. unfold pMaterial, Portfolio.getMaterial.
  rewrite Hc. cbn. fold (mKey type params).
  rewrite (read_own _ _ _ Hk). reflexivity.
Qed.

(** A recognized kind under a free key is created, cached and returned. *)
Lemma getGeometry_miss this type params s k :
  Portfolio.geometryCache this = true ->
  geometryCache s !! gKey type params = None ->
  Portfolio.geometryKind type = Some k ->
  exists s',
    pGeometry this type params s = (Js.Normal (Js.Own (nextRef s)), s')
    /\ geometryCache s' = <[gKey type params := nextRef s]> (geometryCache s)
    /\ materialCache s' = materialCache s
    /\ nextRef s' = S (nextRef s)
    /\ (wellFormed s -> wellFormed s').
Proof.
  intros Hc Hk Hkind. unfold pGeometry, Portfolio.getGeometry.
  rewrite Hc. cbn. fold (gKey type params).
  rewrite (read_free _ _ Hk (geometryKey_own type params k Hkind)), Hkind.
  eexists. split; [reflexivity|]. cbn.
  split; [reflexivity|]. split; [reflexivity|]. split; [reflexivity|].
  apply wellFormed_cache_geometry.
Qed.

Lemma getMaterial_miss this type params s k :
  Portfolio.materialCache this = true ->
  materialCache s !! mKey type params = None ->
  Portfolio.materialKind type = Some k ->
  exists s',
    pMaterial this type params s = (Js.Normal (Js.Own (nextRef s)), s')
    /\ materialCache s' = <[mKey type params := nextRef s]> (materialCache s)
    /\ geometryCache s' = geometryCache s
    /\ nextRef s' = S (nextRef s)
    /\ (wellFormed s -> wellFormed s').
Proof.
  intros Hc Hk Hkind. unfold pMaterial, Portfolio.getMaterial.
  rewrite Hc. cbn. fold (mKey type params).
  rewrite (read_free _ _ Hk (materialKey_own type params)), Hkind.
  eexists. split; [reflexivity|]. cbn.
  split; [reflexivity|]. split; [reflexivity|]. split; [reflexivity|].
  apply wellFormed_cache_material.
Qed.

(** An unrecognized kind under a key that reads as [undefined] makes
    the Portfolio throw. *)
Lemma getGeometry_unknown this type params s :
  Portfolio.geometryCache this = true ->
  Js.read (geometryCache s) (gKey type params) = None ->
  Portfolio.geometryKind type = None ->
  pGeometry this type params s
  = (Js.Throw ("Unknown geometry type: " +:+ type), s).
Proof.
  intros Hc Hk Hkind. unfold pGeometry, Portfolio.getGeometry.
  rewrite Hc. cbn. fold (gKey type params). rewrite Hk, Hkind. reflexivity.
Qed.

Lemma getMaterial_unknown this type params s :
  Portfolio.materialCache this = true ->
  Js.read (materialCache s) (mKey type params) = None ->
  Portfolio.materialKind type = None ->
  pMaterial this type params s
  = (Js.Throw ("Unknown material type: " +:+ type), s).
Proof.
  intros Hc Hk Hkind. unfold pMaterial, Portfolio.getMaterial.
  rewrite Hc. cbn. fold (mKey type params). rewrite Hk, Hkind. reflexivity.
Qed.

(** Every request leaves a well-formed store that extends the old one. *)
Lemma step_sound this (s : Store) (q : Client.Request) :
  wellFormed s ->
  wellFormed (Client.step numToString jsonQuote newGeometry newMaterial this s q)
  /\ extends s (Client.step numToString jsonQuote newGeometry newMaterial this s q).
Proof.
  intros Hwf.
  destruct q as [type params|type params|b type params|b type params]; cbn;
    unfold Portfolio.getGeometry, Portfolio.getMaterial,
      Building.getGeometry, Building.getMaterial, Js.read;
    repeat (case_match; cbn);
    first
      [ split; [exact Hwf|apply extends_refl]
      | split; [by apply wellFormed_cache_geometry|];
        split; cbn; [by apply insert_subseteq|split; [reflexivity|lia]]
      | split; [by apply wellFormed_cache_material|];
        split; cbn; [reflexivity|split; [by apply insert_subseteq|lia]]
      | split; [by apply wellFormed_alloc|];
        split; cbn; [reflexivity|split; [reflexivity|lia]] ].
Qed.

Lemma run_sound this (qs : list Client.Request) (s : Store) :
  wellFormed s ->
  wellFormed (Client.run numToString jsonQuote newGeometry newMaterial this qs s)
  /\ extends s (Client.run numToString jsonQuote newGeometry newMaterial this qs s).
Proof.
  revert s. induction qs as [|q qs IH]; intros s Hwf; cbn.
  - split; [exact Hwf|apply extends_refl].
  - destruct (step_sound this s q Hwf) as [Hwf1 Hext1].
    destruct (IH _ Hwf1) as [Hwf2 Hext2].
    split; [exact Hwf2|]. eapply extends_trans; eassumption.
Qed.

(** The first of two calls: a recognized kind gets a handle, which is
    then cached under the key of the call. *)
Lemma getGeometry_first this type params s k :
  wellFormed s ->
  Portfolio.geometryCache this = true ->
  Portfolio.geometryKind type = Some k ->
  exists r s',
    pGeometry this type params s = (Js.Normal (Js.Own r), s')
    /\ geometryCache s' !! gKey type params = Some r /\ wellFormed s'.
Proof.
  intros Hwf Hc Hkind.
  destruct (geometryCache s !! gKey type params) as [r|] eqn:Hk.
  - exists r, s. split; [by apply getGeometry_hit|]. by split.
  - destruct (getGeometry_miss this type params s k Hc Hk Hkind)
      as (s' & Hcall & Hgc & _ & _ & Hwf').
    exists (nextRef s), s'. split; [exact Hcall|].
    split; [|by apply Hwf']. rewrite Hgc. apply lookup_insert_eq.
Qed.

Lemma getMaterial_first this type params s k :
  wellFormed s ->
  Portfolio.materialCache this = true ->
  Portfolio.materialKind type = Some k ->
  exists r s',
    pMaterial this type params s = (Js.Normal (Js.Own r), s')
    /\ materialCache s' !! mKey type params = Some r /\ wellFormed s'.
Proof.
  intros Hwf Hc Hkind.
  destruct (materialCache s !! mKey type params) as [r|] eqn:Hk.
  - exists r, s. split; [by apply getMaterial_hit|]. by split.
  - destruct (getMaterial_miss this type params s k Hc Hk Hkind)
      as (s' & Hcall & Hmc & _ & _ & Hwf').
    exists (nextRef s), s'. split; [exact Hcall|].
    split; [|by apply Hwf']. rewrite Hmc. apply lookup_insert_eq.
Qed.

(** A later call: the handle is the one cached under [key1] exactly
    when the key of the call is [key1]. *)
Lemma getGeometry_later this type params s k key1 r1 :
  wellFormed s ->
  Portfolio.geometryCache this = true ->
  Portfolio.geometryKind type = Some k ->
  geometryCache s !! key1 = Some r1 ->
  exists r s',
    pGeometry this type params s = (Js.Normal (Js.Own r), s')
    /\ (key1 = gKey type params <-> r1 = r).
Proof.
  intros Hwf Hc Hkind H1.
  destruct (geometryCache s !! gKey type params) as [r|] eqn:Hk.
  - exists r, s. split; [by apply getGeometry_hit|]. split.
    + intros ->. congruence.
    + intros <-. exact (geometry_unshared s Hwf _ _ _ H1 Hk).
  - destruct (getGeometry_miss this type params s k Hc Hk Hkind)
      as (s' & Hcall & _).
    exists (nextRef s), s'. split; [exact Hcall|]. split.
    + intros ->. congruence.
    + intros ->. apply (geometry_allocated s Hwf) in H1. lia.
Qed.

Lemma getMaterial_later this type params s k key1 r1 :
  wellFormed s ->
  Portfolio.materialCache this = true ->
  Portfolio.materialKind type = Some k ->
  materialCache s !! key1 = Some r1 ->
  exists r s',
    pMaterial this type params s = (Js.Normal (Js.Own r), s')
    /\ (key1 = mKey type params <-> r1 = r).
Proof.
  intros Hwf Hc Hkind H1.
  destruct (materialCache s !! mKey type params) as [r|] eqn:Hk.
  - exists r, s. split; [by apply getMaterial_hit|]. split.
    + intros ->. congruence.
    + intros <-. exact (material_unshared s Hwf _ _ _ H1 Hk).
  - destruct (getMaterial_miss this type params s k Hc Hk Hkind)
      as (s' & Hcall & _).
    exists (nextRef s), s'. split; [exact Hcall|]. split.
    + intros ->. congruence.
    + intros ->. apply (material_allocated s Hwf) in H1. lia.
Qed.

(** An unrecognized kind under a key that reads as [undefined] makes a
    Building return [undefined]: its [switch] has no default case. *)
Lemma building_getGeometry_unknown b type params s :
  Building.geometryKind type = None ->
  Js.read (geometryCache s) (gKey type params) = None ->
  bGeometry b type params s = (None, s).
Proof.
  intros Hkind Hk. unfold bGeometry, Building.getGeometry.
  rewrite Hkind. rewrite geometryKey_shared, Hk.
  destruct (Building.geometryCache b); reflexivity.
Qed.

Lemma building_getMaterial_unknown b type params s :
  Building.materialKind type = None ->
  Js.read (materialCache s) (mKey type params) = None ->
  bMaterial b type params s = (None, s).
Proof.
  intros Hkind Hk. unfold bMaterial, Building.getMaterial.
  rewrite Hkind. rewrite materialKey_shared, Hk.
  destruct (Building.materialCache b); reflexivity.
Qed.

(** C4, as amended. While the Portfolio holds its caches, whatever
    cache requests were made before and are made in between, two calls
    of [getGeometry] (of [getMaterial]) with recognized kinds both
    return a handle, and the two handles are the same object exactly
    when the two calls have the same cache key: the type, an
    underscore, and the parameters joined by underscores (the JSON
    text of the parameter object). *)
Theorem cache_handle_determined_by_key
    (this : Portfolio.Portfolio) (before between : list Client.Request) :
  Portfolio.geometryCache this = true ->
  Portfolio.materialCache this = true ->
  (forall type1 params1 type2 params2 k1 k2,
     Portfolio.geometryKind type1 = Some k1 ->
     Portfolio.geometryKind type2 = Some k2 ->
     exists r1 s1 r2 s2,
       pGeometry this type1 params1
         (Client.run numToString jsonQuote newGeometry newMaterial this
            before emptyStore) = (Js.Normal (Js.Own r1), s1)
       /\ pGeometry this type2 params2
            (Client.run numToString jsonQuote newGeometry newMaterial this
               between s1) = (Js.Normal (Js.Own r2), s2)
       /\ (gKey type1 params1 = gKey type2 params2 <-> r1 = r2))
  /\ (forall type1 params1 type2 params2 k1 k2,
        Portfolio.materialKind type1 = Some k1 ->
        Portfolio.materialKind type2 = Some k2 ->
        exists r1 s1 r2 s2,
          pMaterial this type1 params1
            (Client.run numToString jsonQuote newGeometry newMaterial this
               before emptyStore) = (Js.Normal (Js.Own r1), s1)
          /\ pMaterial this type2 params2
               (Client.run numToString jsonQuote newGeometry newMaterial this
                  between s1) = (Js.Normal (Js.Own r2), s2)
          /\ (mKey type1 params1 = mKey type2 params2 <-> r1 = r2)).
Proof.
  intros Hgc Hmc.
  destruct (run_sound this before emptyStore wellFormed_empty) as [Hwf0 _].
  split; intros type1 params1 type2 params2 k1 k2 Hk1 Hk2.
  - destruct (getGeometry_first this type1 params1 _ k1 Hwf0 Hgc Hk1)
      as (r1 & s1 & Hcall1 & Hin1 & Hwf1).
    destruct (run_sound this between s1 Hwf1) as [Hwf2 (Hsub & _ & _)].
    pose proof (lookup_weaken _ _ _ _ Hin1 Hsub) as Hin2.
    destruct (getGeometry_later this type2 params2 _ k2 _ r1 Hwf2 Hgc Hk2 Hin2)
      as (r2 & s2 & Hcall2 & Hiff).
    exists r1, s1, r2, s2. auto.
  - destruct (getMaterial_first this type1 params1 _ k1 Hwf0 Hmc Hk1)
      as (r1 & s1 & Hcall1 & Hin1 & Hwf1).
    destruct (run_sound this between s1 Hwf1) as [Hwf2 (_ & Hsub & _)].
    pose proof (lookup_weaken _ _ _ _ Hin1 Hsub) as Hin2.
    destruct (getMaterial_later this type2 params2 _ k2 _ r1 Hwf2 Hmc Hk2 Hin2)
      as (r2 & s2 & Hcall2 & Hiff).
    exists r1, s1, r2, s2. auto.
Qed.

End Calls.

Import Scenes.

(** The amended property at work: the box of the main building asked
    for twice, with the plaza circle asked for in between. *)
Lemma cache_handle_determined_by_key_witness :
  Portfolio.geometryCache farPortfolio = true
  /\ Portfolio.materialCache farPortfolio = true
  /\ Portfolio.geometryKind "box" = Some BoxGeometry
  /\ exists r1 s1 r2 s2,
       Portfolio.getGeometry showNum newGeometry farPortfolio "box"
         [Js.JNum 8; Js.JNum 16; Js.JNum 8]
         (Client.run showNum showString newGeometry newMaterial farPortfolio
            [] emptyStore) = (Js.Normal (Js.Own r1), s1)
       /\ Portfolio.getGeometry showNum newGeometry farPortfolio "box"
            [Js.JNum 8; Js.JNum 16; Js.JNum 8]
            (Client.run showNum showString newGeometry newMaterial farPortfolio
               [Client.PortfolioGeometry "circle" [Js.JNum 25; Js.JNum 16]] s1)
          = (Js.Normal (Js.Own r2), s2)
       /\ (Portfolio.geometryKey showNum "box" [Js.JNum 8; Js.JNum 16; Js.JNum 8]
            = Portfolio.geometryKey showNum "box" [Js.JNum 8; Js.JNum 16; Js.JNum 8]
            <-> r1 = r2).
Proof.
  split; [reflexivity|]. split; [reflexivity|]. split; [reflexivity|].
  exact (proj1
           (cache_handle_determined_by_key showNum showString newGeometry
              newMaterial farPortfolio []
              [Client.PortfolioGeometry "circle" [Js.JNum 25; Js.JNum 16]]
              eq_refl eq_refl)
           "box" [Js.JNum 8; Js.JNum 16; Js.JNum 8]
           "box" [Js.JNum 8; Js.JNum 16; Js.JNum 8]
           BoxGeometry BoxGeometry eq_refl eq_refl).
Defined.

Lemma roadParams_structurallyEqual :
  Js.structurallyEqual roadParams roadParamsSwapped.
Proof.
  unfold Js.structurallyEqual, roadParams, roadParamsSwapped. cbn [Js.keys].
  split; [|split; [|split]].
  - compute_done.
  - compute_done.
  - apply perm_swap.
  - intros k. cbn.
    destruct (String.eqb_spec k "color") as [->|]; [reflexivity|].
    destruct (String.eqb_spec k "metalness") as [->|]; reflexivity.
Qed.

(** C4, as stated, fails in both directions. The parameters of the
    road material written with the colour first and with the metalness
    first are structurally equal and get two different handles; and two
    different geometry parameter lists, the numbers 1 and 2 and the
    single string 1_2, get the same handle. *)
Lemma cache_structural_equality_counterexample :
  (Js.structurallyEqual roadParams roadParamsSwapped
   /\ exists r1 s1 r2 s2,
        Portfolio.getMaterial showNum showString newMaterial farPortfolio
          "standard" roadParams emptyStore = (Js.Normal (Js.Own r1), s1)
        /\ Portfolio.getMaterial showNum showString newMaterial farPortfolio
             "standard" roadParamsSwapped s1 = (Js.Normal (Js.Own r2), s2)
        /\ r1 <> r2)
  /\ ([Js.JNum 1; Js.JNum 2] <> [Js.JStr "1_2"]
      /\ exists r1 s1 r2 s2,
           Portfolio.getGeometry showNum newGeometry farPortfolio
             "box" [Js.JNum 1; Js.JNum 2] emptyStore = (Js.Normal (Js.Own r1), s1)
           /\ Portfolio.getGeometry showNum newGeometry farPortfolio
                "box" [Js.JStr "1_2"] s1 = (Js.Normal (Js.Own r2), s2)
           /\ r1 = r2).
Proof.
  split; split.
  - exact roadParams_structurallyEqual.
  - do 4 eexists. split; [vm_compute; reflexivity|].
    split; [vm_compute; reflexivity|]. discriminate.
  - discriminate.
  - do 4 eexists. split; [vm_compute; reflexivity|].
    split; [vm_compute; reflexivity|]. reflexivity.
Qed.

(** The order of writing does not always matter: names that are array
    indices are listed in ascending order by [JSON.stringify], so the
    two objects have one key and one handle. *)
Lemma cache_index_names_share_handle :
  indexParams <> indexParamsSwapped
  /\ exists r s1,
       Portfolio.getMaterial showNum showString newMaterial farPortfolio
         "standard" indexParams emptyStore = (Js.Normal (Js.Own r), s1)
       /\ Portfolio.getMaterial showNum showString newMaterial farPortfolio
            "standard" indexParamsSwapped s1 = (Js.Normal (Js.Own r), s1).
Proof.
  split; [discriminate|].
  do 2 eexists. split; vm_compute; reflexivity.
Qed.

(** C5, at a failing input. The kind sphere is in neither [switch].
    The Portfolio throws, but a Building asked for the same geometry
    returns [undefined] without an error, with the shared caches and
    without them, and so does its [getMaterial] for an unknown kind. *)
Theorem building_unknown_kind_returns_undefined :
  Portfolio.geometryKind "sphere" = None
  /\ Building.geometryKind "sphere" = None
  /\ Portfolio.getGeometry showNum newGeometry farPortfolio "sphere"
       [Js.JNum 1; Js.JNum 8; Js.JNum 8] emptyStore
     = (Js.Throw "Unknown geometry type: sphere", emptyStore)
  /\ Building.getGeometry showNum newGeometry mainBuilding "sphere"
       [Js.JNum 1; Js.JNum 8; Js.JNum 8] emptyStore = (None, emptyStore)
  /\ Building.getGeometry showNum newGeometry uncachedBuilding "sphere"
       [Js.JNum 1; Js.JNum 8; Js.JNum 8] emptyStore = (None, emptyStore)
  /\ Building.getMaterial showNum showString newMaterial mainBuilding
       "lambert" roadParams emptyStore = (None, emptyStore).
Proof. repeat split; vm_compute; reflexivity. Qed.

(** An unrecognized kind can even be answered by the Portfolio: the
    type box_1 with the parameter 2 has the key of a cached box. *)
Lemma getGeometry_unknown_kind_served_from_cache :
  Portfolio.geometryKind "box_1" = None
  /\ exists r s1,
       Portfolio.getGeometry showNum newGeometry farPortfolio "box"
         [Js.JNum 1; Js.JNum 2] emptyStore = (Js.Normal (Js.Own r), s1)
       /\ Portfolio.getGeometry showNum newGeometry farPortfolio "box_1"
            [Js.JNum 2] s1 = (Js.Normal (Js.Own r), s1).
Proof.
  split; [reflexivity|]. do 2 eexists.
  split; vm_compute; reflexivity.
Qed.

End CacheFacts.

(** ** Disposal *)
Module DisposalFacts.
Import Three.

(** A call of [dispose] that completes leaves the Portfolio without its
    list of buildings. *)
Lemma dispose_normal (this : Portfolio.Portfolio) (s : Store) u p' rs :
  Portfolio.dispose this s = (Js.Normal u, p', rs) ->
  p' = Portfolio.disposed this /\ Portfolio.buildings p' = None.
Proof.
  unfold Portfolio.dispose.
  destruct (Portfolio.buildings this) as [bs|]; [|discriminate].
  destruct (Portfolio.geometryCache this); cbn; [|discriminate].
  destruct (Portfolio.materialCache this); cbn; [|discriminate].
  intros [= _ <- _]. split; reflexivity.
Qed.

(** Without the list of buildings [dispose] throws at once. *)
Lemma dispose_without_buildings (this : Portfolio.Portfolio) (s : Store) :
  Portfolio.buildings this = None ->
  Portfolio.dispose this s = (Js.Throw Portfolio.typeError, this, []).
Proof. intros H. unfold Portfolio.dispose. rewrite H. reflexivity. Qed.

(** A live Portfolio is disposed of without an error. *)
Lemma dispose_live (this : Portfolio.Portfolio) (s : Store) bs :
  Portfolio.buildings this = Some bs ->
  Portfolio.geometryCache this = true ->
  Portfolio.materialCache this = true ->
  exists rs,
    Portfolio.dispose this s = (Js.Normal tt, Portfolio.disposed this, rs).
Proof.
  intros Hb Hg Hm. unfold Portfolio.dispose. rewrite Hb, Hg, Hm. cbn.
  eexists. reflexivity.
Qed.

(** C2, as amended. After a call of [dispose] that completed, a second
    call throws a TypeError, on the list of buildings that the first call
    set to null; it throws before any release, so the second call
    releases nothing. Calling [cleanup] of main.js again is safe: it
    finds the global cleared and does nothing. *)
Theorem dispose_second_call_throws_before_release
    (this : Portfolio.Portfolio) (s : Store) p' rs :
  Portfolio.dispose this s = (Js.Normal tt, p', rs) ->
  (forall s', Portfolio.dispose p' s' = (Js.Throw Portfolio.typeError, p', []))
  /\ (forall s',
        Portfolio.cleanup (Portfolio.cleanup (Some this) s).1.2 s'
        = (Js.Normal tt, None, [])).
Proof.
  intros H. split; intros s'.
  - apply dispose_without_buildings. apply (dispose_normal _ _ _ _ _ H).
  - cbn. rewrite H. reflexivity.
Qed.

Import Scenes.

Lemma dispose_second_call_throws_before_release_witness :
  exists rs,
    Portfolio.dispose cityPortfolio cityStore
    = (Js.Normal tt, Portfolio.disposed cityPortfolio, rs)
    /\ (forall s',
          Portfolio.dispose (Portfolio.disposed cityPortfolio) s'
          = (Js.Throw Portfolio.typeError, Portfolio.disposed cityPortfolio, []))
    /\ (forall s',
          Portfolio.cleanup (Portfolio.cleanup (Some cityPortfolio) cityStore).1.2 s'
          = (Js.Normal tt, None, [])).
Proof.
  eexists. split; [vm_compute; reflexivity|].
  eapply (dispose_second_call_throws_before_release cityPortfolio cityStore
            (Portfolio.disposed cityPortfolio)).
  vm_compute. reflexivity.
Defined.

(** C2, as stated, fails: the first call on the city completes and
    releases the character, the minimap, the cached geometry and
    material and the renderer; the second call ends in a TypeError. *)
Lemma dispose_twice_counterexample :
  exists p' rs,
    Portfolio.dispose cityPortfolio cityStore = (Js.Normal tt, p', rs)
    /\ DisposeGeometry 0 ∈ rs /\ DisposeMaterial 1 ∈ rs
    /\ (Portfolio.dispose p' cityStore).1.1 = Js.Throw Portfolio.typeError.
Proof.
  do 2 eexists. split; [vm_compute; reflexivity|].
  split; [set_solver|]. split; [set_solver|]. reflexivity.
Qed.

End DisposalFacts.

(** ** Highlighting *)
Module HighlightFacts.
Import Three.










Import Scenes.

(** C3, at a failing input: the main building with its glowing ring and
    its windows. Before highlighting, the ring glows in its own colour
    with intensity 0.5 and the windows in theirs with intensity 0.2.
    After [highlight()] and [unhighlight()] both have a black emissive
    colour of intensity 0: the values are set, not restored. The nodes
    and the base colours are as before. The earlier Building.js does
    the same to the ring. *)
Theorem highlight_unhighlight_loses_emissive :
  let '(b1, ms1) := Building.highlight showcaseBuilding showcaseMaterials in
  let '(b2, ms2) := Building.unhighlight b1 ms1 in
  let '(e1, me1) := Building.highlightEarlier showcaseBuilding showcaseMaterials in
  let '(e2, me2) := Building.unhighlightEarlier e1 me1 in
  (emissive <$> showcaseMaterials !! 11%nat = Some 0x7ea8c4%Z
   /\ emissiveIntensity <$> showcaseMaterials !! 11%nat = Some 0.5
   /\ emissive <$> showcaseMaterials !! 12%nat = Some 0xc8e6f5%Z
   /\ emissiveIntensity <$> showcaseMaterials !! 12%nat = Some 0.2)
  /\ (emissive <$> ms2 !! 11%nat = Some 0%Z
      /\ emissiveIntensity <$> ms2 !! 11%nat = Some 0
      /\ emissive <$> ms2 !! 12%nat = Some 0%Z
      /\ emissiveIntensity <$> ms2 !! 12%nat = Some 0)
  /\ (emissive <$> me2 !! 11%nat = Some 0%Z
      /\ emissiveIntensity <$> me2 !! 11%nat = Some 0)
  /\ b2 = showcaseBuilding /\ e2 = showcaseBuilding
  /\ color <$> ms2 !! 11%nat = color <$> showcaseMaterials !! 11%nat.
Proof. vm_compute. repeat split. Qed.

End HighlightFacts.

(** ** Procedural placement *)
Module PlacementFacts.
Import Portfolio.

(** A candidate that passes the test of the grid loop is in none of
    the eight rectangles. *)
Lemma excluded_false_outside (posX posZ : Q) :
  excluded posX posZ = false ->
  forall r, r ∈ exclusionRectangles -> ~ inside r (mkPosition posX posZ).
Proof.
  unfold excluded. rewrite !orb_false_iff, !andb_false_iff, !Qltb_ge.
  intros H r Hr. unfold exclusionRectangles in Hr.
  unfold inside. cbn [x z].
  repeat (apply elem_of_cons in Hr as [->|Hr]); [..|by apply elem_of_nil in Hr];
    cbn [xmin xmax zmin zmax]; intros (Hx1 & Hx2 & Hz1 & Hz2);
    destruct H as [[[[[[[H1 H2] H3] H4] H5] H6] H7] H8].
  - destruct H1 as [H|H]; revert H; apply Qlt_not_le, Qabs_Qlt_condition; lra.
  - destruct H2 as [H|H]; revert H; apply Qlt_not_le, Qabs_Qlt_condition; lra.
  - destruct H3 as [H|H]; revert H; apply Qlt_not_le, Qabs_Qlt_condition; lra.
  - destruct H4 as [H|H]; revert H; apply Qlt_not_le, Qabs_Qlt_condition; lra.
  - destruct H5 as [H|H]; revert H; apply Qlt_not_le, Qabs_Qlt_condition; lra.
  - destruct H6 as [H|H]; revert H; apply Qlt_not_le, Qabs_Qlt_condition; lra.
  - destruct H7 as [H|H]; revert H; apply Qlt_not_le, Qabs_Qlt_condition; lra.
  - destruct H8 as [H|H]; revert H; apply Qlt_not_le, Qabs_Qlt_condition; lra.
Qed.

(** The eight rectangles are all that the test drops: a candidate that
    is dropped lies in one of them. *)
Lemma excluded_inside (posX posZ : Q) :
  excluded posX posZ = true ->
  exists r, r ∈ exclusionRectangles /\ inside r (mkPosition posX posZ).
Proof.
  unfold excluded.
  rewrite !orb_true_iff, !andb_true_iff, !Qltb_lt, !Qabs_Qlt_condition.
  unfold exclusionRectangles, inside.
  intros [[[[[[[H|H]|H]|H]|H]|H]|H]|H].
  - exists (mkRectangle (-10) 10 (-20) 20). split; [|cbn; lra].
    repeat first [apply list_elem_of_here | apply list_elem_of_further].
  - exists (mkRectangle (-20) 20 (-10) 10). split; [|cbn; lra].
    repeat first [apply list_elem_of_here | apply list_elem_of_further].
  - exists (mkRectangle (-12) 12 (-12) 12). split; [|cbn; lra].
    repeat first [apply list_elem_of_here | apply list_elem_of_further].
  - exists (mkRectangle 8 24 8 24). split; [|cbn; lra].
    repeat first [apply list_elem_of_here | apply list_elem_of_further].
  - exists (mkRectangle (-24) (-8) 8 24). split; [|cbn; lra].
    repeat first [apply list_elem_of_here | apply list_elem_of_further].
  - exists (mkRectangle 8 24 (-24) (-8)). split; [|cbn; lra].
    repeat first [apply list_elem_of_here | apply list_elem_of_further].
  - exists (mkRectangle (-24) (-8) (-24) (-8)). split; [|cbn; lra].
    repeat first [apply list_elem_of_here | apply list_elem_of_further].
  - exists (mkRectangle (-8) 8 (-32) (-16)). split; [|cbn; lra].
    repeat first [apply list_elem_of_here | apply list_elem_of_further].
Qed.

(** Conversely a point in one of the rectangles is dropped. *)
Lemma inside_excluded (posX posZ : Q) (r : Rectangle) :
  r ∈ exclusionRectangles -> inside r (mkPosition posX posZ) ->
  excluded posX posZ = true.
Proof.
  intros Hr Hin. destruct (excluded posX posZ) eqn:E; [reflexivity|].
  exfalso. exact (excluded_false_outside _ _ E r Hr Hin).
Qed.

Section Loops.
Variable rng : Rng.

Lemma gridCell_allowed gx gz st :
  Forall allowed st.1 -> Forall allowed (gridCell rng gx gz st).1.
Proof.
  destruct st as [positions k]. cbn. intros H.
  destruct (excluded _ _) eqn:E; cbn; [exact H|].
  apply Forall_app. split; [exact H|]. constructor; [exact E|constructor].
Qed.

Lemma fold_allowed {A} (f : list Position * nat -> A -> list Position * nat)
    (l : list A) :
  (forall st a, Forall allowed st.1 -> Forall allowed (f st a).1) ->
  forall st, Forall allowed st.1 -> Forall allowed (fold_left f l st).1.
Proof.
  intros Hf. induction l as [|a l IH]; intros st Hst; cbn; [exact Hst|].
  apply IH, Hf, Hst.
Qed.

(** Every candidate that the grid loops keep passed the test. *)
Lemma grid_allowed k : Forall allowed (grid rng k).1.
Proof.
  unfold grid. apply fold_allowed; [|constructor].
  intros st gx Hst. apply fold_allowed; [|exact Hst].
  intros st' gz Hst'. by apply gridCell_allowed.
Qed.

(** The drawing loop only moves candidates from the pool to the
    selection. *)
Lemma draw_allowed fuel buildingCount selected positions k result k' :
  Forall allowed selected -> Forall allowed positions ->
  draw rng fuel buildingCount selected positions k = Drawn result k' ->
  Forall allowed result.
Proof.
  revert selected positions k.
  induction fuel as [|fuel IH]; intros selected positions k Hs Hp; cbn.
  - destruct (_ && _); [discriminate|]. intros [= <- _]. exact Hs.
  - destruct (_ && _); [|intros [= <- _]; exact Hs].
    destruct (_ <? 0)%Z; [discriminate|].
    destruct (positions !! _) as [p|] eqn:Hp'; [|discriminate].
    apply IH.
    + apply Forall_app. split; [exact Hs|].
      constructor; [|constructor].
      rewrite Forall_forall in Hp. apply Hp.
      eapply list_elem_of_lookup_2. exact Hp'.
    + apply Forall_delete. exact Hp.
Qed.

(** Whatever the random numbers, the positions that
    [addResidentialDistrict] selects are in no exclusion rectangle. *)
Lemma selected_outside buildingCount k selected k' :
  addResidentialDistrict rng buildingCount k = Drawn selected k' ->
  forall p, p ∈ selected ->
  forall r, r ∈ exclusionRectangles -> ~ inside r p.
Proof.
  unfold addResidentialDistrict.
  pose proof (grid_allowed k) as Hg.
  destruct (grid rng k) as [positions k1]. cbn in Hg.
  intros Hd p Hp r Hr.
  assert (Hnil : Forall allowed []) by constructor.
  pose proof (draw_allowed _ _ _ _ _ _ _ Hnil Hg Hd) as Hsel.
  rewrite Forall_forall in Hsel. specialize (Hsel p Hp).
  destruct p as [px pz]. exact (excluded_false_outside px pz Hsel r Hr).
Qed.

Hypothesis rng_ok : rng_in_range rng.

(** [Math.floor(Math.random() * n)] is an index below [n]. *)
Lemma random_index (k n : nat) :
  (0 < n)%nat ->
  (0 <= Qfloor (rng k * inject_Z (Z.of_nat n)) < Z.of_nat n)%Z.
Proof.
  intros Hn. destruct (rng_ok k) as [H0 H1].
  assert (Hn' : 0 < inject_Z (Z.of_nat n)).
  { rewrite <- (Zlt_Qlt 0). lia. }
  split.
  - change 0%Z with (Qfloor 0). apply Qfloor_resp_le.
    apply Qmult_le_0_compat; [exact H0|]. apply Qlt_le_weak, Hn'.
  - rewrite Zlt_Qlt.
    eapply Qle_lt_trans; [apply Qfloor_le|].
    rewrite <- (Qmult_1_l (inject_Z (Z.of_nat n))) at 2.
    apply Qmult_lt_compat_r; assumption.
Qed.

(** The drawing loop, given as many passes as there are candidates,
    ends normally: it has moved some candidates [taken], one per
    random number, to the end of the selection and left the others
    [rest] in the pool; it stops short of [buildingCount] only when
    the pool is empty. *)
Lemma draw_spec fuel buildingCount selected positions k :
  (length positions <= fuel)%nat ->
  exists taken rest,
    draw rng fuel buildingCount selected positions k
    = Drawn (selected ++ taken) (k + length taken)
    /\ taken ++ rest ≡ₚ positions
    /\ ((length (selected ++ taken) < buildingCount)%nat -> rest = [])
    /\ (taken = [] \/ (length (selected ++ taken) <= buildingCount)%nat).
Proof.
  revert selected positions k.
  induction fuel as [|fuel IH]; intros selected positions k Hfuel.
  - exists [], positions. destruct positions; [|cbn in Hfuel; lia].
    cbn. rewrite andb_false_r, app_nil_r, Nat.add_0_r. auto.
  - cbn [draw].
    destruct ((length selected <? buildingCount)%nat
              && (0 <? length positions)%nat) eqn:Hcond.
    + apply andb_true_iff in Hcond as [Hlt Hpos].
      apply Nat.ltb_lt in Hlt, Hpos.
      destruct (random_index k (length positions) Hpos) as [Hi0 Hi1].
      set (index := Qfloor (rng k * inject_Z (Z.of_nat (length positions)))) in *.
      destruct (index <? 0)%Z eqn:Hneg; [apply Z.ltb_lt in Hneg; lia|].
      destruct (lookup_lt_is_Some_2 positions (Z.to_nat index)) as [p Hp]; [lia|].
      rewrite Hp.
      destruct (IH (selected ++ [p]) (delete (Z.to_nat index) positions) (S k))
        as (taken & rest & Hd & Hperm & Hshort & Hmax).
      { rewrite length_delete by eauto. lia. }
      exists (p :: taken), rest.
      rewrite <- app_assoc in Hd, Hshort, Hmax.
      change ([p] ++ taken) with (p :: taken) in Hd, Hshort, Hmax.
      split; [rewrite Hd; f_equal; cbn [length]; lia|].
      split; [|split].
      * cbn. rewrite Hperm. symmetry. by apply delete_Permutation.
      * exact Hshort.
      * right. destruct Hmax as [->|Hmax]; [|exact Hmax].
        rewrite length_app. cbn. lia.
    + exists [], positions. rewrite app_nil_r, Nat.add_0_r.
      split; [reflexivity|]. split; [reflexivity|]. split; [|by left].
      intros Hlt. apply andb_false_iff in Hcond as [Hc|Hc].
      * apply Nat.ltb_ge in Hc. lia.
      * apply Nat.ltb_ge in Hc. destruct positions; [reflexivity|cbn in Hc; lia].
Qed.

(** C6. With random numbers from the unit interval,
    [addResidentialDistrict] ends with a selection of positions, and
    each selected position lies in none of the eight exclusion
    rectangles: the two main roads, the plaza, the four corner
    buildings and the NHN building. *)
Theorem residential_positions_outside_exclusions (buildingCount k : nat) :
  exists selected k',
    addResidentialDistrict rng buildingCount k = Drawn selected k'
    /\ forall p, p ∈ selected ->
       forall r, r ∈ exclusionRectangles -> ~ inside r p.
Proof.
  destruct (grid rng k) as [positions k1] eqn:Hg.
  destruct (draw_spec (length positions) buildingCount [] positions k1)
    as (taken & rest & Hd & _); [lia|].
  exists taken, (k1 + length taken)%nat.
  assert (Ha : addResidentialDistrict rng buildingCount k
               = Drawn taken (k1 + length taken)).
  { unfold addResidentialDistrict. rewrite Hg. exact Hd. }
  split; [exact Ha|]. exact (selected_outside _ _ _ _ Ha).
Qed.

(** C7. When [buildingCount] positions are requested and the grid
    left fewer candidates, [addResidentialDistrict] ends normally
    with a selection that is a rearrangement of all the candidates:
    as many placements as there were candidates, each candidate
    taken once. *)
Theorem residential_shortfall_returns_all
    (buildingCount k : nat) (positions : list Position) (k1 : nat) :
  grid rng k = (positions, k1) ->
  (length positions < buildingCount)%nat ->
  exists selected,
    addResidentialDistrict rng buildingCount k
    = Drawn selected (k1 + length positions)
    /\ length selected = length positions
    /\ selected ≡ₚ positions.
Proof.
  intros Hg Hshort.
  destruct (draw_spec (length positions) buildingCount [] positions k1)
    as (taken & rest & Hd & Hperm & Hrest & _); [lia|].
  cbn in Hd, Hrest.
  assert (Hlen : (length taken + length rest)%nat = length positions).
  { rewrite <- length_app. by rewrite Hperm. }
  rewrite Hrest in * by lia. rewrite app_nil_r in Hperm. cbn in Hlen.
  exists taken. unfold addResidentialDistrict. rewrite Hg, Hd.
  split; [f_equal; lia|]. split; [lia|exact Hperm].
Qed.

(** In general the loop returns [buildingCount] positions or all the
    candidates, whichever is less. *)
Lemma residential_count (buildingCount k : nat) :
  exists selected k',
    addResidentialDistrict rng buildingCount k = Drawn selected k'
    /\ length selected = (buildingCount `min` length (grid rng k).1)%nat.
Proof.
  destruct (grid rng k) as [positions k1] eqn:Hg.
  destruct (draw_spec (length positions) buildingCount [] positions k1)
    as (taken & rest & Hd & Hperm & Hrest & Hmax); [lia|].
  cbn in Hd, Hrest, Hmax.
  exists taken, (k1 + length taken)%nat.
  unfold addResidentialDistrict. rewrite Hg. split; [exact Hd|]. cbn.
  assert (Hlen : (length taken + length rest)%nat = length positions).
  { rewrite <- length_app. by rewrite Hperm. }
  destruct (decide (length taken < buildingCount)%nat) as [Hlt|Hge].
  - rewrite (Hrest Hlt) in Hlen. cbn in Hlen. lia.
  - destruct Hmax as [->|Hmax]; cbn in *; lia.
Qed.

End Loops.

(** *** The sampling loop of the trees *)
Section Sampling.
Variable rng : Rng.

Lemma sampleTree_step fuel k :
  sampleTree rng (S fuel) k
  = if treeRejected rng k then sampleTree rng fuel (S (S k))
    else Some (treeCandidate rng k, S (S k)).
Proof.
  unfold treeRejected, treeCandidate. cbn [sampleTree x z].
  destruct (_ && _); [reflexivity|]. destruct (_ || _); reflexivity.
Qed.

(** A candidate that is not rejected is outside the central square
    and at least 5 away from both axes. *)
Lemma accepted_outside k :
  treeRejected rng k = false ->
  ~ (Qabs (x (treeCandidate rng k)) < 10 /\ Qabs (z (treeCandidate rng k)) < 10)
  /\ 5 <= Qabs (x (treeCandidate rng k))
  /\ 5 <= Qabs (z (treeCandidate rng k)).
Proof.
  unfold treeRejected.
  rewrite !orb_false_iff, andb_false_iff, !Qltb_ge.
  intros [Hsq [Hx Hz]]. split; [|by split].
  intros [Hx' Hz']. destruct Hsq as [H|H]; revert H; by apply Qlt_not_le.
Qed.

(** As long as every candidate is rejected the loop goes on. *)
Lemma sampleTree_all_rejected fuel k :
  (forall m, (m < fuel)%nat -> treeRejected rng (k + 2 * m) = true) ->
  sampleTree rng fuel k = None.
Proof.
  revert k. induction fuel as [|fuel IH]; intros k Hrej; [reflexivity|].
  rewrite sampleTree_step.
  pose proof (Hrej 0%nat ltac:(lia)) as H0.
  rewrite Nat.mul_0_r, Nat.add_0_r in H0. rewrite H0.
  apply IH. intros m Hm.
  replace (S (S k) + 2 * m)%nat with (k + 2 * S m)%nat by lia.
  apply Hrej. lia.
Qed.

(** C8, as amended. The sampling loop of [addTrees] has no bound on
    its passes and no result for giving up. When the candidate of
    pass [n + 1] is the first that is not rejected, the loop runs
    exactly [n + 1] passes, however large [n] is, and returns that
    candidate; when every candidate is rejected it is still running
    after any number of passes. *)
Theorem sampleTree_ends_at_first_accepted (k : nat) :
  (forall n,
     (forall m, (m < n)%nat -> treeRejected rng (k + 2 * m) = true) ->
     treeRejected rng (k + 2 * n) = false ->
     forall fuel,
       ((n < fuel)%nat ->
        sampleTree rng fuel k
        = Some (treeCandidate rng (k + 2 * n), S (S (k + 2 * n))))
       /\ ((fuel <= n)%nat -> sampleTree rng fuel k = None))
  /\ ((forall n, treeRejected rng (k + 2 * n) = true) ->
      forall fuel, sampleTree rng fuel k = None).
Proof.
  split.
  - intros n Hrej Hacc fuel. split.
    + revert k fuel Hrej Hacc.
      induction n as [|n IH]; intros k fuel Hrej Hacc Hfuel;
        (destruct fuel as [|fuel]; [lia|]); rewrite sampleTree_step.
      * rewrite Nat.mul_0_r, Nat.add_0_r in *. rewrite Hacc. reflexivity.
      * pose proof (Hrej 0%nat ltac:(lia)) as H0.
        rewrite Nat.mul_0_r, Nat.add_0_r in H0. rewrite H0.
        replace (k + 2 * S n)%nat with (S (S k) + 2 * n)%nat in * by lia.
        apply IH; [|exact Hacc|lia].
        intros m Hm.
        replace (S (S k) + 2 * m)%nat with (k + 2 * S m)%nat by lia.
        apply Hrej. lia.
    + intros Hfuel. apply sampleTree_all_rejected.
      intros m Hm. apply Hrej. lia.
  - intros Hrej fuel. apply sampleTree_all_rejected.
    intros m _. apply Hrej.
Qed.

End Sampling.

Import Scenes.

(** With one half twice and nine tenths afterwards, the first candidate
    is the centre, which is rejected, and the second is (40, 40). *)
Lemma sampleTree_ends_at_first_accepted_witness :
  treeRejected halfTwice 0 = true
  /\ treeRejected halfTwice 2 = false
  /\ sampleTree halfTwice 2 0 = Some (treeCandidate halfTwice 2, 4%nat)
  /\ sampleTree halfTwice 1 0 = None.
Proof.
  split; [reflexivity|]. split; [reflexivity|].
  assert (Hrej : forall m, (m < 1)%nat -> treeRejected halfTwice (0 + 2 * m) = true).
  { intros m Hm. replace m with 0%nat by lia. reflexivity. }
  destruct (proj1 (sampleTree_ends_at_first_accepted halfTwice 0) 1%nat
              Hrej eq_refl 2%nat) as [Hsome _].
  destruct (proj1 (sampleTree_ends_at_first_accepted halfTwice 0) 1%nat
              Hrej eq_refl 1%nat) as [_ Hnone].
  split; [apply Hsome; lia|apply Hnone; lia].
Defined.

(** C8, as stated, fails: with random numbers that are all one half
    every candidate is the centre of the city, the loop never ends, and
    [addTrees(20)] never returns. *)
Lemma addTrees_sampling_counterexample :
  (forall fuel, sampleTree allHalf fuel 0 = None)
  /\ ~ exists fuel trees, addTrees allHalf fuel 20 0 = Some trees.
Proof.
  assert (Hloop : forall fuel k, sampleTree allHalf fuel k = None).
  { intros fuel k. apply sampleTree_all_rejected. intros m _. reflexivity. }
  split; [intros fuel; apply Hloop|].
  intros (fuel & trees & H). unfold addTrees in H.
  change (20 - length treePositions)%nat with 8%nat in H.
  cbn [randomTrees] in H. rewrite Hloop in H. discriminate.
Qed.

Lemma allHalf_in_range : rng_in_range allHalf.
Proof. intros n. split; [discriminate|reflexivity]. Qed.

(** With all random numbers one half the candidates are the grid
    points themselves; 20 of them are asked for. *)
Lemma residential_positions_outside_exclusions_witness :
  rng_in_range allHalf
  /\ exists selected k',
       addResidentialDistrict allHalf 20 0 = Drawn selected k'
       /\ forall p, p ∈ selected ->
          forall r, r ∈ exclusionRectangles -> ~ inside r p.
Proof.
  split; [intros n; split; [discriminate|reflexivity]|].
  apply (residential_positions_outside_exclusions allHalf).
  intros n. split; [discriminate|reflexivity].
Defined.

(** The same grid when 200 positions are asked for, more than the grid
    has cells. *)
Lemma residential_shortfall_returns_all_witness :
  rng_in_range allHalf
  /\ (length (grid allHalf 0).1 < 200)%nat
  /\ exists selected,
       addResidentialDistrict allHalf 200 0
       = Drawn selected ((grid allHalf 0).2 + length (grid allHalf 0).1)
       /\ length selected = length (grid allHalf 0).1
       /\ selected ≡ₚ (grid allHalf 0).1.
Proof.
  split; [intros n; split; [discriminate|reflexivity]|].
  split; [vm_compute; lia|].
  apply (residential_shortfall_returns_all allHalf).
  - intros n. split; [discriminate|reflexivity].
  - destruct (grid allHalf 0). reflexivity.
  - vm_compute. lia.
Defined.

(** The grid of that run keeps 121 of its 144 cells, and the run
    returns them all. *)
Example residential_shortfall_run :
  length (grid allHalf 0).1 = 121%nat
  /\ exists selected k',
       addResidentialDistrict allHalf 200 0 = Drawn selected k'
       /\ length selected = 121%nat.
Proof.
  split; [vm_compute; reflexivity|].
  do 2 eexists. split; vm_compute; reflexivity.
Qed.

End PlacementFacts.

(** ** The player controller *)
Module PlayerFacts.
Import Three.

Lemma changeAnimation_target a this :
  Character.target (Character.changeAnimation a this) = Character.target this.
Proof.
  unfold Character.changeAnimation.
  destruct (negb _); [reflexivity|].
  destruct (Character.currentAction this) as [c|];
    [destruct (Character.Action_eqb a c)|]; reflexivity.
Qed.

Lemma changeAnimation_shadow a this :
  Character.shadow (Character.changeAnimation a this) = Character.shadow this.
Proof.
  unfold Character.changeAnimation.
  destruct (negb _); [reflexivity|].
  destruct (Character.currentAction this) as [c|];
    [destruct (Character.Action_eqb a c)|]; reflexivity.
Qed.

(** Without a directional flag the direction is the zero vector. *)
Lemma inputDirection_rest this :
  Character.moveForward this = false -> Character.moveBackward this = false ->
  Character.moveLeft this = false -> Character.moveRight this = false ->
  lengthPositive (Character.inputDirection this) = false.
Proof.
  intros Hf Hb Hl Hr. unfold Character.inputDirection.
  rewrite Hf, Hb, Hl, Hr. reflexivity.
Qed.

Section Tick.
Variable normalize : Vector3 -> Vector3.
Variable getWorldDirection : Object3D -> Vector3.
Variable applyLookAtMatrix : Vector3 -> Vector3 -> Vector3.
Variable lookAtQuaternion : bool -> Vector3 -> Vector3 -> Quaternion.
Variable applyQuaternion : Vector3 -> Quaternion -> Vector3.
Variable setFromObject : Object3D -> Box3.

Let collide := Character.collide normalize setFromObject.
Let handleCollisions := Character.handleCollisions normalize setFromObject.
Let update :=
  Character.update normalize getWorldDirection applyLookAtMatrix
    lookAtQuaternion applyQuaternion setFromObject.

Let clearOf := Character.clearOf setFromObject.

Lemma collide_clear this b : clearOf this b -> collide this b = this.
Proof.
  intros Hclear. unfold collide, Character.collide.
  destruct (Character.target this) as [t|] eqn:Ht; [|reflexivity].
  destruct (Building.mesh b) as [bmesh|] eqn:Hm; [|reflexivity].
  rewrite (Hclear t bmesh Ht Hm). reflexivity.
Qed.

Lemma handleCollisions_clear this buildings :
  Forall (clearOf this) buildings -> handleCollisions this buildings = this.
Proof.
  intros Hall. unfold handleCollisions, Character.handleCollisions.
  destruct (Character.target this) as [t|] eqn:Ht; [|reflexivity].
  clear Ht. induction Hall as [|b bs Hb _ IH]; [reflexivity|].
  cbn [fold_left]. fold collide. rewrite (collide_clear _ _ Hb). exact IH.
Qed.

(** C9. A tick of the controller with no directional flag set, while
    the box of the player intersects the box of no building, leaves
    the player where it is: the model (or the placeholder), with its
    position, and the shadow are unchanged. *)
Theorem update_at_rest_keeps_position
    (this : Character.Character) (camera : Object3D) (delta : Q)
    (buildings : list Building.Building) :
  Character.moveForward this = false -> Character.moveBackward this = false ->
  Character.moveLeft this = false -> Character.moveRight this = false ->
  Forall (clearOf this) buildings ->
  Character.target (update this camera delta buildings).1 = Character.target this
  /\ position <$> Character.target (update this camera delta buildings).1
     = position <$> Character.target this
  /\ Character.shadow (update this camera delta buildings).1 = Character.shadow this.
Proof.
  intros Hf Hb Hl Hr Hclear.
  assert (Hsame :
    Character.target (update this camera delta buildings).1 = Character.target this
    /\ Character.shadow (update this camera delta buildings).1 = Character.shadow this).
  { unfold update, Character.update.
    destruct (Character.target this) as [t|] eqn:Ht; cbn [fst]; [|by rewrite Ht].
    rewrite (inputDirection_rest this Hf Hb Hl Hr).
    set (this' := if Character.mixer this && Character.idle (Character.animations this)
                  then Character.changeAnimation Character.Idle this else this).
    assert (Ht' : Character.target this' = Character.target this).
    { unfold this'. destruct (_ && _); [apply changeAnimation_target|reflexivity]. }
    assert (Hs' : Character.shadow this' = Character.shadow this).
    { unfold this'. destruct (_ && _); [apply changeAnimation_shadow|reflexivity]. }
    fold handleCollisions. rewrite handleCollisions_clear.
    - rewrite Ht', Hs', Ht. by split.
    - eapply Forall_impl; [exact Hclear|].
      intros b Hb' t' bmesh Htt Hm. apply Hb'; [|exact Hm]. by rewrite <- Ht'. }
  destruct Hsame as [Htarget Hshadow].
  split; [exact Htarget|]. split; [by rewrite Htarget|exact Hshadow].
Qed.

End Tick.

Import Scenes.

(** The character standing 30 away from the main building. *)
Lemma update_at_rest_keeps_position_witness :
  Forall (Character.clearOf unitBox (standingAt (mkVector3 0 1 30))) [mainBuilding]
  /\ position <$> Character.target
       (Character.update (λ v, v) (λ _, mkVector3 0 0 (-1)) (λ v _, v)
          (λ _ _ _, identity) applyIdentity unitBox
          (standingAt (mkVector3 0 1 30)) (group (mkVector3 0 10 20) [])
          (1 # 60) [mainBuilding]).1
     = Some (mkVector3 0 1 30).
Proof.
  assert (Hclear : Forall (Character.clearOf unitBox (standingAt (mkVector3 0 1 30)))
                     [mainBuilding]).
  { constructor; [|constructor].
    intros t bmesh Ht Hm. injection Ht as <-. injection Hm as <-. reflexivity. }
  split; [exact Hclear|].
  exact (proj1 (proj2
           (update_at_rest_keeps_position (λ v, v) (λ _, mkVector3 0 0 (-1))
              (λ v _, v) (λ _ _ _, identity) applyIdentity unitBox
              (standingAt (mkVector3 0 1 30)) (group (mkVector3 0 10 20) [])
              (1 # 60) [mainBuilding] eq_refl eq_refl eq_refl eq_refl Hclear))).
Defined.

End PlayerFacts.

(** ** Window generation *)
Module WindowFacts.
Import Building.

Section Loops.
Variable rng : Rng.

Lemma cell_indexed f1 f2 i j st :
  indexed st ->
  indexed (cell rng f1 f2 i j st)
  /\ (instanceIndex st <= instanceIndex (cell rng f1 f2 i j st)
      <= instanceIndex st + 2)%nat.
Proof.
  unfold indexed, cell. intros H.
  destruct (Qltb _ _); cbn; [split; [exact H|lia]|].
  split; [|lia]. apply Forall_app. split.
  - eapply Forall_impl; [exact H|]. cbn. intros c Hc. lia.
  - repeat constructor; cbn; lia.
Qed.

Lemma forRows_indexed f1 f2 i todo from st :
  indexed st ->
  indexed (forRows rng f1 f2 i todo from st)
  /\ (instanceIndex st <= instanceIndex (forRows rng f1 f2 i todo from st)
      <= instanceIndex st + 2 * todo)%nat.
Proof.
  revert from st. induction todo as [|todo IH]; intros from st H; cbn.
  - split; [exact H|lia].
  - destruct (cell_indexed f1 f2 i from st H) as [H1 Hb1].
    destruct (IH (S from) _ H1) as [H2 Hb2]. split; [exact H2|lia].
Qed.

Lemma forColumns_indexed f1 f2 rows todo from st :
  indexed st ->
  indexed (forColumns rng f1 f2 rows todo from st)
  /\ (instanceIndex st <= instanceIndex (forColumns rng f1 f2 rows todo from st)
      <= instanceIndex st + 2 * rows * todo)%nat.
Proof.
  revert from st. induction todo as [|todo IH]; intros from st H; cbn.
  - split; [exact H|lia].
  - destruct (forRows_indexed f1 f2 from rows 0%nat st H) as [H1 Hb1].
    destruct (IH (S from) _ H1) as [H2 Hb2]. split; [exact H2|nia].
Qed.

(** The number of instances is at most two per cell of the front and,
    for a building wider than 1.5, two per cell of the side. *)
Lemma addWindows_count this start :
  indexed (addWindows rng this start)
  /\ (instanceIndex (addWindows rng this start)
      <= 2 * Z.to_nat (windowsVertical this)
         * (Z.to_nat (windowsHorizontal this)
            + Z.to_nat (sideWindowsHorizontal this)))%nat.
Proof.
  unfold addWindows.
  assert (H0 : indexed (mkWindowState start 0%nat [])) by constructor.
  destruct (forColumns_indexed Front Back (Z.to_nat (windowsVertical this))
              (Z.to_nat (windowsHorizontal this)) 0%nat _ H0) as [H1 Hb1].
  cbn [instanceIndex] in Hb1.
  destruct (Qltb 1.5 (width this)).
  - destruct (forColumns_indexed Right Left (Z.to_nat (windowsVertical this))
                (Z.to_nat (sideWindowsHorizontal this)) 0%nat _ H1) as [H2 Hb2].
    split; [exact H2|nia].
  - split; [exact H1|nia].
Qed.

(** When the side has no more columns than the front, every index
    written is below the capacity. *)
Lemma addWindows_within_capacity this start :
  (sideWindowsHorizontal this <= windowsHorizontal this)%Z ->
  forall c, c ∈ calls (addWindows rng this start) ->
  (Z.of_nat (index c) < totalWindows this)%Z.
Proof.
  intros Hside c Hc.
  destruct (addWindows_count this start) as [Hidx Hcount].
  unfold indexed in Hidx. rewrite Forall_forall in Hidx.
  specialize (Hidx c Hc). unfold totalWindows.
  destruct (Z.le_gt_cases (windowsVertical this) 0) as [Hv|Hv];
    [rewrite (Z2Nat.nonpos _ Hv) in Hcount; lia|].
  destruct (Z.le_gt_cases (windowsHorizontal this) 0) as [Hh|Hh].
  - assert (Z.to_nat (windowsHorizontal this) = 0%nat) by lia.
    assert (Z.to_nat (sideWindowsHorizontal this) = 0%nat) by lia.
    nia.
  - nia.
Qed.

End Loops.

Import Scenes.

(** C10, at a failing input: a residential building 2 wide, 2 high and
    5 deep, with random numbers that skip no window. The instanced
    mesh is created for 48 instances (4 columns, 3 rows, 4 faces); the
    front and back take the indices 0 to 23 and the two sides, with 10
    columns each, go on to index 83: index 48 is written for the
    right face, and the instance count is set to 84. *)
Theorem addWindows_exceeds_capacity :
  totalWindows deepBuilding = 48%Z
  /\ sideWindowsHorizontal deepBuilding = 10%Z
  /\ calls (addWindows allHalf deepBuilding 0) !! 48%nat
     = Some (mkSetMatrixAt 48 Right 4 0)
  /\ calls (addWindows allHalf deepBuilding 0) !! 83%nat
     = Some (mkSetMatrixAt 83 Left 9 2)
  /\ instanceIndex (addWindows allHalf deepBuilding 0) = 84%nat.
Proof. repeat split; vm_compute; reflexivity. Qed.

End WindowFacts.


(** * Part III: further properties of the code *)

(** ** The animation frame *)
Module FrameFacts.
Import Three.

Section Frame.
Variable normalize : Vector3 -> Vector3.
Variable getWorldDirection : Object3D -> Vector3.
Variable applyLookAtMatrix : Vector3 -> Vector3 -> Vector3.
Variable lookAtQuaternion : bool -> Vector3 -> Vector3 -> Quaternion.
Variable applyQuaternion : Vector3 -> Quaternion -> Vector3.
Variable setFromObject : Object3D -> Box3.
Variable intersectsObject : Object3D -> Object3D -> bool.
Variable controlsUpdate : Object3D -> Object3D.

Let updateCalls :=
  Portfolio.updateCalls normalize getWorldDirection applyLookAtMatrix
    lookAtQuaternion applyQuaternion setFromObject intersectsObject
    controlsUpdate.

(** A visit makes at most one call. *)
Lemma visit_length this frustumCamera camera gs b :
  (length (Portfolio.visit intersectsObject this frustumCamera camera gs b) <= 1)%nat.
Proof.
  unfold Portfolio.visit. destruct (Building.mesh b); [|cbn; lia].
  destruct (Portfolio.distanceGreater _ _ _); [cbn; lia|].
  destruct (_ || _); cbn; lia.
Qed.

(** A building outside the set whose root has no geometry is passed over. *)
Lemma visit_group_outside this frustumCamera camera gs b m :
  Building.mesh b = Some m -> geometry m = None ->
  Building.ref b ∉ Portfolio.visibleBuildings this ->
  Portfolio.visit intersectsObject this frustumCamera camera gs b = [].
Proof.
  intros Hm Hg Hout. unfold Portfolio.visit. rewrite Hm.
  destruct (Portfolio.distanceGreater _ _ _); [reflexivity|].
  rewrite bool_decide_eq_false_2 by exact Hout.
  rewrite SchedulerFacts.isInViewFrustum_group by exact Hg. reflexivity.
Qed.

(** The calls of a frame on one building are those of its own visit,
    for the camera that the frame ends up using. *)
Lemma updateCalls_visit this delta s cam bs b :
  Portfolio.camera this = Some cam ->
  Portfolio.buildings this = Some bs ->
  NoDup (Building.ref <$> bs) -> b ∈ bs ->
  exists camera',
    updateCalls this delta s b
    = Some (length (Portfolio.visit intersectsObject this cam camera'
                      (geometries s) b)).
Proof.
  intros Hcam Hbs Hnd Hin.
  unfold updateCalls, Portfolio.updateCalls, Portfolio.animate.
  rewrite Hcam, Hbs.
  match goal with
  | |- context [let '(_, _) := ?e in _] => destruct e as [c' cam']
  end.
  exists cam'. cbn.
  rewrite SchedulerFacts.calls_of_building by assumption. reflexivity.
Qed.

(** X1. Every building of the list receives at most one [update] call in a
    frame. *)
Theorem animate_at_most_one_update this delta s cam bs b :
  Portfolio.camera this = Some cam ->
  Portfolio.buildings this = Some bs ->
  NoDup (Building.ref <$> bs) -> b ∈ bs ->
  exists n, updateCalls this delta s b = Some n /\ (n <= 1)%nat.
Proof.
  intros Hcam Hbs Hnd Hin.
  destruct (updateCalls_visit this delta s cam bs b Hcam Hbs Hnd Hin)
    as [camera' ->].
  eexists. split; [reflexivity|]. apply visit_length.
Qed.

(** X2. A building that is not in [visibleBuildings] and whose root object
    has no geometry, as the group that the Building constructor creates,
    receives no [update] call, however near the camera is and whatever
    the frustum contains. *)
Theorem animate_group_outside_set_not_updated this delta s cam bs b m :
  Portfolio.camera this = Some cam ->
  Portfolio.buildings this = Some bs ->
  NoDup (Building.ref <$> bs) -> b ∈ bs ->
  Building.mesh b = Some m -> geometry m = None ->
  Building.ref b ∉ Portfolio.visibleBuildings this ->
  updateCalls this delta s b = Some 0%nat.
Proof.
  intros Hcam Hbs Hnd Hin Hm Hg Hout.
  destruct (updateCalls_visit this delta s cam bs b Hcam Hbs Hnd Hin)
    as [camera' ->].
  rewrite (visit_group_outside _ _ _ _ _ m) by assumption. reflexivity.
Qed.

End Frame.

Import Scenes.

Lemma animate_at_most_one_update_witness :
  exists n,
    Portfolio.updateCalls (λ v, v) (λ _, mkVector3 0 0 (-1)) (λ v _, v)
      (λ _ _ _, identity) applyIdentity unitBox (λ _ _, true) controlsAtRest
      nearPortfolio (1 # 60) emptyStore mainBuilding = Some n
    /\ (n <= 1)%nat.
Proof.
  apply (animate_at_most_one_update (λ v, v) (λ _, mkVector3 0 0 (-1)) (λ v _, v)
           (λ _ _ _, identity) applyIdentity unitBox (λ _ _, true) controlsAtRest
           nearPortfolio (1 # 60) emptyStore (group (mkVector3 0 10 20) [])
           [mainBuilding; residentialBuilding]).
  - reflexivity.
  - reflexivity.
  - compute_done.
  - apply list_elem_of_here.
Defined.

(** The residential building stands 30 from the camera and in view, and
    still gets no call. *)
Lemma animate_group_outside_set_not_updated_witness :
  Portfolio.updateCalls (λ v, v) (λ _, mkVector3 0 0 (-1)) (λ v _, v)
    (λ _ _ _, identity) applyIdentity unitBox (λ _ _, true) controlsAtRest
    nearPortfolio (1 # 60) emptyStore residentialBuilding = Some 0%nat.
Proof.
  apply (animate_group_outside_set_not_updated (λ v, v) (λ _, mkVector3 0 0 (-1))
           (λ v _, v) (λ _ _ _, identity) applyIdentity unitBox (λ _ _, true)
           controlsAtRest nearPortfolio (1 # 60) emptyStore
           (group (mkVector3 0 10 20) []) [mainBuilding; residentialBuilding]
           residentialBuilding
           (group (mkVector3 30 4 30) [part Mesh 20 10 []])).
  - reflexivity.
  - reflexivity.
  - compute_done.
  - apply list_elem_of_further, list_elem_of_here.
  - reflexivity.
  - reflexivity.
  - cbn. set_solver.
Defined.

End FrameFacts.

(** ** The shared caches *)
Module SharingFacts.
Import Three.

(** *** Strings and the separator *)

Lemma append_nil (x : string) : "" +:+ x = x.
Proof. reflexivity. Qed.

Lemma append_cons (c : ascii) (a x : string) :
  String c a +:+ x = String c (a +:+ x).
Proof. reflexivity. Qed.

Lemma underscoreFree_app_underscore (a x : string) :
  Js.underscoreFree (a +:+ "_" +:+ x) = false.
Proof.
  induction a as [|c a IH].
  - reflexivity.
  - rewrite append_cons. cbn [Js.underscoreFree]. rewrite IH. apply andb_false_r.
Qed.

(** The text before the first underscore and the text after it are
    determined by the whole. *)
Lemma app_underscore_inj (a b x y : string) :
  Js.underscoreFree a = true -> Js.underscoreFree b = true ->
  a +:+ "_" +:+ x = b +:+ "_" +:+ y -> a = b /\ x = y.
Proof.
  revert b. induction a as [|c a IH]; intros [|d b] Ha Hb Heq;
    repeat (rewrite append_cons in Heq || rewrite append_nil in Heq).
  - injection Heq as ->. by split.
  - injection Heq as Hd _. subst d. discriminate.
  - injection Heq as Hc _. subst c. discriminate.
  - injection Heq as -> Heq. cbn in Ha, Hb.
    apply andb_true_iff in Ha as [_ Ha]. apply andb_true_iff in Hb as [_ Hb].
    destruct (IH b Ha Hb Heq) as [-> ->]. by split.
Qed.

Section Keys.
Variable numToString : Q -> string.

Let clean := Js.cleanElement numToString.
Let text := Js.joinElement numToString.

Lemma clean_text v :
  clean v = true -> text v <> "" /\ Js.underscoreFree (text v) = true.
Proof.
  unfold clean, Js.cleanElement. intros [Hne Hu]%andb_true_iff.
  split; [|exact Hu]. intros Heq. fold (text v) in Hne.
  rewrite Heq in Hne. discriminate.
Qed.

Lemma join_cons2 v w rest :
  Js.join numToString "_" (v :: w :: rest)
  = text v +:+ "_" +:+ Js.join numToString "_" (w :: rest).
Proof. reflexivity. Qed.

(** [join] with the underscore loses nothing on clean parameters. *)
Lemma join_inj (l1 l2 : list Js.JsVal) :
  Forall (λ v, clean v = true) l1 -> Forall (λ v, clean v = true) l2 ->
  Js.join numToString "_" l1 = Js.join numToString "_" l2 ->
  text <$> l1 = text <$> l2.
Proof.
  intros H1. revert l2. induction H1 as [|v l1 Hv H1 IH]; intros l2 H2 Heq.
  - destruct H2 as [|w l2 Hw H2]; [reflexivity|].
    destruct (clean_text w Hw) as [Hne _]. exfalso.
    destruct l2 as [|w' l2]; [cbn in Heq; fold (text w) in Heq; congruence|].
    rewrite join_cons2 in Heq. cbn [Js.join] in Heq.
    destruct (text w); [congruence|rewrite append_cons in Heq; discriminate].
  - destruct (clean_text v Hv) as [Hvne Hvu].
    destruct H2 as [|w l2 Hw H2].
    + exfalso. destruct l1 as [|v' l1]; [cbn in Heq; fold (text v) in Heq; congruence|].
      rewrite join_cons2 in Heq. cbn [Js.join] in Heq.
      destruct (text v); [congruence|rewrite append_cons in Heq; discriminate].
    + destruct (clean_text w Hw) as [Hwne Hwu].
      destruct l1 as [|v' l1], l2 as [|w' l2].
      * cbn in Heq. fold (text v) (text w) in Heq. cbn. by rewrite Heq.
      * exfalso. rewrite join_cons2 in Heq. cbn [Js.join] in Heq.
        fold (text v) in Heq. rewrite Heq in Hvu.
        rewrite underscoreFree_app_underscore in Hvu. discriminate.
      * exfalso. rewrite join_cons2 in Heq. cbn [Js.join] in Heq.
        fold (text w) in Heq. rewrite <- Heq in Hwu.
        rewrite underscoreFree_app_underscore in Hwu. discriminate.
      * rewrite !join_cons2 in Heq.
        destruct (app_underscore_inj _ _ _ _ Hvu Hwu Heq) as [Ht Hrest].
        rewrite (fmap_cons text v), (fmap_cons text w), Ht. f_equal.
        apply IH; assumption.
Qed.

Lemma join_text (l1 l2 : list Js.JsVal) :
  text <$> l1 = text <$> l2 ->
  Js.join numToString "_" l1 = Js.join numToString "_" l2.
Proof.
  revert l2. induction l1 as [|v l1 IH]; intros [|w l2] Heq;
    try discriminate; [reflexivity|].
  rewrite !fmap_cons in Heq. injection Heq as Hv Hrest.
  specialize (IH l2 Hrest).
  destruct l1 as [|v' l1], l2 as [|w' l2]; try discriminate.
  - cbn. exact Hv.
  - rewrite !join_cons2. fold text in Hv. rewrite Hv, IH. reflexivity.
Qed.

(** The kinds of both [switch] statements have no underscore, and what
    a Building recognizes the Portfolio recognizes. *)
Lemma geometryKind_underscoreFree type k :
  Portfolio.geometryKind type = Some k -> Js.underscoreFree type = true.
Proof.
  unfold Portfolio.geometryKind.
  destruct (String.eqb_spec type "box") as [->|_]; [by intros|].
  destruct (String.eqb_spec type "plane") as [->|_]; [by intros|].
  destruct (String.eqb_spec type "cylinder") as [->|_]; [by intros|].
  destruct (String.eqb_spec type "cone") as [->|_]; [by intros|].
  destruct (String.eqb_spec type "torus") as [->|_]; [by intros|].
  destruct (String.eqb_spec type "circle") as [->|_]; [by intros|].
  intros; discriminate.
Qed.

Lemma materialKind_underscoreFree type k :
  Portfolio.materialKind type = Some k -> Js.underscoreFree type = true.
Proof.
  unfold Portfolio.materialKind.
  destruct (String.eqb_spec type "standard") as [->|_]; [by intros|].
  destruct (String.eqb_spec type "basic") as [->|_]; [by intros|].
  destruct (String.eqb_spec type "phong") as [->|_]; [by intros|].
  intros; discriminate.
Qed.

Lemma building_geometryKind_portfolio type k :
  Building.geometryKind type = Some k -> Portfolio.geometryKind type = Some k.
Proof.
  unfold Building.geometryKind, Portfolio.geometryKind.
  destruct (String.eqb type "box"); [by intros|].
  destruct (String.eqb type "plane"); [by intros|].
  destruct (String.eqb type "cylinder"); [by intros|].
  destruct (String.eqb type "cone"); [by intros|].
  destruct (String.eqb type "torus"); [by intros|].
  intros; discriminate.
Qed.

Lemma building_materialKind_portfolio type k :
  Building.materialKind type = Some k -> Portfolio.materialKind type = Some k.
Proof. intros H. exact H. Qed.

(** The key of a geometry request determines the kind and the text of
    the parameters, when the parameters are clean. *)
Lemma geometryKey_inj type1 params1 type2 params2 :
  Js.underscoreFree type1 = true -> Js.underscoreFree type2 = true ->
  Forall (λ v, clean v = true) params1 -> Forall (λ v, clean v = true) params2 ->
  Portfolio.geometryKey numToString type1 params1
  = Portfolio.geometryKey numToString type2 params2
  <-> type1 = type2 /\ text <$> params1 = text <$> params2.
Proof.
  intros Ht1 Ht2 Hp1 Hp2. unfold Portfolio.geometryKey. split.
  - intros Heq. destruct (app_underscore_inj _ _ _ _ Ht1 Ht2 Heq) as [-> Hj].
    split; [reflexivity|]. by apply join_inj.
  - intros [-> Hp]. by rewrite (join_text _ _ Hp).
Qed.

End Keys.

Section Calls.
Variable numToString : Q -> string.
Variable jsonQuote : string -> string.
Variable newGeometry : GeometryKind -> list Js.JsVal -> Geometry.
Variable newMaterial : MaterialKind -> Js.JsObject -> Material.

Let pGeometry := Portfolio.getGeometry numToString newGeometry.
Let pMaterial := Portfolio.getMaterial numToString jsonQuote newMaterial.
Let bGeometry := Building.getGeometry numToString newGeometry.
Let bMaterial := Building.getMaterial numToString jsonQuote newMaterial.
Let run := Client.run numToString jsonQuote newGeometry newMaterial.
Let step := Client.step numToString jsonQuote newGeometry newMaterial.

Let gKey := Portfolio.geometryKey numToString.
Let mKey := Portfolio.materialKey numToString jsonQuote.

Lemma building_getGeometry_hit b type params s r :
  Building.geometryCache b = true ->
  geometryCache s !! gKey type params = Some r ->
  bGeometry b type params s = (Some (Js.Own r), s).
Proof.
  intros Hb Hl. unfold bGeometry, Building.getGeometry. rewrite Hb.
  change (Building.geometryKey numToString type params) with (gKey type params).
  cbn zeta. rewrite (CacheFacts.read_own _ _ _ Hl). reflexivity.
Qed.

Lemma building_getGeometry_miss b type params s k :
  Building.geometryCache b = true ->
  geometryCache s !! gKey type params = None ->
  Building.geometryKind type = Some k ->
  exists s',
    bGeometry b type params s = (Some (Js.Own (nextRef s)), s')
    /\ geometryCache s' = <[gKey type params := nextRef s]> (geometryCache s).
Proof.
  intros Hb Hl Hk. unfold bGeometry, Building.getGeometry. rewrite Hb.
  change (Building.geometryKey numToString type params) with (gKey type params).
  cbn zeta.
  rewrite (CacheFacts.read_free _ _ Hl
             (CacheFacts.geometryKey_own numToString type params k
                (building_geometryKind_portfolio type k Hk))), Hk.
  eexists. split; reflexivity.
Qed.

Lemma building_getMaterial_hit b type params s r :
  Building.materialCache b = true ->
  materialCache s !! mKey type params = Some r ->
  bMaterial b type params s = (Some (Js.Own r), s).
Proof.
  intros Hb Hl. unfold bMaterial, Building.getMaterial. rewrite Hb.
  change (Building.materialKey numToString jsonQuote type params)
    with (mKey type params).
  cbn zeta. rewrite (CacheFacts.read_own _ _ _ Hl). reflexivity.
Qed.

Lemma building_getMaterial_miss b type params s k :
  Building.materialCache b = true ->
  materialCache s !! mKey type params = None ->
  Building.materialKind type = Some k ->
  exists s',
    bMaterial b type params s = (Some (Js.Own (nextRef s)), s')
    /\ materialCache s' = <[mKey type params := nextRef s]> (materialCache s).
Proof.
  intros Hb Hl Hk. unfold bMaterial, Building.getMaterial. rewrite Hb.
  change (Building.materialKey numToString jsonQuote type params)
    with (mKey type params).
  cbn zeta.
  rewrite (CacheFacts.read_free _ _ Hl
             (CacheFacts.materialKey_own numToString jsonQuote type params)), Hk.
  eexists. split; reflexivity.
Qed.

(** X3. The Portfolio and the Buildings that were given its caches share
    handles in both directions: what a Building creates the Portfolio
    returns for the same arguments, and what the Portfolio created a
    Building returns, even a kind that the Building itself cannot
    create. *)
Theorem shared_cache_handles
    (this : Portfolio.Portfolio) (b : Building.Building) (s : Store) :
  Portfolio.geometryCache this = true -> Portfolio.materialCache this = true ->
  Building.geometryCache b = true -> Building.materialCache b = true ->
  (forall type params k,
     Building.geometryKind type = Some k ->
     exists r s1,
       bGeometry b type params s = (Some (Js.Own r), s1)
       /\ pGeometry this type params s1 = (Js.Normal (Js.Own r), s1))
  /\ (forall type params k,
        Portfolio.geometryKind type = Some k ->
        exists r s1,
          pGeometry this type params s = (Js.Normal (Js.Own r), s1)
          /\ bGeometry b type params s1 = (Some (Js.Own r), s1))
  /\ (forall type params k,
        Building.materialKind type = Some k ->
        exists r s1,
          bMaterial b type params s = (Some (Js.Own r), s1)
          /\ pMaterial this type params s1 = (Js.Normal (Js.Own r), s1))
  /\ (forall type params k,
        Portfolio.materialKind type = Some k ->
        exists r s1,
          pMaterial this type params s = (Js.Normal (Js.Own r), s1)
          /\ bMaterial b type params s1 = (Some (Js.Own r), s1)).
Proof.
  intros Hpg Hpm Hbg Hbm.
  split; [|split; [|split]]; intros type params k Hk.
  - destruct (geometryCache s !! gKey type params) as [r|] eqn:Hl.
    + exists r, s. split; [by apply building_getGeometry_hit|].
      by apply CacheFacts.getGeometry_hit.
    + destruct (building_getGeometry_miss b type params s k Hbg Hl Hk)
        as (s' & Hcall & Hc).
      exists (nextRef s), s'. split; [exact Hcall|].
      apply CacheFacts.getGeometry_hit; [exact Hpg|].
      rewrite Hc. apply lookup_insert_eq.
  - destruct (geometryCache s !! gKey type params) as [r|] eqn:Hl.
    + exists r, s. split; [by apply CacheFacts.getGeometry_hit|].
      by apply building_getGeometry_hit.
    + destruct (CacheFacts.getGeometry_miss numToString newGeometry
                  this type params s k Hpg Hl Hk) as (s' & Hcall & Hc & _).
      exists (nextRef s), s'. split; [exact Hcall|].
      apply building_getGeometry_hit; [exact Hbg|].
      rewrite Hc. apply lookup_insert_eq.
  - destruct (materialCache s !! mKey type params) as [r|] eqn:Hl.
    + exists r, s. split; [by apply building_getMaterial_hit|].
      by apply CacheFacts.getMaterial_hit.
    + destruct (building_getMaterial_miss b type params s k Hbm Hl Hk)
        as (s' & Hcall & Hc).
      exists (nextRef s), s'. split; [exact Hcall|].
      apply CacheFacts.getMaterial_hit; [exact Hpm|].
      rewrite Hc. apply lookup_insert_eq.
  - destruct (materialCache s !! mKey type params) as [r|] eqn:Hl.
    + exists r, s. split; [by apply CacheFacts.getMaterial_hit|].
      by apply building_getMaterial_hit.
    + destruct (CacheFacts.getMaterial_miss numToString jsonQuote newMaterial
                  this type params s k Hpm Hl Hk) as (s' & Hcall & Hc & _).
      exists (nextRef s), s'. split; [exact Hcall|].
      apply building_getMaterial_hit; [exact Hbm|].
      rewrite Hc. apply lookup_insert_eq.
Qed.

(** X4. A Building that was created without the caches makes a new object
    at every call, also for equal arguments, and leaves the caches
    alone. *)
Theorem uncached_building_allocates_each_time
    (b : Building.Building) (s : Store) type params k :
  Building.geometryCache b = false ->
  Building.geometryKind type = Some k ->
  exists s1 s2,
    bGeometry b type params s = (Some (Js.Own (nextRef s)), s1)
    /\ bGeometry b type params s1 = (Some (Js.Own (S (nextRef s))), s2)
    /\ geometryCache s2 = geometryCache s
    /\ materialCache s2 = materialCache s.
Proof.
  intros Hb Hk. unfold bGeometry, Building.getGeometry. rewrite Hb, Hk.
  do 2 eexists. repeat split; reflexivity.
Qed.

Let recognizedKeys := Client.recognizedKeys numToString jsonQuote.

Lemma backed_empty : backed emptyStore.
Proof. split; cbn; intros *; rewrite lookup_empty; discriminate. Qed.

Lemma recognizedKeys_empty : recognizedKeys emptyStore.
Proof. split; cbn; intros *; rewrite lookup_empty; discriminate. Qed.

Lemma step_backed this (s : Store) (q : Client.Request) :
  backed s -> backed (step this s q).
Proof.
  intros [Hg Hm].
  destruct q as [type params|type params|b type params|b type params]; cbn;
    unfold Portfolio.getGeometry, Portfolio.getMaterial,
      Building.getGeometry, Building.getMaterial, Js.read;
    repeat (case_match; cbn); try (split; assumption);
    split; cbn; intros k0 r0 Hl;
    try (apply lookup_insert_Some in Hl as [[<- <-]|[? Hl]]);
    rewrite ?lookup_insert_is_Some;
    first [ by left
          | by eauto
          | destruct (decide (nextRef s = r0)); [by left|right; split; [done|by eauto]] ].
Qed.

Lemma step_recognizedKeys this (s : Store) (q : Client.Request) :
  recognizedKeys s -> recognizedKeys (step this s q).
Proof.
  intros [Hg Hm].
  destruct q as [type params|type params|b type params|b type params]; cbn;
    unfold Portfolio.getGeometry, Portfolio.getMaterial,
      Building.getGeometry, Building.getMaterial, Js.read;
    repeat (case_match; cbn); try (split; assumption);
    split; cbn; intros k0 r0 Hl;
    try (apply lookup_insert_Some in Hl as [[<- <-]|[? Hl]]);
    first [ by eauto
          | by (do 3 eexists; split; [reflexivity|eassumption])
          | by (do 3 eexists; split;
                [reflexivity|apply building_geometryKind_portfolio; eassumption]) ].
Qed.

Lemma run_backed_recognized this (qs : list Client.Request) :
  backed (run this qs emptyStore) /\ recognizedKeys (run this qs emptyStore).
Proof.
  assert (Hgen : forall s, backed s -> recognizedKeys s ->
                   backed (run this qs s) /\ recognizedKeys (run this qs s)).
  { induction qs as [|q qs IH]; intros s Hb Hr; cbn; [by split|].
    apply IH; [by apply step_backed|by apply step_recognizedKeys]. }
  apply Hgen; [apply backed_empty|apply recognizedKeys_empty].
Qed.

(** X5. After any sequence of requests to an empty store, by the Portfolio
    and by Buildings with or without the caches, every cached handle
    has been allocated and refers to an object of the heap, no handle is
    cached under two keys, and every key comes from a recognized kind. *)
Theorem requests_keep_caches_sound this (qs : list Client.Request) :
  wellFormed (run this qs emptyStore)
  /\ backed (run this qs emptyStore)
  /\ recognizedKeys (run this qs emptyStore).
Proof.
  split; [apply CacheFacts.run_sound, CacheFacts.wellFormed_empty|].
  apply run_backed_recognized.
Qed.

(** X6. For parameters whose text is not empty and has no underscore, as
    numbers, two calls of the Portfolio's [getGeometry] with recognized
    kinds return the same handle exactly when the kinds are the same and
    the parameters print the same, whatever requests come before and in
    between. *)
Theorem geometry_handle_by_kind_and_text this (before between : list Client.Request)
    type1 params1 type2 params2 k1 k2 :
  Portfolio.geometryCache this = true ->
  Portfolio.geometryKind type1 = Some k1 ->
  Portfolio.geometryKind type2 = Some k2 ->
  Forall (λ v, Js.cleanElement numToString v = true) params1 ->
  Forall (λ v, Js.cleanElement numToString v = true) params2 ->
  exists r1 s1 r2 s2,
    pGeometry this type1 params1 (run this before emptyStore) = (Js.Normal (Js.Own r1), s1)
    /\ pGeometry this type2 params2 (run this between s1) = (Js.Normal (Js.Own r2), s2)
    /\ (r1 = r2 <->
        type1 = type2
        /\ Js.joinElement numToString <$> params1
           = Js.joinElement numToString <$> params2).
Proof.
  intros Hc Hk1 Hk2 Hp1 Hp2.
  destruct (CacheFacts.run_sound numToString jsonQuote newGeometry newMaterial
              this before emptyStore CacheFacts.wellFormed_empty) as [Hwf0 _].
  destruct (CacheFacts.getGeometry_first numToString newGeometry this type1
              params1 _ k1 Hwf0 Hc Hk1) as (r1 & s1 & Hcall1 & Hin1 & Hwf1).
  destruct (CacheFacts.run_sound numToString jsonQuote newGeometry newMaterial
              this between s1 Hwf1) as [Hwf2 (Hsub & _ & _)].
  pose proof (lookup_weaken _ _ _ _ Hin1 Hsub) as Hin2.
  destruct (CacheFacts.getGeometry_later numToString newGeometry this type2
              params2 _ k2 _ r1 Hwf2 Hc Hk2 Hin2) as (r2 & s2 & Hcall2 & Hiff).
  exists r1, s1, r2, s2. split; [exact Hcall1|]. split; [exact Hcall2|].
  rewrite <- Hiff. apply geometryKey_inj; try assumption.
  - eapply geometryKind_underscoreFree; eassumption.
  - eapply geometryKind_underscoreFree; eassumption.
Qed.

(** A key whose type is not empty and has no underscore does not start
    with an underscore and contains one: no property of the prototype
    has such a name. *)
Lemma typed_key_own (type rest : string) :
  type <> "" -> Js.underscoreFree type = true ->
  Js.inherited (type +:+ "_" +:+ rest) = false.
Proof.
  intros Hne Hu.
  destruct (Js.inherited (type +:+ "_" +:+ rest)) eqn:E; [exfalso|reflexivity].
  unfold Js.inherited in E. apply existsb_exists in E as (name & Hin & Heq).
  apply String.eqb_eq in Heq.
  unfold Js.prototypeNames in Hin. cbn [In] in Hin.
  repeat (destruct Hin as [<-|Hin];
          [first
             [ apply (f_equal Js.underscoreFree) in Heq;
               rewrite underscoreFree_app_underscore in Heq; discriminate
             | destruct type as [|c t]; [congruence|];
               rewrite append_cons in Heq; injection Heq as -> _;
               cbn in Hu; discriminate ]|]).
  destruct Hin.
Qed.

(** X7. In a store reached by any sequence of requests, the Portfolio
    answers a geometry type that it does not recognize, and whose name
    has no underscore, with the error for an unknown type, unless the
    key is the name of a property that the cache inherits from
    [Object.prototype]: then it returns that property. The store is as
    before in both cases. Such a key needs the empty type; any other
    type is answered with the error. An unrecognized material type
    without underscore is always answered with the error. *)
Theorem unknown_kind_throws_unless_inherited
    this (qs : list Client.Request) type :
  Portfolio.geometryCache this = true ->
  Portfolio.materialCache this = true ->
  Js.underscoreFree type = true ->
  (Portfolio.geometryKind type = None ->
   forall params,
     pGeometry this type params (run this qs emptyStore)
     = (if Js.inherited (gKey type params)
        then Js.Normal (Js.Inherited (gKey type params))
        else Js.Throw ("Unknown geometry type: " +:+ type),
        run this qs emptyStore))
  /\ (type <> "" -> forall params, Js.inherited (gKey type params) = false)
  /\ (Portfolio.materialKind type = None ->
      forall params,
        pMaterial this type params (run this qs emptyStore)
        = (Js.Throw ("Unknown material type: " +:+ type), run this qs emptyStore)).
Proof.
  intros Hg Hm Hu.
  destruct (run_backed_recognized this qs) as (_ & Hrg & Hrm).
  split; [|split].
  - intros Hk params.
    assert (Hfree : geometryCache (run this qs emptyStore) !! gKey type params
                    = None).
    { destruct (geometryCache _ !! _) as [r|] eqn:Hl; [|reflexivity].
      destruct (Hrg _ _ Hl) as (type' & params' & k' & Heq & Hk').
      unfold gKey, Portfolio.geometryKey in Heq.
      apply app_underscore_inj in Heq as [-> _];
        [congruence|exact Hu|by eapply geometryKind_underscoreFree]. }
    unfold pGeometry, Portfolio.getGeometry. rewrite Hg. cbn [negb].
    cbv zeta. fold (gKey type params). unfold Js.read. rewrite Hfree.
    destruct (Js.inherited (gKey type params)); [reflexivity|].
    by rewrite Hk.
  - intros Hne params. by apply typed_key_own.
  - intros Hk params.
    apply CacheFacts.getMaterial_unknown; [exact Hm| |exact Hk].
    apply CacheFacts.read_free; [|apply CacheFacts.materialKey_own].
    destruct (materialCache _ !! _) as [r|] eqn:Hl; [|reflexivity].
    destruct (Hrm _ _ Hl) as (type' & params' & k' & Heq & Hk').
    unfold Portfolio.materialKey in Heq.
    apply app_underscore_inj in Heq as [-> _];
      [congruence|exact Hu|by eapply materialKind_underscoreFree].
Qed.

End Calls.

Import Scenes.

(** The main building and the Portfolio on an empty store. *)
Lemma shared_cache_handles_witness :
  exists r s1,
    Building.getGeometry showNum newGeometry mainBuilding "box"
      [Js.JNum 8; Js.JNum 16; Js.JNum 8] emptyStore = (Some (Js.Own r), s1)
    /\ Portfolio.getGeometry showNum newGeometry farPortfolio "box"
         [Js.JNum 8; Js.JNum 16; Js.JNum 8] s1 = (Js.Normal (Js.Own r), s1).
Proof.
  exact (proj1
           (shared_cache_handles showNum showString newGeometry newMaterial
              farPortfolio mainBuilding emptyStore eq_refl eq_refl eq_refl eq_refl)
           "box" [Js.JNum 8; Js.JNum 16; Js.JNum 8] BoxGeometry eq_refl).
Defined.

Lemma uncached_building_allocates_each_time_witness :
  exists s1 s2,
    Building.getGeometry showNum newGeometry uncachedBuilding "box"
      [Js.JNum 4; Js.JNum 8; Js.JNum 4] emptyStore = (Some (Js.Own 0%nat), s1)
    /\ Building.getGeometry showNum newGeometry uncachedBuilding "box"
         [Js.JNum 4; Js.JNum 8; Js.JNum 4] s1 = (Some (Js.Own 1%nat), s2)
    /\ geometryCache s2 = geometryCache emptyStore
    /\ materialCache s2 = materialCache emptyStore.
Proof.
  exact (uncached_building_allocates_each_time showNum newGeometry
           uncachedBuilding emptyStore "box" [Js.JNum 4; Js.JNum 8; Js.JNum 4]
           BoxGeometry eq_refl eq_refl).
Defined.

(** The road plane 60 by 6 and the road plane 6 by 60 of [addRoads]. *)
Lemma geometry_handle_by_kind_and_text_witness :
  exists r1 s1 r2 s2,
    Portfolio.getGeometry showNum newGeometry farPortfolio "plane"
      [Js.JNum 60; Js.JNum 6]
      (Client.run showNum showString newGeometry newMaterial farPortfolio []
         emptyStore) = (Js.Normal (Js.Own r1), s1)
    /\ Portfolio.getGeometry showNum newGeometry farPortfolio "plane"
         [Js.JNum 6; Js.JNum 60]
         (Client.run showNum showString newGeometry newMaterial farPortfolio []
            s1) = (Js.Normal (Js.Own r2), s2)
    /\ (r1 = r2 <->
        "plane" = "plane"
        /\ Js.joinElement showNum <$> [Js.JNum 60; Js.JNum 6]
           = Js.joinElement showNum <$> [Js.JNum 6; Js.JNum 60]).
Proof.
  apply (geometry_handle_by_kind_and_text showNum showString newGeometry
           newMaterial farPortfolio [] [] "plane" [Js.JNum 60; Js.JNum 6]
           "plane" [Js.JNum 6; Js.JNum 60] PlaneGeometry PlaneGeometry).
  - reflexivity.
  - reflexivity.
  - reflexivity.
  - repeat constructor.
  - repeat constructor.
Defined.

Lemma unknown_kind_throws_unless_inherited_witness :
  Portfolio.getGeometry showNum newGeometry farPortfolio "sphere" [Js.JNum 1]
    (Client.run showNum showString newGeometry newMaterial farPortfolio
       [Client.PortfolioGeometry "box" [Js.JNum 1; Js.JNum 2]] emptyStore)
  = (Js.Throw ("Unknown geometry type: " +:+ "sphere"),
     Client.run showNum showString newGeometry newMaterial farPortfolio
       [Client.PortfolioGeometry "box" [Js.JNum 1; Js.JNum 2]] emptyStore)
  /\ Portfolio.getGeometry showNum newGeometry farPortfolio ""
       [Js.JStr ""; Js.JStr "proto"; Js.JStr ""; Js.JStr ""]
       (Client.run showNum showString newGeometry newMaterial farPortfolio
          [Client.PortfolioGeometry "box" [Js.JNum 1; Js.JNum 2]] emptyStore)
     = (Js.Normal (Js.Inherited "__proto__"),
        Client.run showNum showString newGeometry newMaterial farPortfolio
          [Client.PortfolioGeometry "box" [Js.JNum 1; Js.JNum 2]] emptyStore).
Proof.
  split.
  - exact (proj1
             (unknown_kind_throws_unless_inherited showNum showString
                newGeometry newMaterial farPortfolio
                [Client.PortfolioGeometry "box" [Js.JNum 1; Js.JNum 2]]
                "sphere" eq_refl eq_refl eq_refl)
             eq_refl [Js.JNum 1]).
  - exact (proj1
             (unknown_kind_throws_unless_inherited showNum showString
                newGeometry newMaterial farPortfolio
                [Client.PortfolioGeometry "box" [Js.JNum 1; Js.JNum 2]]
                "" eq_refl eq_refl eq_refl)
             eq_refl [Js.JStr ""; Js.JStr "proto"; Js.JStr ""; Js.JStr ""]).
Defined.

End SharingFacts.

(** ** Releasing resources *)
Module ReleaseFacts.
Import Three.

(** A traversal whose callback collects nothing collects nothing. *)
Lemma traverseCollect_nil {A} (callback : Object3D -> list A) :
  (forall o, callback o = []) -> forall o, traverseCollect callback o = [].
Proof.
  intros Hcb. fix IH 1. intros [k p q u g m cs]. cbn [traverseCollect children].
  rewrite Hcb. cbn [app].
  induction cs as [|c rest IHrest]; [reflexivity|].
  rewrite IH. exact IHrest.
Qed.

(** X8. A Building that was given one of the shared caches releases no
    geometry and no material when it is disposed of: at most the texture
    of its logo. *)
Theorem building_dispose_keeps_shared_resources
    (b : Building.Building) (ms : gmap nat Material) :
  Building.geometryCache b = true \/ Building.materialCache b = true ->
  (forall r, r ∈ Building.dispose b ms -> exists t, r = DisposeTexture t)
  /\ (length (Building.dispose b ms) <= 1)%nat.
Proof.
  intros Hc.
  assert (Htrav : match Building.mesh b with
                  | Some root => traverseCollect (Building.disposeChild b ms) root
                  | None => []
                  end = []).
  { destruct (Building.mesh b) as [root|]; [|reflexivity].
    apply traverseCollect_nil. intros o. unfold Building.disposeChild.
    destruct Hc as [-> | ->]; cbn; rewrite ?andb_false_r; reflexivity. }
  unfold Building.dispose. rewrite Htrav, app_nil_r.
  destruct (Building.logo b) as [l|]; [|split; [by intros r ?%elem_of_nil|cbn; lia]].
  destruct (material l) as [r|]; [|split; [by intros r ?%elem_of_nil|cbn; lia]].
  unfold Building.disposeMap.
  destruct (ms !! r) as [m|]; [|split; [by intros ? ?%elem_of_nil|cbn; lia]].
  destruct (map m) as [t|]; [|split; [by intros ? ?%elem_of_nil|cbn; lia]].
  split; [|cbn; lia]. intros x ->%list_elem_of_singleton. by exists t.
Qed.

Lemma elem_of_values (cache : gmap string nat) key r :
  cache !! key = Some r -> r ∈ Portfolio.values cache.
Proof.
  intros H. unfold Portfolio.values. apply list_elem_of_fmap.
  exists (key, r). split; [reflexivity|]. by apply elem_of_map_to_list.
Qed.

(** X9. Disposing of a live Portfolio completes, and the releases include
    every geometry and every material of the caches, and the renderer. *)
Theorem dispose_releases_caches (this : Portfolio.Portfolio) (s : Store) bs :
  Portfolio.buildings this = Some bs ->
  Portfolio.geometryCache this = true ->
  Portfolio.materialCache this = true ->
  exists rs,
    Portfolio.dispose this s = (Js.Normal tt, Portfolio.disposed this, rs)
    /\ (forall key r, geometryCache s !! key = Some r -> DisposeGeometry r ∈ rs)
    /\ (forall key r, materialCache s !! key = Some r -> DisposeMaterial r ∈ rs)
    /\ (Portfolio.renderer this = true -> DisposeRenderer ∈ rs).
Proof.
  intros Hb Hg Hm. unfold Portfolio.dispose. rewrite Hb, Hg, Hm. cbn [negb].
  eexists. split; [reflexivity|]. split; [|split].
  - intros key r Hl. rewrite !elem_of_app. do 3 right. left.
    apply list_elem_of_fmap. exists r. split; [reflexivity|].
    by eapply elem_of_values.
  - intros key r Hl. rewrite !elem_of_app. do 4 right. left.
    apply elem_of_flat_map. exists r. split; [by eapply elem_of_values|].
    rewrite elem_of_app. right. apply list_elem_of_here.
  - intros ->. rewrite !elem_of_app. do 5 right. apply list_elem_of_here.
Qed.

Lemma two_occurrences {A} (x : A) (l1 m1 m2 m3 l2 rest : list A) :
  x ∈ l1 -> x ∈ l2 ->
  exists a c d, l1 ++ m1 ++ m2 ++ m3 ++ l2 ++ rest = a ++ x :: c ++ x :: d.
Proof.
  intros (a1 & a2 & ->)%list_elem_of_split (b1 & b2 & ->)%list_elem_of_split.
  exists a1, (a2 ++ m1 ++ m2 ++ m3 ++ b1), (b2 ++ rest).
  rewrite <- ?app_assoc. cbn [app]. rewrite <- ?app_assoc. cbn [app].
  rewrite <- ?app_assoc. reflexivity.
Qed.

(** X10. The texture of a logo whose material is in the material cache is
    released twice by one call of the Portfolio's [dispose]: once by the
    Building and once more with the cached material. *)
Theorem dispose_releases_logo_texture_twice
    (this : Portfolio.Portfolio) (s : Store) bs b l r m t key :
  Portfolio.buildings this = Some bs -> b ∈ bs ->
  Portfolio.geometryCache this = true ->
  Portfolio.materialCache this = true ->
  Building.logo b = Some l -> material l = Some r ->
  materials s !! r = Some m -> map m = Some t ->
  materialCache s !! key = Some r ->
  exists rs l1 l2 l3,
    Portfolio.dispose this s = (Js.Normal tt, Portfolio.disposed this, rs)
    /\ rs = l1 ++ DisposeTexture t :: l2 ++ DisposeTexture t :: l3.
Proof.
  intros Hb Hin Hg Hm Hlogo Hmat Hr Hmap Hkey.
  unfold Portfolio.dispose. rewrite Hb, Hg, Hm. cbn [negb].
  assert (H1 : DisposeTexture t
               ∈ flat_map (λ b0, Building.dispose b0 (materials s)) bs).
  { apply elem_of_flat_map. exists b. split; [exact Hin|].
    unfold Building.dispose. rewrite Hlogo, Hmat. unfold Building.disposeMap.
    rewrite Hr, Hmap. apply elem_of_app. left. apply list_elem_of_here. }
  assert (H5 : DisposeTexture t
               ∈ flat_map (λ r0, Building.disposeMap (materials s) r0
                                   ++ [DisposeMaterial r0])
                   (Portfolio.values (materialCache s))).
  { apply elem_of_flat_map. exists r. split; [by eapply elem_of_values|].
    unfold Building.disposeMap. rewrite Hr, Hmap. apply list_elem_of_here. }
  match goal with
  | |- context [(_, _, ?l1 ++ ?m1 ++ ?m2 ++ ?m3 ++ ?l2 ++ ?rest)] =>
      destruct (two_occurrences (DisposeTexture t) l1 m1 m2 m3 l2 rest H1 H5)
        as (a & c & d & Heq)
  end.
  eexists. exists a, c, d. split; [reflexivity|exact Heq].
Qed.

(** X11. The character can be disposed of twice: the second call releases
    nothing and changes nothing. *)
Theorem character_dispose_twice (c : Character.Character) (ms ms' : gmap nat Material) :
  Character.dispose (Character.dispose c ms).1 ms'
  = ((Character.dispose c ms).1, []).
Proof. reflexivity. Qed.

Import Scenes.

Lemma building_dispose_keeps_shared_resources_witness :
  (forall r, r ∈ Building.dispose logoBuilding (materials logoStore) ->
     exists t, r = DisposeTexture t)
  /\ (length (Building.dispose logoBuilding (materials logoStore)) <= 1)%nat.
Proof.
  apply (building_dispose_keeps_shared_resources logoBuilding (materials logoStore)).
  left. reflexivity.
Defined.

Lemma dispose_releases_caches_witness :
  exists rs,
    Portfolio.dispose cityPortfolio cityStore
    = (Js.Normal tt, Portfolio.disposed cityPortfolio, rs)
    /\ (forall key r, geometryCache cityStore !! key = Some r -> DisposeGeometry r ∈ rs)
    /\ (forall key r, materialCache cityStore !! key = Some r -> DisposeMaterial r ∈ rs)
    /\ (Portfolio.renderer cityPortfolio = true -> DisposeRenderer ∈ rs).
Proof.
  apply (dispose_releases_caches cityPortfolio cityStore [cityBuilding]);
    reflexivity.
Defined.

Lemma dispose_releases_logo_texture_twice_witness :
  exists rs l1 l2 l3,
    Portfolio.dispose logoPortfolio logoStore
    = (Js.Normal tt, Portfolio.disposed logoPortfolio, rs)
    /\ rs = l1 ++ DisposeTexture 9 :: l2 ++ DisposeTexture 9 :: l3.
Proof.
  apply (dispose_releases_logo_texture_twice logoPortfolio logoStore
           [logoBuilding] logoBuilding logoMesh 2%nat
           (mkMaterial MeshBasicMaterial 0xffffff 0 1 (Some 9%nat)) 9%nat
           "basic_logo").
  - reflexivity.
  - apply list_elem_of_here.
  - reflexivity.
  - reflexivity.
  - reflexivity.
  - reflexivity.
  - vm_compute. reflexivity.
  - reflexivity.
  - vm_compute. reflexivity.
Defined.

End ReleaseFacts.

(** ** The character *)
Module ControllerFacts.
Import Three.

Lemma target_setTarget o this :
  is_Some (Character.target this) ->
  Character.target (Character.setTarget o this) = Some o.
Proof.
  unfold Character.target, Character.setTarget.
  destruct (Character.model this); cbn; [reflexivity|].
  intros _. reflexivity.
Qed.

Lemma shadow_setTarget o this :
  Character.shadow (Character.setTarget o this) = Character.shadow this.
Proof. unfold Character.setTarget. destruct (Character.model this); reflexivity. Qed.

Lemma target_moveShadow x z this :
  Character.target (Character.moveShadow x z this) = Character.target this.
Proof. unfold Character.moveShadow. destruct (Character.shadow this); reflexivity. Qed.

Lemma shadow_moveShadow x z this :
  Character.shadow (Character.moveShadow x z this)
  = (λ sh, Character.setPosition (mkVector3 x (vy (position sh)) z) sh)
    <$> Character.shadow this.
Proof.
  unfold Character.moveShadow.
  destruct (Character.shadow this) eqn:E; cbn; rewrite ?E; reflexivity.
Qed.

(** Placing the model and then the shadow at the same [x] and [z]. *)
Lemma placed_shadowUnder t p this :
  is_Some (Character.target this) ->
  Character.shadowUnder
    (Character.moveShadow (vx p) (vz p)
       (Character.setTarget (Character.setPosition p t) this)).
Proof.
  intros Ht. unfold Character.shadowUnder.
  rewrite target_moveShadow, target_setTarget by exact Ht.
  rewrite shadow_moveShadow, shadow_setTarget.
  destruct (Character.shadow this); cbn; [by split|exact I].
Qed.

Lemma placed_height t p this :
  is_Some (Character.target this) ->
  Character.height
    (Character.moveShadow (vx p) (vz p)
       (Character.setTarget (Character.setPosition p t) this))
  = Some (vy p).
Proof.
  intros Ht. unfold Character.height.
  rewrite target_moveShadow, target_setTarget by exact Ht. reflexivity.
Qed.

Lemma changeAnimation_height a this :
  Character.height (Character.changeAnimation a this) = Character.height this.
Proof. unfold Character.height. by rewrite PlayerFacts.changeAnimation_target. Qed.

Lemma changeAnimation_shadowUnder a this :
  Character.shadowUnder this ->
  Character.shadowUnder (Character.changeAnimation a this).
Proof.
  unfold Character.shadowUnder.
  by rewrite PlayerFacts.changeAnimation_target, PlayerFacts.changeAnimation_shadow.
Qed.

Section Tick.
Variable normalize : Vector3 -> Vector3.
Variable getWorldDirection : Object3D -> Vector3.
Variable applyLookAtMatrix : Vector3 -> Vector3 -> Vector3.
Variable lookAtQuaternion : bool -> Vector3 -> Vector3 -> Quaternion.
Variable applyQuaternion : Vector3 -> Quaternion -> Vector3.
Variable setFromObject : Object3D -> Box3.

Let collide := Character.collide normalize setFromObject.
Let handleCollisions := Character.handleCollisions normalize setFromObject.
Let move :=
  Character.move normalize getWorldDirection applyLookAtMatrix lookAtQuaternion.
Let update :=
  Character.update normalize getWorldDirection applyLookAtMatrix
    lookAtQuaternion applyQuaternion setFromObject.

(** What one building does to the character: nothing, or a push that
    keeps the height and takes the shadow along. *)
Lemma collide_keeps this b :
  Character.height (collide this b) = Character.height this
  /\ (is_Some (Character.target this) -> is_Some (Character.target (collide this b)))
  /\ (Character.shadowUnder this -> Character.shadowUnder (collide this b)).
Proof.
  unfold collide, Character.collide.
  destruct (Character.target this) as [t|] eqn:Ht; [|by rewrite Ht].
  destruct (Building.mesh b) as [bmesh|]; [|by rewrite Ht].
  destruct (intersectsBox _ _); [|by rewrite Ht].
  assert (Hsome : is_Some (Character.target this)) by (rewrite Ht; eauto).
  cbv zeta.
  match goal with
  | |- context [Character.setPosition ?p t] =>
      pose proof (placed_height t p this Hsome) as Hh;
      pose proof (placed_shadowUnder t p this Hsome) as Hs
  end.
  split; [|split].
  - etrans; [exact Hh|]. unfold Character.height. rewrite Ht. reflexivity.
  - intros _. rewrite target_moveShadow, target_setTarget by exact Hsome. eauto.
  - intros _. exact Hs.
Qed.

Lemma handleCollisions_keeps this buildings :
  Character.height (handleCollisions this buildings) = Character.height this
  /\ (Character.shadowUnder this ->
      Character.shadowUnder (handleCollisions this buildings)).
Proof.
  unfold handleCollisions, Character.handleCollisions.
  destruct (Character.target this) as [t|] eqn:Ht; [|by split].
  clear t Ht. revert this.
  induction buildings as [|b bs IH]; intros this; cbn [fold_left]; [by split|].
  destruct (collide_keeps this b) as (Hh & _ & Hs). unfold collide in Hh, Hs.
  destruct (IH (Character.collide normalize setFromObject this b)) as [Hh' Hs'].
  split; [by rewrite Hh', Hh|]. intros H. apply Hs', Hs, H.
Qed.

Lemma move_keeps this camera velocity direction t :
  Character.target this = Some t ->
  Character.height (move this camera velocity direction t) = Character.height this
  /\ Character.shadowUnder (move this camera velocity direction t).
Proof.
  intros Ht.
  assert (Hsome : is_Some (Character.target this)) by (rewrite Ht; eauto).
  unfold move, Character.move. cbv zeta.
  match goal with
  | |- context [Character.setPosition ?p ?t'] =>
      pose proof (placed_height t' p this Hsome) as Hh;
      pose proof (placed_shadowUnder t' p this Hsome) as Hs
  end.
  assert (Hy : Character.height this = Some (vy (position t))).
  { unfold Character.height. by rewrite Ht. }
  destruct (Character.mixer _).
  - split; [rewrite changeAnimation_height, Hy; exact Hh|].
    apply changeAnimation_shadowUnder, Hs.
  - split; [rewrite Hy; exact Hh|exact Hs].
Qed.

(** X12. A tick of the controller never changes the height of the character:
    walking, running and being pushed out of a building change [x] and
    [z] only. *)
Theorem update_keeps_height
    (this : Character.Character) (camera : Object3D) (delta : Q)
    (buildings : list Building.Building) :
  Character.height (update this camera delta buildings).1 = Character.height this.
Proof.
  unfold update, Character.update.
  destruct (Character.target this) as [t|] eqn:Ht; [|reflexivity]. cbn [fst].
  fold handleCollisions.
  match goal with
  | |- Character.height (handleCollisions ?c _) = _ =>
      rewrite (proj1 (handleCollisions_keeps c buildings))
  end.
  destruct (lengthPositive _).
  - fold move. apply (move_keeps this camera _ _ t Ht).
  - destruct (_ && _); [apply changeAnimation_height|reflexivity].
Qed.

(** X13. A shadow that lies under the character before a tick lies under it
    afterwards; after a tick with a direction it does so in any case. *)
Theorem update_keeps_shadow_under
    (this : Character.Character) (camera : Object3D) (delta : Q)
    (buildings : list Building.Building) :
  Character.shadowUnder this
  \/ lengthPositive (Character.inputDirection this) = true ->
  Character.shadowUnder (update this camera delta buildings).1.
Proof.
  intros H. unfold update, Character.update.
  destruct (Character.target this) as [t|] eqn:Ht; cbn [fst].
  - fold handleCollisions.
    match goal with
    | |- Character.shadowUnder (handleCollisions ?c _) =>
        apply (proj2 (handleCollisions_keeps c buildings))
    end.
    destruct (lengthPositive _) eqn:Hlen.
    + fold move. apply (move_keeps this camera _ _ t Ht).
    + destruct H as [H|H]; [|discriminate].
      destruct (_ && _); [by apply changeAnimation_shadowUnder|exact H].
  - unfold Character.shadowUnder. rewrite Ht. exact I.
Qed.

(** X14. Opposite keys cancel: when forward and backward are both held or
    both released, and likewise left and right, and no box intersects,
    the tick leaves the character and its shadow where they are. *)
Theorem update_opposite_keys_cancel
    (this : Character.Character) (camera : Object3D) (delta : Q)
    (buildings : list Building.Building) :
  Character.moveForward this = Character.moveBackward this ->
  Character.moveLeft this = Character.moveRight this ->
  Forall (Character.clearOf setFromObject this) buildings ->
  Character.target (update this camera delta buildings).1 = Character.target this
  /\ Character.shadow (update this camera delta buildings).1 = Character.shadow this.
Proof.
  intros Hfb Hlr Hclear.
  assert (Hdir : lengthPositive (Character.inputDirection this) = false).
  { unfold Character.inputDirection. rewrite Hfb, Hlr.
    destruct (Character.moveBackward this), (Character.moveRight this);
      reflexivity. }
  unfold update, Character.update.
  destruct (Character.target this) as [t|] eqn:Ht; cbn [fst]; [|by rewrite Ht].
  rewrite Hdir.
  set (this' := if Character.mixer this && Character.idle (Character.animations this)
                then Character.changeAnimation Character.Idle this else this).
  assert (Ht' : Character.target this' = Character.target this).
  { unfold this'. destruct (_ && _);
      [apply PlayerFacts.changeAnimation_target|reflexivity]. }
  assert (Hs' : Character.shadow this' = Character.shadow this).
  { unfold this'. destruct (_ && _);
      [apply PlayerFacts.changeAnimation_shadow|reflexivity]. }
  rewrite PlayerFacts.handleCollisions_clear.
  - rewrite Ht', Hs', Ht. by split.
  - eapply Forall_impl; [exact Hclear|].
    intros b Hb t' bmesh Htt Hm. apply Hb; [|exact Hm]. by rewrite <- Ht'.
Qed.

End Tick.

Import Scenes.

(** Walking forward for one frame beside the main building. *)
Lemma update_keeps_shadow_under_witness :
  Character.shadowUnder
    (Character.update (λ v, v) (λ _, mkVector3 0 0 (-1)) (λ v _, v)
       (λ _ _ _, identity) applyIdentity unitBox
       (holding true false (mkVector3 0 1 30)) (group (mkVector3 0 10 20) [])
       (1 # 60) [mainBuilding]).1.
Proof.
  apply (update_keeps_shadow_under (λ v, v) (λ _, mkVector3 0 0 (-1)) (λ v _, v)
           (λ _ _ _, identity) applyIdentity unitBox
           (holding true false (mkVector3 0 1 30))).
  right. reflexivity.
Defined.

(** Forward and backward held together. *)
Lemma update_opposite_keys_cancel_witness :
  Character.target
    (Character.update (λ v, v) (λ _, mkVector3 0 0 (-1)) (λ v _, v)
       (λ _ _ _, identity) applyIdentity unitBox
       (holding true true (mkVector3 0 1 30)) (group (mkVector3 0 10 20) [])
       (1 # 60) [mainBuilding]).1
  = Character.target (holding true true (mkVector3 0 1 30))
  /\ Character.shadow
       (Character.update (λ v, v) (λ _, mkVector3 0 0 (-1)) (λ v _, v)
          (λ _ _ _, identity) applyIdentity unitBox
          (holding true true (mkVector3 0 1 30)) (group (mkVector3 0 10 20) [])
          (1 # 60) [mainBuilding]).1
     = Character.shadow (holding true true (mkVector3 0 1 30)).
Proof.
  apply (update_opposite_keys_cancel (λ v, v) (λ _, mkVector3 0 0 (-1)) (λ v _, v)
           (λ _ _ _, identity) applyIdentity unitBox
           (holding true true (mkVector3 0 1 30))).
  - reflexivity.
  - reflexivity.
  - constructor; [|constructor].
    intros t bmesh Ht Hm. injection Ht as <-. injection Hm as <-. reflexivity.
Defined.

End ControllerFacts.

(** ** The windows of a building *)
Module InstanceFacts.
Import Building.

Lemma kept_one rng k :
  kept rng k 1 = if Qltb 0.8 (rng k) then 0%nat else 1%nat.
Proof.
  unfold kept. cbn [seq]. rewrite filter_cons.
  destruct (Qltb 0.8 (rng k)); case_decide; try done.
Qed.

Lemma kept_add rng k a b :
  kept rng k (a + b) = (kept rng k a + kept rng (k + a) b)%nat.
Proof. unfold kept. by rewrite seq_app, filter_app, length_app. Qed.

Section Loops.
Variable rng : Rng.

Lemma cell_exact f1 f2 i j st :
  cursor (cell rng f1 f2 i j st) = S (cursor st)
  /\ instanceIndex (cell rng f1 f2 i j st)
     = (instanceIndex st + 2 * kept rng (cursor st) 1)%nat
  /\ (dense st -> dense (cell rng f1 f2 i j st)).
Proof.
  rewrite kept_one. unfold cell, dense.
  destruct (Qltb 0.8 (rng (cursor st))); cbn.
  - split; [reflexivity|]. split; [lia|]. auto.
  - split; [reflexivity|]. split; [lia|]. intros [Hlen Hidx].
    split; [rewrite length_app; cbn; lia|].
    intros n c Hn. apply lookup_app_Some in Hn as [Hn|[Hge Hn]]; [by eauto|].
    rewrite Hlen in Hge, Hn.
    destruct (n - instanceIndex st)%nat as [|[|m]] eqn:E; cbn in Hn;
      [injection Hn as <-; cbn; lia|injection Hn as <-; cbn; lia|discriminate].
Qed.

Lemma forRows_exact f1 f2 i todo from st :
  cursor (forRows rng f1 f2 i todo from st) = (cursor st + todo)%nat
  /\ instanceIndex (forRows rng f1 f2 i todo from st)
     = (instanceIndex st + 2 * kept rng (cursor st) todo)%nat
  /\ (dense st -> dense (forRows rng f1 f2 i todo from st)).
Proof.
  revert from st. induction todo as [|todo IH]; intros from st; cbn [forRows].
  - unfold kept. cbn. split; [lia|]. split; [lia|auto].
  - destruct (cell_exact f1 f2 i from st) as (Hc & Hi & Hd).
    destruct (IH (S from) (cell rng f1 f2 i from st)) as (Hc' & Hi' & Hd').
    rewrite Hc', Hi', Hc, Hi.
    change (S todo) with (1 + todo)%nat. rewrite kept_add.
    replace (cursor st + 1)%nat with (S (cursor st)) by lia.
    split; [lia|]. split; [lia|auto].
Qed.

Lemma forColumns_exact f1 f2 rows todo from st :
  cursor (forColumns rng f1 f2 rows todo from st) = (cursor st + rows * todo)%nat
  /\ instanceIndex (forColumns rng f1 f2 rows todo from st)
     = (instanceIndex st + 2 * kept rng (cursor st) (rows * todo))%nat
  /\ (dense st -> dense (forColumns rng f1 f2 rows todo from st)).
Proof.
  revert from st. induction todo as [|todo IH]; intros from st; cbn [forColumns].
  - rewrite Nat.mul_0_r. unfold kept. cbn. split; [lia|]. split; [lia|auto].
  - destruct (forRows_exact f1 f2 from rows 0%nat st) as (Hc & Hi & Hd).
    destruct (IH (S from) (forRows rng f1 f2 from rows 0%nat st)) as (Hc' & Hi' & Hd').
    rewrite Hc', Hi', Hc, Hi.
    replace (rows * S todo)%nat with (rows + rows * todo)%nat by lia.
    rewrite kept_add. split; [lia|]. split; [lia|auto].
Qed.

(** X15. [addWindows] draws one random number for every window cell,
    whatever the numbers are, and places two instances for every number
    that is at most 0.8: the instance count is twice the number of such
    draws. *)
Theorem addWindows_draws_one_per_cell (this : Building) (start : nat) :
  cursor (addWindows rng this start) = (start + cells this)%nat
  /\ instanceIndex (addWindows rng this start)
     = (2 * kept rng start (cells this))%nat.
Proof.
  unfold addWindows, cells.
  destruct (forColumns_exact Front Back (Z.to_nat (windowsVertical this))
              (Z.to_nat (windowsHorizontal this)) 0%nat
              (mkWindowState start 0%nat [])) as (Hc & Hi & _).
  cbn [cursor instanceIndex] in Hc, Hi.
  destruct (Qltb 1.5 (width this)).
  - match goal with
    | |- context [forColumns rng Right Left ?rows ?todo 0%nat ?st] =>
        destruct (forColumns_exact Right Left rows todo 0%nat st) as (Hc' & Hi' & _)
    end.
    rewrite Hc', Hi', Hc, Hi, kept_add. split; lia.
  - rewrite Hc, Hi, Nat.add_0_r. split; lia.
Qed.

(** X16. The instances are written at the indices 0, 1, 2, ... in the order
    of the calls, without a gap, and the count that is stored at the end
    is the number of calls. *)
Theorem addWindows_indices_dense (this : Building) (start : nat) :
  length (calls (addWindows rng this start))
  = instanceIndex (addWindows rng this start)
  /\ forall i c, calls (addWindows rng this start) !! i = Some c -> index c = i.
Proof.
  assert (H0 : dense (mkWindowState start 0%nat [])).
  { split; [reflexivity|]. intros i c H. discriminate. }
  unfold addWindows.
  destruct (forColumns_exact Front Back (Z.to_nat (windowsVertical this))
              (Z.to_nat (windowsHorizontal this)) 0%nat
              (mkWindowState start 0%nat [])) as (_ & _ & Hd).
  destruct (Qltb 1.5 (width this)).
  - match goal with
    | |- context [forColumns rng Right Left ?rows ?todo 0%nat ?st] =>
        destruct (forColumns_exact Right Left rows todo 0%nat st) as (_ & _ & Hd')
    end.
    apply Hd', Hd, H0.
  - apply Hd, H0.
Qed.

(** X17. No index reaches the capacity of the instanced mesh when the
    building is at most 1.5 wide, so that it has no side windows, or
    when its sides have no more columns than its front. *)
Theorem addWindows_capacity_suffices (this : Building) (start : nat) :
  width this <= 1.5
  \/ (sideWindowsHorizontal this <= windowsHorizontal this)%Z ->
  forall c, c ∈ calls (addWindows rng this start) ->
  (Z.of_nat (index c) < totalWindows this)%Z.
Proof.
  intros [Hnarrow|Hside]; [|by apply WindowFacts.addWindows_within_capacity].
  intros c Hc.
  apply Qltb_ge in Hnarrow. unfold addWindows in Hc. rewrite Hnarrow in Hc.
  assert (H0 : indexed (mkWindowState start 0%nat [])) by constructor.
  destruct (WindowFacts.forColumns_indexed rng Front Back
              (Z.to_nat (windowsVertical this))
              (Z.to_nat (windowsHorizontal this)) 0%nat _ H0) as [H1 Hb1].
  cbn [instanceIndex] in Hb1. unfold indexed in H1.
  rewrite Forall_forall in H1. specialize (H1 c Hc). unfold totalWindows.
  destruct (Z.le_gt_cases (windowsVertical this) 0) as [Hv|Hv];
    [pose proof (Z2Nat.nonpos _ Hv); nia|].
  destruct (Z.le_gt_cases (windowsHorizontal this) 0) as [Hh|Hh];
    [pose proof (Z2Nat.nonpos _ Hh); nia|].
  nia.
Qed.

End Loops.

Import Scenes.

(** The showcase building, 8 wide and 8 deep. *)
Lemma addWindows_capacity_suffices_witness :
  (sideWindowsHorizontal showcaseBuilding <= windowsHorizontal showcaseBuilding)%Z
  /\ Forall (λ c, (Z.of_nat (index c) < totalWindows showcaseBuilding)%Z)
       (calls (addWindows allHalf showcaseBuilding 0)).
Proof.
  split; [vm_compute; discriminate|]. apply Forall_forall.
  apply (addWindows_capacity_suffices allHalf showcaseBuilding 0).
  right. vm_compute. discriminate.
Defined.

End InstanceFacts.

(** ** Placement *)
Module LayoutFacts.
Import Portfolio Scenes.

(** X18. The test of the grid loop drops a candidate exactly when it lies in
    one of the eight open rectangles: a point on the border of a
    rectangle is kept. *)
Theorem excluded_iff_rectangles (posX posZ : Q) :
  excluded posX posZ = true
  <-> exists r, r ∈ exclusionRectangles /\ inside r (mkPosition posX posZ).
Proof.
  split.
  - apply PlacementFacts.excluded_inside.
  - intros (r & Hr & Hin). exact (PlacementFacts.inside_excluded _ _ r Hr Hin).
Qed.

Lemma indices_imap {A} (l : list A) :
  (imap (λ i p, (i, p)) l).*1 = seq 0 (length l).
Proof.
  rewrite fmap_imap.
  rewrite (imap_ext _ (λ (i : nat) (_ : A), id i)) by done.
  rewrite (imap_seq_0 l id). apply list_fmap_id.
Qed.

Section Loops.
Variable rng : Rng.

(** X19. With random numbers from the unit interval the selection is drawn
    from the candidates without repetition: together with the
    candidates left over it is a rearrangement of them; it has
    [buildingCount] positions, or all the candidates when there are
    fewer; and one random number is drawn for each selected position. *)
Theorem residential_selection (buildingCount k : nat) :
  rng_in_range rng ->
  exists selected rest,
    addResidentialDistrict rng buildingCount k
    = Drawn selected ((grid rng k).2 + length selected)
    /\ selected ++ rest ≡ₚ (grid rng k).1
    /\ length selected = (buildingCount `min` length (grid rng k).1)%nat.
Proof.
  intros Hrng. destruct (grid rng k) as [positions k1] eqn:Hg. cbn [fst snd].
  destruct (PlacementFacts.draw_spec rng Hrng (length positions) buildingCount
              [] positions k1) as (taken & rest & Hd & Hperm & Hrest & Hmax); [lia|].
  cbn [app] in Hd, Hrest, Hmax.
  exists taken, rest. unfold addResidentialDistrict. rewrite Hg.
  split; [exact Hd|]. split; [exact Hperm|].
  assert (Hlen : (length taken + length rest)%nat = length positions).
  { rewrite <- length_app. by rewrite Hperm. }
  destruct (decide (length taken < buildingCount)%nat) as [Hlt|Hge].
  - rewrite (Hrest Hlt) in Hlen. cbn in Hlen. lia.
  - destruct Hmax as [->|Hmax]; cbn in *; lia.
Qed.

Lemma randomTrees_spec fuel todo from k trees k' :
  randomTrees rng fuel todo from k = Some (trees, k') ->
  trees.*1 = seq from todo
  /\ forall i p, (i, p) ∈ trees ->
     ~ (Qabs (x p) < 10 /\ Qabs (z p) < 10)
     /\ 5 <= Qabs (x p) /\ 5 <= Qabs (z p).
Proof.
  revert from k trees k'.
  induction todo as [|todo IH]; intros from k trees k'; cbn [randomTrees].
  - intros [= <- _]. split; [reflexivity|]. by intros i p ?%elem_of_nil.
  - destruct (sampleTree rng fuel k) as [[p k1]|] eqn:Hs; [|discriminate].
    destruct (randomTrees rng fuel todo (S from) k1) as [[rest k2]|] eqn:Hr;
      [|discriminate].
    intros [= <- _]. destruct (IH _ _ _ _ Hr) as [Hidx Hout].
    split; [cbn; by rewrite Hidx|].
    intros i q [[= -> ->]|Hin]%elem_of_cons; [|by eauto].
    clear -Hs. revert k Hs. induction fuel as [|fuel IHf]; intros k; [discriminate|].
    rewrite PlacementFacts.sampleTree_step.
    destruct (treeRejected rng k) eqn:Hrej; [apply IHf|].
    intros [= <- _]. by apply PlacementFacts.accepted_outside.
Qed.

(** X20. When [addTrees(count)] returns, it has placed exactly [count]
    trees, at the instance indices 0 to [count - 1] in this order; the
    first twelve stand at the fixed positions, and every further one is
    outside the central square and at least 5 away from both axes. *)
Theorem addTrees_places_count (fuel count k : nat) trees k' :
  addTrees rng fuel count k = Some (trees, k') ->
  trees.*1 = seq 0 count
  /\ (forall i p, (i, p) ∈ trees -> (i < length treePositions)%nat ->
      treePositions !! i = Some p)
  /\ (forall i p, (i, p) ∈ trees -> (length treePositions <= i)%nat ->
      ~ (Qabs (x p) < 10 /\ Qabs (z p) < 10)
      /\ 5 <= Qabs (x p) /\ 5 <= Qabs (z p)).
Proof.
  unfold addTrees.
  destruct (randomTrees rng fuel (count - length treePositions)
              (length treePositions) k) as [[random k1]|] eqn:Hr; [|discriminate].
  intros [= <- _]. destruct (randomTrees_spec _ _ _ _ _ _ Hr) as [Hidx Hout].
  assert (Hfixed : forall i p,
            (i, p) ∈ imap (λ i p, (i, p)) (take count treePositions) ->
            (i < length treePositions)%nat /\ treePositions !! i = Some p).
  { intros i p (j & q & [= -> ->] & Hj)%elem_of_lookup_imap.
    apply lookup_take_Some in Hj as [Hj _].
    split; [by eapply lookup_lt_Some|exact Hj]. }
  assert (Hrandom : forall i p, (i, p) ∈ random -> (length treePositions <= i)%nat).
  { intros i p Hin.
    assert (Hi : i ∈ random.*1) by (apply list_elem_of_fmap; by exists (i, p)).
    rewrite Hidx in Hi. apply elem_of_seq in Hi. lia. }
  split; [|split].
  - rewrite fmap_app, Hidx, indices_imap, length_take.
    destruct (decide (count <= length treePositions)%nat) as [Hle|Hgt].
    + replace (count - length treePositions)%nat with 0%nat by lia.
      rewrite Nat.min_l by lia. cbn [seq]. by rewrite app_nil_r.
    + rewrite Nat.min_r by lia.
      transitivity (seq 0 (length treePositions
                           + (count - length treePositions))).
      * by rewrite seq_app.
      * f_equal. lia.
  - intros i p [Hin|Hin]%elem_of_app Hlt; [by apply Hfixed|].
    apply Hrandom in Hin. lia.
  - intros i p [Hin|Hin]%elem_of_app Hge; [apply Hfixed in Hin; lia|].
    by eapply Hout.
Qed.

Lemma samplePositionEarlier_step fuel k :
  samplePositionEarlier rng (S fuel) k
  = if rejectedEarlier rng k then samplePositionEarlier rng fuel (S (S k))
    else Some (candidateEarlier rng k, S (S k)).
Proof. reflexivity. Qed.

(** As long as every candidate is rejected the earlier loop goes on. *)
Lemma samplePositionEarlier_all_rejected fuel k :
  (forall m, (m < fuel)%nat -> rejectedEarlier rng (k + 2 * m) = true) ->
  samplePositionEarlier rng fuel k = None.
Proof.
  revert k. induction fuel as [|fuel IH]; intros k Hrej; [reflexivity|].
  rewrite samplePositionEarlier_step.
  pose proof (Hrej 0%nat ltac:(lia)) as H0.
  rewrite Nat.mul_0_r, Nat.add_0_r in H0. rewrite H0.
  apply IH. intros m Hm.
  replace (S (S k) + 2 * m)%nat with (k + 2 * S m)%nat by lia.
  apply Hrej. lia.
Qed.

(** X21. The rejection loop of the earlier Portfolio.js has no bound on
    its passes. When the candidate of pass [n + 1] is the first that
    the test lets through, the loop runs exactly [n + 1] passes, however
    large [n] is, and returns that candidate, which is outside all
    eight rectangles, having drawn two random numbers for each pass;
    when every candidate is rejected the loop is still running after
    any number of passes. Whatever the loop returns is such a first
    candidate. *)
Theorem samplePositionEarlier_first_outside (k : nat) :
  (forall n,
     (forall m, (m < n)%nat -> rejectedEarlier rng (k + 2 * m) = true) ->
     rejectedEarlier rng (k + 2 * n) = false ->
     (forall r, r ∈ exclusionRectangles ->
        ~ inside r (candidateEarlier rng (k + 2 * n)))
     /\ forall fuel,
         ((n < fuel)%nat ->
          samplePositionEarlier rng fuel k
          = Some (candidateEarlier rng (k + 2 * n), S (S (k + 2 * n))))
         /\ ((fuel <= n)%nat -> samplePositionEarlier rng fuel k = None))
  /\ ((forall n, rejectedEarlier rng (k + 2 * n) = true) ->
      forall fuel, samplePositionEarlier rng fuel k = None)
  /\ (forall fuel p k',
        samplePositionEarlier rng fuel k = Some (p, k') ->
        exists n, (n < fuel)%nat
          /\ (forall m, (m < n)%nat -> rejectedEarlier rng (k + 2 * m) = true)
          /\ rejectedEarlier rng (k + 2 * n) = false
          /\ p = candidateEarlier rng (k + 2 * n)
          /\ k' = S (S (k + 2 * n))).
Proof.
  split; [|split].
  - intros n Hrej Hacc. split.
    { intros r Hr. unfold rejectedEarlier in Hacc.
      exact (PlacementFacts.excluded_false_outside _ _ Hacc r Hr). }
    intros fuel. split.
    + revert k fuel Hrej Hacc.
      induction n as [|n IH]; intros k fuel Hrej Hacc Hfuel;
        (destruct fuel as [|fuel]; [lia|]); rewrite samplePositionEarlier_step.
      * rewrite Nat.mul_0_r, Nat.add_0_r in *. rewrite Hacc. reflexivity.
      * pose proof (Hrej 0%nat ltac:(lia)) as H0.
        rewrite Nat.mul_0_r, Nat.add_0_r in H0. rewrite H0.
        replace (k + 2 * S n)%nat with (S (S k) + 2 * n)%nat in * by lia.
        apply IH; [|exact Hacc|lia].
        intros m Hm.
        replace (S (S k) + 2 * m)%nat with (k + 2 * S m)%nat by lia.
        apply Hrej. lia.
    + intros Hfuel. apply samplePositionEarlier_all_rejected.
      intros m Hm. apply Hrej. lia.
  - intros Hrej fuel. apply samplePositionEarlier_all_rejected.
    intros m _. apply Hrej.
  - intros fuel. revert k. induction fuel as [|fuel IH]; intros k p k';
      [discriminate|].
    rewrite samplePositionEarlier_step.
    destruct (rejectedEarlier rng k) eqn:Hex.
    + intros Hs. destruct (IH _ _ _ Hs) as (n & Hn & Hbefore & Hacc & Hp & Hk).
      exists (S n). split; [lia|].
      replace (k + 2 * S n)%nat with (S (S k) + 2 * n)%nat by lia.
      split; [|by repeat split].
      intros [|m] Hm.
      * by rewrite Nat.mul_0_r, Nat.add_0_r.
      * replace (k + 2 * S m)%nat with (S (S k) + 2 * m)%nat by lia.
        apply Hbefore. lia.
    + intros [= <- <-]. exists 0%nat. rewrite Nat.mul_0_r, Nat.add_0_r.
      split; [lia|]. split; [intros m Hm; lia|]. by repeat split.
Qed.

End Loops.

Lemma pushLights_length count i lights :
  (length lights <= count)%nat ->
  (length lights <= length (pushLights count i lights) <= count)%nat
  /\ (~ i == 0 ->
      (count `min` (length lights + 4) <= length (pushLights count i lights))%nat).
Proof.
  intros Hle. unfold pushLights.
  destruct (Qeq_bool i 0) eqn:Hz; cbn [negb andb].
  - split; [lia|]. intros Hne. apply Qeq_bool_iff in Hz. contradiction.
  - destruct (Nat.ltb_spec (length lights) count) as [H0|H0]; [|split; lia].
    cbv zeta.
    repeat match goal with
           | |- context [(length ?l <? count)%nat] =>
               destruct (Nat.ltb_spec (length l) count)
           end;
      rewrite ?length_app in *; cbn [length] in *; split; lia.
Qed.

Lemma pushLights_besideRoad count i lights :
  -20 <= i <= 20 -> Forall besideRoad lights ->
  Forall besideRoad (pushLights count i lights).
Proof.
  intros Hi Hl. unfold pushLights.
  assert (H35 : Qabs 3.5 == 3.5) by reflexivity.
  assert (H35' : Qabs (-3.5) == 3.5) by reflexivity.
  destruct (_ && _); [|exact Hl]. cbv zeta.
  repeat match goal with
         | |- context [(length ?l <? count)%nat] =>
             destruct (length l <? count)%nat
         end;
    repeat (apply Forall_app; split); try exact Hl;
    apply Forall_singleton; unfold besideRoad; cbn [x z]; tauto.
Qed.

Section Spacing.
Variable count : nat.
Hypothesis positive : (0 < count)%nat.

Lemma count_positive : 0 < inject_Z (Z.of_nat count).
Proof. change 0 with (inject_Z 0). rewrite <- Zlt_Qlt. lia. Qed.

Lemma spacing_positive : 0 < spacing count.
Proof.
  unfold spacing. apply Qlt_shift_div_l; [exact count_positive|]. reflexivity.
Qed.

Lemma spacing_count : spacing count * inject_Z (Z.of_nat count) == 40.
Proof.
  unfold spacing. field. pose proof count_positive as H. intros E. rewrite E in H.
  by apply Qlt_irrefl in H.
Qed.

Lemma step_in_range (j : nat) :
  (j <= count)%nat <-> -20 + inject_Z (Z.of_nat j) * spacing count <= 20.
Proof.
  pose proof spacing_positive as Hs. pose proof spacing_count as Hc.
  split.
  - intros Hj.
    assert (H : inject_Z (Z.of_nat j) * spacing count <= inject_Z (Z.of_nat count) * spacing count).
    { apply Qmult_le_compat_r; [|lra]. rewrite <- Zle_Qle. lia. }
    lra.
  - intros Hi. destruct (decide (j <= count)%nat) as [|Hgt]; [done|exfalso].
    assert (H : (inject_Z (Z.of_nat count) + 1) * spacing count <= inject_Z (Z.of_nat j) * spacing count).
    { apply Qmult_le_compat_r; [|lra].
      change 1 with (inject_Z 1). rewrite <- inject_Z_plus, <- Zle_Qle. lia. }
    lra.
Qed.

Lemma streetlightLoop_spec fuel : forall (j : nat) i lights,
  i == -20 + inject_Z (Z.of_nat j) * spacing count ->
  (count < j + fuel)%nat ->
  (length lights <= count)%nat ->
  (i <= 0 -> (count `min` (4 * j) <= length lights)%nat) ->
  (0 < i -> (count `min` (4 * (j - 1)) <= length lights)%nat) ->
  Forall besideRoad lights ->
  exists out, streetlightLoop fuel count (spacing count) i lights = Some out
              /\ length out = count /\ Forall besideRoad out.
Proof.
  pose proof spacing_positive as Hs.
  induction fuel as [|fuel IH]; intros j i lights Hi Hfuel Hlen Hneg Hpos Hroad.
  - cbn [streetlightLoop].
    destruct (Qle_bool i 20) eqn:Hle.
    + apply Qle_bool_iff in Hle. rewrite Hi in Hle. apply step_in_range in Hle. lia.
    + exists lights. split; [reflexivity|]. split; [|exact Hroad].
      assert (Hgt : ~ i <= 20) by (rewrite <- Qle_bool_iff, Hle; discriminate).
      assert (Hj : ~ (j <= count)%nat).
      { intros Hj. apply step_in_range in Hj. rewrite <- Hi in Hj. contradiction. }
      assert (H0 : 0 < i) by lra. specialize (Hpos H0). lia.
  - cbn [streetlightLoop].
    destruct (Qle_bool i 20) eqn:Hle.
    + apply Qle_bool_iff in Hle.
      assert (Hlow : -20 <= i).
      { rewrite Hi. assert (0 <= inject_Z (Z.of_nat j) * spacing count); [|lra].
        apply Qmult_le_0_compat; [|lra]. change 0 with (inject_Z 0).
        rewrite <- Zle_Qle. lia. }
      destruct (pushLights_length count i lights Hlen) as [[Hmono Hcap] Hgrow].
      apply (IH (S j)).
      * rewrite Nat2Z.inj_succ. unfold Z.succ. rewrite inject_Z_plus.
        change (inject_Z 1) with 1. rewrite Hi. ring.
      * lia.
      * exact Hcap.
      * intros Hn. assert (Hne : ~ i == 0) by lra.
        specialize (Hgrow Hne). assert (Hi0 : i <= 0) by lra.
        specialize (Hneg Hi0). lia.
      * intros Hp. destruct (Qlt_le_dec 0 i) as [H0|H0].
        -- assert (Hne : ~ i == 0) by lra. specialize (Hgrow Hne).
           specialize (Hpos H0). lia.
        -- specialize (Hneg H0). lia.
      * apply pushLights_besideRoad; [split; assumption|exact Hroad].
    + exists lights. split; [reflexivity|]. split; [|exact Hroad].
      assert (Hgt : ~ i <= 20) by (rewrite <- Qle_bool_iff, Hle; discriminate).
      assert (Hj : ~ (j <= count)%nat).
      { intros Hj. apply step_in_range in Hj. rewrite <- Hi in Hj. contradiction. }
      assert (H0 : 0 < i) by lra. specialize (Hpos H0). lia.
Qed.

End Spacing.

(** X22. With more fuel than lights asked for, [addStreetlights(count)]
    ends and creates exactly [count] lights, each 3.5 to the side of a
    road axis and within the 40 units of road. *)
Theorem addStreetlights_places_count (fuel count : nat) :
  (count < fuel)%nat ->
  exists lights, addStreetlights fuel count = Some lights
                 /\ length lights = count /\ Forall besideRoad lights.
Proof.
  intros Hfuel. destruct count as [|n].
  - exists []. split; [reflexivity|]. split; [reflexivity|constructor].
  - unfold addStreetlights.
    apply (streetlightLoop_spec (S n) ltac:(lia) fuel 0%nat).
    + change (inject_Z (Z.of_nat 0)) with 0. ring.
    + lia.
    + cbn. lia.
    + intros _. cbn. lia.
    + intros H. discriminate H.
    + constructor.
Qed.

(** The call of [createEnvironment]: eight lights. *)
Lemma addStreetlights_places_count_witness :
  (8 < 9)%nat
  /\ exists lights, addStreetlights 9 8 = Some lights
                    /\ length lights = 8%nat /\ Forall besideRoad lights.
Proof.
  split; [lia|]. apply (addStreetlights_places_count 9 8). lia.
Defined.

Lemma halves_in_range : rng_in_range allHalf.
Proof. intros n. split; [discriminate|reflexivity]. Qed.

(** Twenty positions asked of the grid on a constant stream. *)
Lemma residential_selection_witness :
  rng_in_range allHalf
  /\ exists selected rest,
       addResidentialDistrict allHalf 20 0
       = Drawn selected ((grid allHalf 0).2 + length selected)
       /\ selected ++ rest ≡ₚ (grid allHalf 0).1
       /\ length selected = (20 `min` length (grid allHalf 0).1)%nat.
Proof.
  split; [exact halves_in_range|].
  exact (residential_selection allHalf 20 0 halves_in_range).
Defined.

(** Fourteen trees on a stream whose first candidate is rejected. *)
Lemma addTrees_places_count_witness :
  exists trees k',
    addTrees halfTwice 2 14 0 = Some (trees, k')
    /\ trees.*1 = seq 0 14
    /\ (forall i p, (i, p) ∈ trees -> (i < length treePositions)%nat ->
        treePositions !! i = Some p)
    /\ (forall i p, (i, p) ∈ trees -> (length treePositions <= i)%nat ->
        ~ (Qabs (x p) < 10 /\ Qabs (z p) < 10)
        /\ 5 <= Qabs (x p) /\ 5 <= Qabs (z p)).
Proof.
  eexists. eexists. split; [vm_compute; reflexivity|].
  eapply (addTrees_places_count halfTwice 2 14 0). vm_compute. reflexivity.
Defined.

(** The earlier loop on the same stream: the candidate at the origin is
    rejected, the second one is returned after two passes and not
    before. *)
Lemma samplePositionEarlier_first_outside_witness :
  rejectedEarlier halfTwice 0 = true
  /\ rejectedEarlier halfTwice 2 = false
  /\ (forall r, r ∈ exclusionRectangles ->
        ~ inside r (candidateEarlier halfTwice 2))
  /\ samplePositionEarlier halfTwice 2 0
     = Some (candidateEarlier halfTwice 2, 4%nat)
  /\ samplePositionEarlier halfTwice 1 0 = None.
Proof.
  split; [reflexivity|]. split; [reflexivity|].
  assert (Hrej : forall m, (m < 1)%nat ->
                   rejectedEarlier halfTwice (0 + 2 * m) = true).
  { intros m Hm. replace m with 0%nat by lia. reflexivity. }
  destruct (proj1 (samplePositionEarlier_first_outside halfTwice 0) 1%nat
              Hrej eq_refl) as [Hout Hrun].
  split; [exact Hout|].
  split; [apply (proj1 (Hrun 2%nat)); lia|apply (proj2 (Hrun 1%nat)); lia].
Defined.

End LayoutFacts.

(** ** Highlighting *)
Module GlowFacts.
Import Three.

Lemma traverseCollect_unfold {A} (callback : Object3D -> list A) o :
  traverseCollect callback o
  = callback o ++ flat_map (traverseCollect callback) (children o).
Proof.
  destruct o as [k p q u g m cs]. reflexivity.
Qed.

Section Frame.
Variable callback :
  Object3D -> gmap nat Material -> Object3D * gmap nat Material.
Variable targets : Object3D -> list nat.
Variable r : nat.
Hypothesis callback_frame :
  forall o ms, r ∉ targets o -> (callback o ms).2 !! r = ms !! r.

Lemma forEachChild_frame (f : Object3D -> gmap nat Material -> Object3D * gmap nat Material) cs :
  Forall (λ c, forall ms, r ∉ traverseCollect targets c -> (f c ms).2 !! r = ms !! r) cs ->
  forall ms, r ∉ flat_map (traverseCollect targets) cs ->
             (Building.forEachChild f cs ms).2 !! r = ms !! r.
Proof.
  induction 1 as [|c rest Hc _ IH]; intros ms Hr; cbn; [reflexivity|].
  cbn [flat_map] in Hr. apply not_elem_of_app in Hr as [Hr1 Hr2].
  specialize (Hc ms Hr1). destruct (f c ms) as [c' ms']. cbn in Hc.
  specialize (IH ms' Hr2).
  destruct (Building.forEachChild f rest ms') as [rest' ms'']. cbn in *.
  by rewrite IH.
Qed.

Lemma traverse_frame : forall o ms,
  r ∉ traverseCollect targets o ->
  (Building.traverse callback o ms).2 !! r = ms !! r.
Proof.
  fix IH 1. intros o ms Hr. rewrite traverseCollect_unfold in Hr.
  apply not_elem_of_app in Hr as [Hr1 Hr2].
  destruct o as [k p q u g m cs]. cbn [Building.traverse children] in *.
  pose proof (callback_frame (mkObject3D k p q u g m cs) ms Hr1) as H0.
  destruct (callback (mkObject3D k p q u g m cs) ms) as [o1 ms1]. cbn in H0.
  assert (Hcs : Forall (λ c, forall ms0, r ∉ traverseCollect targets c ->
                   (Building.traverse callback c ms0).2 !! r = ms0 !! r) cs).
  { clear H0 Hr1 Hr2. induction cs as [|c rest IHrest]; constructor.
    - apply IH.
    - apply IHrest. }
  pose proof (forEachChild_frame _ _ Hcs ms1 Hr2) as H1.
  destruct (Building.forEachChild (Building.traverse callback) cs ms1)
    as [cs' ms2]. cbn in *. by rewrite H1.
Qed.

End Frame.

Lemma highlightChild_frame r o ms :
  r ∉ Building.highlightTarget o -> (Building.highlightChild o ms).2 !! r = ms !! r.
Proof.
  unfold Building.highlightTarget, Building.highlightChild.
  destruct (isLogo _); [done|]. destruct (isMesh _); [|done].
  destruct (material o) as [r'|]; [|done]. cbn [option_list].
  intros Hr%not_elem_of_cons. destruct Hr as [Hr _].
  repeat case_match; cbn [snd]; try done; by rewrite lookup_alter_ne.
Qed.

Lemma unhighlightChild_frame r o ms :
  r ∉ Building.highlightTarget o -> (Building.unhighlightChild o ms).2 !! r = ms !! r.
Proof.
  unfold Building.highlightTarget, Building.unhighlightChild.
  destruct (isLogo _); [done|]. destruct (isMesh _); [|done].
  destruct (material o) as [r'|]; [|done]. cbn [option_list].
  intros Hr%not_elem_of_cons. destruct Hr as [Hr _].
  repeat case_match; cbn [snd]; try done; by rewrite lookup_alter_ne.
Qed.

(** X23. [highlight()] and [unhighlight()] change only materials that a mesh
    of the building without the logo mark refers to: every other
    material of the heap is as before. *)
Theorem highlight_touches_own_materials this root ms r :
  Building.mesh this = Some root ->
  r ∉ Building.highlightTargets root ->
  (Building.highlight this ms).2 !! r = ms !! r
  /\ (Building.unhighlight this ms).2 !! r = ms !! r.
Proof.
  intros Hm Hr. unfold Building.highlight, Building.unhighlight. rewrite Hm.
  split.
  - pose proof (traverse_frame _ _ r (highlightChild_frame r) root ms Hr) as H.
    destruct (Building.traverse Building.highlightChild root ms). exact H.
  - pose proof (traverse_frame _ _ r (unhighlightChild_frame r) root ms Hr) as H.
    destruct (Building.traverse Building.unhighlightChild root ms). exact H.
Qed.

Lemma highlight_touches_own_materials_witness :
  Building.mesh Scenes.showcaseBuilding
  = Some (Scenes.group (mkVector3 0 8 0)
            [Scenes.part Mesh 20 10 [Scenes.part InstancedMesh 22 12 []];
             Scenes.part Mesh 21 11 []])
  /\ (13%nat ∉ Building.highlightTargets
        (Scenes.group (mkVector3 0 8 0)
           [Scenes.part Mesh 20 10 [Scenes.part InstancedMesh 22 12 []];
            Scenes.part Mesh 21 11 []]))
  /\ (forall ms,
       (Building.highlight Scenes.showcaseBuilding ms).2 !! 13%nat = ms !! 13%nat
       /\ (Building.unhighlight Scenes.showcaseBuilding ms).2 !! 13%nat
          = ms !! 13%nat).
Proof.
  split; [reflexivity|]. split; [compute_done|].
  intros ms.
  apply (highlight_touches_own_materials Scenes.showcaseBuilding
           (Scenes.group (mkVector3 0 8 0)
              [Scenes.part Mesh 20 10 [Scenes.part InstancedMesh 22 12 []];
               Scenes.part Mesh 21 11 []]) ms 13).
  - reflexivity.
  - compute_done.
Defined.


(** X25. A building of one plain part that is not highlighted: after
    [highlight()] and [unhighlight()] the emissive colour of its
    material is black with intensity 0, unless the base colour of the
    material is black (0x000000): then the colour recorded by
    [highlight()] counts as absent, [unhighlight()] passes the part
    over, and it keeps the white glow and the recorded colour. *)
Theorem highlight_round_trip_plain_part this root r m ms :
  Building.mesh this = Some root ->
  children root = [] ->
  isLogo (userData root) = false ->
  kind root = Mesh ->
  originalColor (userData root) = None ->
  material root = Some r ->
  ms !! r = Some m ->
  let '(b1, ms1) := Building.highlight this ms in
  let '(b2, ms2) := Building.unhighlight b1 ms1 in
  ms1 !! r = Some (Building.setEmissive 0xffffff 0.2 m)
  /\ (color m <> 0%Z ->
      ms2 !! r = Some (Building.setEmissive 0x000000 0 m)
      /\ Building.mesh b2 = Some root)
  /\ (color m = 0%Z ->
      ms2 !! r = Some (Building.setEmissive 0xffffff 0.2 m)
      /\ (originalColor ∘ userData <$> Building.mesh b2) = Some (Some 0%Z)).
Proof.
  destruct root as [k p q [logo orig] g mat cs]. cbn.
  intros Hm -> -> -> -> -> Hr.
  unfold Building.highlight. rewrite Hm.
  cbn. rewrite Hr. cbn.
  unfold Building.unhighlight. cbn.
  destruct (Z.eqb_spec (color m) 0) as [H0|H0]; cbn.
  - rewrite lookup_alter_eq, Hr. cbn. split; [reflexivity|].
    split; [intros Hne; contradiction|]. intros _. rewrite H0. split; reflexivity.
  - rewrite lookup_alter_eq, Hr. cbn. split; [reflexivity|].
    split; [|intros Hne; contradiction]. intros _.
    rewrite lookup_alter_eq, lookup_alter_eq, Hr. cbn. split; reflexivity.
Qed.

Lemma highlight_round_trip_plain_part_witness :
  let '(b1, ms1) := Building.highlight Scenes.blackBuilding Scenes.blackMaterials in
  let '(b2, ms2) := Building.unhighlight b1 ms1 in
  ms1 !! 10%nat
  = Some (Building.setEmissive 0xffffff 0.2
            (mkMaterial MeshStandardMaterial 0 0 1 None))
  /\ (0%Z <> 0%Z ->
      ms2 !! 10%nat
      = Some (Building.setEmissive 0x000000 0
                (mkMaterial MeshStandardMaterial 0 0 1 None))
      /\ Building.mesh b2 = Some (Scenes.part Mesh 20 10 []))
  /\ (0%Z = 0%Z ->
      ms2 !! 10%nat
      = Some (Building.setEmissive 0xffffff 0.2
                (mkMaterial MeshStandardMaterial 0 0 1 None))
      /\ (originalColor ∘ userData <$> Building.mesh b2) = Some (Some 0%Z)).
Proof.
  exact (highlight_round_trip_plain_part Scenes.blackBuilding (Scenes.part Mesh 20 10 []) 10
           (mkMaterial MeshStandardMaterial 0 0 1 None) Scenes.blackMaterials
           eq_refl eq_refl eq_refl eq_refl eq_refl eq_refl eq_refl).
Defined.

Lemma highlight_plain_part this root r m ms :
  Building.mesh this = Some root ->
  children root = [] ->
  isLogo (userData root) = false ->
  kind root = Mesh ->
  originalColor (userData root) = None ->
  material root = Some r ->
  ms !! r = Some m ->
  (Building.highlight this ms).2 !! r = Some (Building.setEmissive 0xffffff 0.2 m).
Proof.
  destruct root as [k p q [logo orig] g mat cs]. cbn.
  intros Hm -> -> -> -> -> Hr.
  unfold Building.highlight. rewrite Hm. cbn. rewrite Hr. cbn.
  by rewrite lookup_alter_eq, Hr.
Qed.

Section Shared.
Variable numToString : Q -> string.
Variable jsonQuote : string -> string.
Variable newMaterial : MaterialKind -> Js.JsObject -> Material.

(** X26. Two buildings that were given the shared cache and ask for a
    material of the same type and parameters hold the same object:
    when the first, a plain part, is highlighted, the material that the
    second holds gets the white glow as well. *)
Theorem highlight_reaches_buildings_sharing_material
    a b type params s r1 s1 r2 s2 root :
  Building.materialCache a = true ->
  Building.materialCache b = true ->
  backed s ->
  Building.getMaterial numToString jsonQuote newMaterial a type params s
  = (Some (Js.Own r1), s1) ->
  Building.getMaterial numToString jsonQuote newMaterial b type params s1
  = (Some (Js.Own r2), s2) ->
  Building.mesh a = Some root ->
  children root = [] ->
  isLogo (userData root) = false ->
  kind root = Mesh ->
  originalColor (userData root) = None ->
  material root = Some r1 ->
  r2 = r1
  /\ exists m, materials s2 !! r2 = Some m
     /\ (Building.highlight a (materials s2)).2 !! r2
        = Some (Building.setEmissive 0xffffff 0.2 m).
Proof.
  intros Ha Hb [_ Hback] H1 H2 Hmesh Hcs Hlogo Hkind Horig Hmat.
  unfold Building.getMaterial in H1, H2. rewrite Ha in H1. rewrite Hb in H2.
  cbv zeta in H1, H2.
  assert (Hs1 : materialCache s1
                !! Building.materialKey numToString jsonQuote type params
                = Some r1 /\ is_Some (materials s1 !! r1)).
  { unfold Js.read in H1.
    destruct (materialCache s !! _) as [r|] eqn:E.
    - injection H1 as -> ->. split; [exact E|]. by eapply Hback.
    - change (Building.materialKey numToString jsonQuote type params)
        with (Portfolio.materialKey numToString jsonQuote type params) in H1.
      rewrite CacheFacts.materialKey_own in H1.
      destruct (Building.materialKind type); [|discriminate].
      injection H1 as <- <-. cbn.
      rewrite !lookup_insert_eq. split; [reflexivity|]. by eexists. }
  destruct Hs1 as [Hkey [m Hm]]. rewrite (CacheFacts.read_own _ _ _ Hkey) in H2.
  injection H2 as -> ->. split; [reflexivity|].
  exists m. split; [exact Hm|].
  by apply (highlight_plain_part a root).
Qed.

End Shared.

Lemma highlight_reaches_buildings_sharing_material_witness :
  exists s1 m,
    Building.getMaterial Scenes.showNum Scenes.showString Scenes.newMaterial
      Scenes.paleBuilding "standard" Scenes.paleParams emptyStore
      = (Some (Js.Own 0%nat), s1)
    /\ Building.getMaterial Scenes.showNum Scenes.showString Scenes.newMaterial
         Scenes.mainBuilding "standard" Scenes.paleParams s1
         = (Some (Js.Own 0%nat), s1)
    /\ materials s1 !! 0%nat = Some m
    /\ (Building.highlight Scenes.paleBuilding (materials s1)).2 !! 0%nat
       = Some (Building.setEmissive 0xffffff 0.2 m).
Proof.
  eexists. eexists. split; [reflexivity|]. split; [reflexivity|].
  assert (Hb : backed emptyStore).
  { split; intros k r H; cbn in H; rewrite lookup_empty in H; discriminate. }
  destruct (highlight_reaches_buildings_sharing_material
              Scenes.showNum Scenes.showString Scenes.newMaterial
              Scenes.paleBuilding Scenes.mainBuilding "standard" Scenes.paleParams emptyStore
              0%nat _ 0%nat _ (Scenes.part Mesh 1 0 [])
              eq_refl eq_refl Hb eq_refl eq_refl
              eq_refl eq_refl eq_refl eq_refl eq_refl eq_refl)
    as [_ (m & Hm & Hh)].
  cbn in Hm. rewrite lookup_insert_eq in Hm. injection Hm as <-.
  split; [apply lookup_insert_eq|]. exact Hh.
Defined.

End GlowFacts.
